(** * gRPC core: connectivity-state tracker and SPIFFE TLS security connector

    A shallow embedding of

    - [src/core/lib/transport/connectivity_state.cc]
      (the [ConnectivityStateTracker] and its watcher registry), and
    - [src/core/lib/security/security_connector/tls/spiffe_security_connector.cc]
      (credential reload, handshaker-factory life cycle, peer check),

    followed by the properties proved about them.

    Conventions.  Every function is written in state-passing style: it takes
    the object it is a method of and returns the updated object together
    with the list of externally visible effects it performed, in program
    order.  A failing [GPR_ASSERT] aborts the process; functions that can reach
    one return an [outcome].  The per-connector mutex only serialises calls
    and is not represented: one call is one step of the model. *)

From stdpp Require Import gmap strings list.

Open Scope string_scope.
Open Scope list_scope.

(** ** Part I.  [connectivity_state.cc] *)

Module Connectivity.

(** [grpc_connectivity_state], as enumerated by [ConnectivityStateName]. *)
Inductive grpc_connectivity_state :=
| GRPC_CHANNEL_IDLE
| GRPC_CHANNEL_CONNECTING
| GRPC_CHANNEL_READY
| GRPC_CHANNEL_TRANSIENT_FAILURE
| GRPC_CHANNEL_SHUTDOWN.

#[global] Instance grpc_connectivity_state_eq_dec :
  EqDecision grpc_connectivity_state.
Proof. solve_decision. Defined.

Definition ConnectivityStateName (state : grpc_connectivity_state) : string :=
  match state with
  | GRPC_CHANNEL_IDLE => "IDLE"
  | GRPC_CHANNEL_CONNECTING => "CONNECTING"
  | GRPC_CHANNEL_READY => "READY"
  | GRPC_CHANNEL_TRANSIENT_FAILURE => "TRANSIENT_FAILURE"
  | GRPC_CHANNEL_SHUTDOWN => "SHUTDOWN"
  end.

(** A watcher is identified by the address of the watcher object. *)
Definition watcher_ptr := positive.

(** The lines [gpr_log] writes when the trace flag is on; the pointer and
    the state names are kept as data instead of being formatted. *)
Inductive log_line :=
| LogAddWatcher (name : string) (w : watcher_ptr)
| LogNotifying (name : string) (w : watcher_ptr) (from to : string)
| LogRemoveWatcher (name : string) (w : watcher_ptr)
| LogSetState (name : string) (from to : string) (reason : string)
| LogGetState (name : string) (state : string).

(** Effects of the tracker's methods. *)
Inductive event :=
| EvLog (l : log_line)
    (* gpr_log(GPR_INFO, ...) *)
| EvNotify (w : watcher_ptr) (state : grpc_connectivity_state)
    (* w->Notify(state) *)
| EvOrphan (w : watcher_ptr).
    (* an OrphanablePtr owning w is destroyed: w->Orphan() *)

#[global] Instance log_line_eq_dec : EqDecision log_line.
Proof. solve_decision. Defined.

#[global] Instance event_eq_dec : EqDecision event.
Proof. solve_decision. Defined.

(** [watchers_] is a [std::map] from the watcher's address to the
    [OrphanablePtr] owning that same watcher; its only insertion site is
    [insert(make_pair(watcher.get(), std::move(watcher)))], so the map is the
    set of owned addresses. *)
Record ConnectivityStateTracker := mkTracker {
  name_ : string;
  state_ : grpc_connectivity_state;
  watchers_ : gset watcher_ptr
}.

(** The notifications contained in a trace, in order. *)
Definition notifications (evs : list event)
  : list (watcher_ptr * grpc_connectivity_state) :=
  omap (λ e, match e with EvNotify w s => Some (w, s) | _ => None end) evs.

(** The states one watcher is told in a trace, in order. *)
Definition received (w : watcher_ptr) (evs : list event)
  : list grpc_connectivity_state :=
  omap (λ e, match e with
             | EvNotify w' s => if decide (w' = w) then Some s else None
             | _ => None
             end) evs.

(** The watchers orphaned in a trace, in order. *)
Definition orphaned (evs : list event) : list watcher_ptr :=
  omap (λ e, match e with EvOrphan w => Some w | _ => None end) evs.

(** The invariant of the registry: a tracker in SHUTDOWN holds no watcher. *)
Definition shutdown_registry_empty (t : ConnectivityStateTracker) : Prop :=
  state_ t = GRPC_CHANNEL_SHUTDOWN → watchers_ t = ∅.

Section Tracker.

(** [GRPC_TRACE_FLAG_ENABLED(grpc_connectivity_state_trace)]. *)
Variable grpc_connectivity_state_trace : bool.

Definition trace_log (l : log_line) : list event :=
  if grpc_connectivity_state_trace then [EvLog l] else [].

(** The constructor: a name, an initial state, no watcher. *)
Definition new_tracker (name : string) (state : grpc_connectivity_state)
  : ConnectivityStateTracker :=
  mkTracker name state ∅.

(** The body of the [for (const auto& p : watchers_)] loops.  The list
    stands for the map in its iteration order; [elements] fixes one order
    for each set, and no property below depends on which. *)
Definition notify_all (name : string) (ws : list watcher_ptr)
    (current_state state : grpc_connectivity_state) : list event :=
  w ← ws;
  trace_log (LogNotifying name w (ConnectivityStateName current_state)
                          (ConnectivityStateName state))
    ++ [EvNotify w state].

(** [ConnectivityStateTracker::~ConnectivityStateTracker]; the members
    are destroyed after the body, which orphans every watcher left. *)
Definition destroy (t : ConnectivityStateTracker) : list event :=
  let current_state := state_ t in
  (if decide (current_state = GRPC_CHANNEL_SHUTDOWN) then []
   else notify_all (name_ t) (elements (watchers_ t)) current_state
                   GRPC_CHANNEL_SHUTDOWN)
  ++ (EvOrphan <$> elements (watchers_ t)).

(** [ConnectivityStateTracker::AddWatcher].  When the map already holds
    the key, [insert] leaves the map alone and the pointer passed in is
    destroyed with the temporary pair. *)
Definition AddWatcher (t : ConnectivityStateTracker)
    (initial_state : grpc_connectivity_state) (watcher : watcher_ptr)
  : ConnectivityStateTracker * list event :=
  let log_add := trace_log (LogAddWatcher (name_ t) watcher) in
  let current_state := state_ t in
  let catch_up :=
    if decide (initial_state = current_state) then []
    else trace_log (LogNotifying (name_ t) watcher
                      (ConnectivityStateName initial_state)
                      (ConnectivityStateName current_state))
         ++ [EvNotify watcher current_state] in
  if decide (current_state = GRPC_CHANNEL_SHUTDOWN) then
    (t, log_add ++ catch_up ++ [EvOrphan watcher])
  else if decide (watcher ∈ watchers_ t) then
    (t, log_add ++ catch_up ++ [EvOrphan watcher])
  else
    (mkTracker (name_ t) (state_ t) ({[ watcher ]} ∪ watchers_ t),
     log_add ++ catch_up).

(** [ConnectivityStateTracker::RemoveWatcher]: erasing the entry
    destroys the owning pointer. *)
Definition RemoveWatcher (t : ConnectivityStateTracker) (watcher : watcher_ptr)
  : ConnectivityStateTracker * list event :=
  (mkTracker (name_ t) (state_ t) (watchers_ t ∖ {[ watcher ]}),
   trace_log (LogRemoveWatcher (name_ t) watcher)
   ++ (if decide (watcher ∈ watchers_ t) then [EvOrphan watcher] else [])).

(** [ConnectivityStateTracker::SetState]. *)
Definition SetState (t : ConnectivityStateTracker)
    (state : grpc_connectivity_state) (reason : string)
  : ConnectivityStateTracker * list event :=
  let current_state := state_ t in
  if decide (state = current_state) then (t, [])
  else
    let log_set :=
      trace_log (LogSetState (name_ t) (ConnectivityStateName current_state)
                             (ConnectivityStateName state) reason) in
    let notes :=
      notify_all (name_ t) (elements (watchers_ t)) current_state state in
    if decide (state = GRPC_CHANNEL_SHUTDOWN) then
      (mkTracker (name_ t) state ∅,
       log_set ++ notes ++ (EvOrphan <$> elements (watchers_ t)))
    else
      (mkTracker (name_ t) state (watchers_ t), log_set ++ notes).

(** [ConnectivityStateTracker::state]. *)
Definition state (t : ConnectivityStateTracker)
  : grpc_connectivity_state * list event :=
  (state_ t,
   trace_log (LogGetState (name_ t) (ConnectivityStateName (state_ t)))).

End Tracker.

End Connectivity.

(** ** Part II.  [spiffe_security_connector.cc] *)

Module Spiffe.

(** [grpc_status_code] (from [grpc/impl/codegen/status.h]). *)
Inductive grpc_status_code :=
| GRPC_STATUS_OK
| GRPC_STATUS_CANCELLED
| GRPC_STATUS_UNKNOWN
| GRPC_STATUS_INVALID_ARGUMENT
| GRPC_STATUS_DEADLINE_EXCEEDED
| GRPC_STATUS_NOT_FOUND
| GRPC_STATUS_ALREADY_EXISTS
| GRPC_STATUS_PERMISSION_DENIED
| GRPC_STATUS_UNAUTHENTICATED
| GRPC_STATUS_RESOURCE_EXHAUSTED
| GRPC_STATUS_FAILED_PRECONDITION
| GRPC_STATUS_ABORTED
| GRPC_STATUS_OUT_OF_RANGE
| GRPC_STATUS_UNIMPLEMENTED
| GRPC_STATUS_INTERNAL
| GRPC_STATUS_UNAVAILABLE
| GRPC_STATUS_DATA_LOSS.

Inductive grpc_security_status := GRPC_SECURITY_OK | GRPC_SECURITY_ERROR.

Inductive grpc_ssl_certificate_config_reload_status :=
| GRPC_SSL_CERTIFICATE_CONFIG_RELOAD_UNCHANGED
| GRPC_SSL_CERTIFICATE_CONFIG_RELOAD_NEW
| GRPC_SSL_CERTIFICATE_CONFIG_RELOAD_FAIL.

#[global] Instance grpc_status_code_eq_dec : EqDecision grpc_status_code.
Proof. solve_decision. Defined.

#[global] Instance grpc_security_status_eq_dec :
  EqDecision grpc_security_status.
Proof. solve_decision. Defined.

#[global] Instance reload_status_eq_dec :
  EqDecision grpc_ssl_certificate_config_reload_status.
Proof. solve_decision. Defined.

(** [grpc_error*]: [GRPC_ERROR_NONE] or an error created from a message. *)
Inductive grpc_error :=
| GRPC_ERROR_NONE
| GRPC_ERROR_CREATE (msg : string).

#[global] Instance grpc_error_eq_dec : EqDecision grpc_error.
Proof. solve_decision. Defined.

(** Opaque addresses: handshaker factories, closures, session caches, user
    contexts and the functions that destroy them. *)
Definition factory_ptr := positive.
Definition grpc_closure := positive.
Definition session_cache_ptr := positive.
Definition context_ptr := positive.
Definition destroy_fn := positive.

(** A nullable C string is an [option string]. *)
Definition c_string := option string.

(** What [strdup] keeps of a buffer: the characters before the first NUL. *)
Fixpoint c_str (s : string) : string :=
  match s with
  | EmptyString => EmptyString
  | String a r => if Ascii.eqb a Ascii.zero then EmptyString
                  else String a (c_str r)
  end.

Definition gpr_strdup (s : c_string) : c_string := c_str <$> s.

(** What the [%s] conversion of [gpr_asprintf] prints; for a null argument
    the C library in use prints this marker. *)
Definition printf_s (s : c_string) : string := default "(null)" s.


(** *** Key materials *)

(** [grpc_tls_key_materials_config::PemKeyCertPair]: two owned C strings. *)
Record PemKeyCertPair := mkPair {
  private_key : c_string;
  cert_chain : c_string
}.

Record tsi_ssl_pem_key_cert_pair := mkTsiPair {
  tsi_private_key : string;
  tsi_cert_chain : string
}.

Record grpc_tls_key_materials_config := mkMaterials {
  pem_root_certs : c_string;
  pem_key_cert_pair_list : list PemKeyCertPair
}.

(** [grpc_tls_key_materials_config_create()]. *)
Definition grpc_tls_key_materials_config_create : grpc_tls_key_materials_config :=
  mkMaterials None [].

(** [set_key_materials]: both members are replaced. *)
Definition set_key_materials (_ : grpc_tls_key_materials_config)
    (root : c_string) (pairs : list PemKeyCertPair)
  : grpc_tls_key_materials_config :=
  mkMaterials root pairs.

(** The result of a function that contains a [GPR_ASSERT]. *)
Inductive outcome (A : Type) :=
| Done (a : A)
| AssertionFailed.
Arguments Done {A} a.
Arguments AssertionFailed {A}.

(** [ConvertToTsiPemKeyCertPair]: the two assertions of the loop body are
    checked pair by pair, in order; an empty list gives [nullptr]. *)
Fixpoint ConvertToTsiPemKeyCertPair (cert_pair_list : list PemKeyCertPair)
  : outcome (list tsi_ssl_pem_key_cert_pair) :=
  match cert_pair_list with
  | [] => Done []
  | p :: rest =>
      match private_key p, cert_chain p with
      | Some k, Some c =>
          match ConvertToTsiPemKeyCertPair rest with
          | Done r => Done (mkTsiPair (c_str k) (c_str c) :: r)
          | AssertionFailed => AssertionFailed
          end
      | _, _ => AssertionFailed
      end
  end.

(** The pair passes the two assertions of [ConvertToTsiPemKeyCertPair]. *)
Definition pair_complete (p : PemKeyCertPair) : bool :=
  bool_decide (is_Some (private_key p)) && bool_decide (is_Some (cert_chain p)).

(** The store passes the assertions [ReplaceHandshakerFactory] makes before
    it builds a factory: the list is not empty and every pair is complete. *)
Definition replace_assertions_hold (km : grpc_tls_key_materials_config) : bool :=
  negb (bool_decide (pem_key_cert_pair_list km = []))
  && forallb pair_complete (pem_key_cert_pair_list km).

(** *** Credential reload *)

(** [grpc_tls_credential_reload_arg]; [key_materials_config] points to the
    connector's store, whose contents the callee may replace. *)
Record grpc_tls_credential_reload_arg := mkReloadArg {
  reload_key_materials_config : grpc_tls_key_materials_config;
  reload_status : grpc_ssl_certificate_config_reload_status;
  reload_error_details : c_string;
  reload_context : option context_ptr;
  reload_destroy_context : option destroy_fn
}.

(** [grpc_core::New<grpc_tls_credential_reload_arg>()] followed by the
    assignment of [key_materials_config]: every other member is zero. *)
Definition new_reload_arg (km : grpc_tls_key_materials_config)
  : grpc_tls_credential_reload_arg :=
  mkReloadArg km GRPC_SSL_CERTIFICATE_CONFIG_RELOAD_UNCHANGED None None None.

(** [grpc_tls_credential_reload_config]: the user's [schedule] function,
    which updates the argument in place and returns an [int], nonzero when
    it will complete asynchronously. *)
Record grpc_tls_credential_reload_config := mkReloadConfig {
  reload_Schedule :
    grpc_tls_credential_reload_arg → grpc_tls_credential_reload_arg * Z
}.

(** *** Server authorization check *)

Record grpc_tls_server_authorization_check_arg := mkCheckArg {
  check_peer_cert : c_string;
  check_target_name : c_string;
  check_status : grpc_status_code;
  check_success : bool;
  check_error_details : c_string;
  check_context : option context_ptr;
  check_destroy_context : option destroy_fn
}.

Record grpc_tls_server_authorization_check_config := mkCheckConfig {
  check_Schedule :
    grpc_tls_server_authorization_check_arg →
    grpc_tls_server_authorization_check_arg * Z
}.

Inductive grpc_ssl_client_certificate_request_type :=
| GRPC_SSL_DONT_REQUEST_CLIENT_CERTIFICATE
| GRPC_SSL_REQUEST_CLIENT_CERTIFICATE_BUT_DONT_VERIFY
| GRPC_SSL_REQUEST_CLIENT_CERTIFICATE_AND_VERIFY
| GRPC_SSL_REQUEST_AND_REQUIRE_CLIENT_CERTIFICATE_BUT_DONT_VERIFY
| GRPC_SSL_REQUEST_AND_REQUIRE_CLIENT_CERTIFICATE_AND_VERIFY.

(** [grpc_tls_credentials_options]: the members this file reads. *)
Record grpc_tls_credentials_options := mkOptions {
  cert_request_type : grpc_ssl_client_certificate_request_type;
  key_materials_config : option grpc_tls_key_materials_config;
  credential_reload_config : option grpc_tls_credential_reload_config;
  server_authorization_check_config :
    option grpc_tls_server_authorization_check_config
}.

(** *** Effects *)

Inductive event :=
| EvReloadSchedule
    (* options.credential_reload_config()->Schedule(arg) *)
| EvReloadDestroyContext (f : destroy_fn) (ctx : option context_ptr)
    (* arg->destroy_context(arg->context) *)
| EvReloadArgDelete
    (* grpc_core::Delete(arg) *)
| EvClientFactoryUnref (f : factory_ptr)
| EvClientFactoryInit (pairs : list tsi_ssl_pem_key_cert_pair)
    (root : c_string) (cache : option session_cache_ptr)
    (* grpc_ssl_tsi_client_handshaker_factory_init *)
| EvServerFactoryUnref (f : factory_ptr)
| EvServerFactoryInit (pairs : list tsi_ssl_pem_key_cert_pair) (n : nat)
    (root : c_string) (req : grpc_ssl_client_certificate_request_type)
    (* grpc_ssl_tsi_server_handshaker_factory_init *)
| EvPairsDestroy (n : nat)
    (* grpc_tsi_ssl_pem_key_cert_pairs_destroy *)
| EvCheckSchedule (arg : grpc_tls_server_authorization_check_arg)
    (* config->Schedule(check_arg_) *)
| EvExecCtxRun (closure : option grpc_closure) (error : grpc_error)
    (* grpc_core::ExecCtx::Run(DEBUG_LOCATION, closure, error) *)
| EvTsiPeerDestruct.
    (* tsi_peer_destruct(&peer) *)

(** How many times a trace releases a handshaker factory, how many times it
    runs a factory construction, and how many times it invokes the
    credential-reload capability. *)
Definition is_release (e : event) : bool :=
  match e with
  | EvClientFactoryUnref _ | EvServerFactoryUnref _ => true
  | _ => false
  end.

Definition is_rebuild (e : event) : bool :=
  match e with
  | EvClientFactoryInit _ _ _ | EvServerFactoryInit _ _ _ _ => true
  | _ => false
  end.

Definition is_reload (e : event) : bool :=
  match e with
  | EvReloadSchedule => true
  | _ => false
  end.

Definition count (f : event → bool) (evs : list event) : nat :=
  length (List.filter f evs).

Definition releases : list event → nat := count is_release.
Definition rebuilds : list event → nat := count is_rebuild.
Definition reloads : list event → nat := count is_reload.

(** The completion callbacks a trace runs, in order. *)
Definition completions (evs : list event)
  : list (option grpc_closure * grpc_error) :=
  omap (λ e, match e with EvExecCtxRun c err => Some (c, err) | _ => None end)
       evs.

(** How many times a trace invokes the authorization-check capability. *)
Definition check_invocations (evs : list event) : nat :=
  length (omap (λ e, match e with EvCheckSchedule a => Some a | _ => None end)
               evs).

(** *** [TlsFetchKeyMaterials]

    The two pointer assertions of the function hold at each of its four
    call sites (the store is created by the constructors and
    [&reload_status] is the address of a local), so the store and the
    initial [*reload_status] are passed as values. *)

(** What a call leaves behind: the returned status, the store, the value of
    [*reload_status], and the effects. *)
Record fetch_result := mkFetch {
  fetch_status : grpc_status_code;
  fetch_materials : grpc_tls_key_materials_config;
  fetch_reload_status : grpc_ssl_certificate_config_reload_status;
  fetch_events : list event
}.

(** The release of the transient argument (source lines 106-110). *)
Definition release_reload_arg (arg : grpc_tls_credential_reload_arg)
  : list event :=
  match reload_destroy_context arg with
  | Some f => [EvReloadDestroyContext f (reload_context arg)]
  | None => []
  end ++ [EvReloadArgDelete].

Definition TlsFetchKeyMaterials
    (key_materials_config : grpc_tls_key_materials_config)
    (options : grpc_tls_credentials_options)
    (reload_status_in : grpc_ssl_certificate_config_reload_status)
  : fetch_result :=
  let is_key_materials_empty :=
    bool_decide (pem_key_cert_pair_list key_materials_config = []) in
  match credential_reload_config options with
  | None =>
      if is_key_materials_empty then
        mkFetch GRPC_STATUS_FAILED_PRECONDITION key_materials_config
                reload_status_in []
      else
        mkFetch GRPC_STATUS_OK key_materials_config reload_status_in []
  | Some config =>
      let arg0 := new_reload_arg key_materials_config in
      let '(arg, result) := reload_Schedule config arg0 in
      let '(status, reload_status_out) :=
        if decide (result ≠ 0%Z) then
          (if is_key_materials_empty then GRPC_STATUS_UNIMPLEMENTED
           else GRPC_STATUS_OK,
           reload_status_in)
        else
          (match reload_status arg with
           | GRPC_SSL_CERTIFICATE_CONFIG_RELOAD_UNCHANGED => GRPC_STATUS_OK
           | GRPC_SSL_CERTIFICATE_CONFIG_RELOAD_FAIL =>
               if is_key_materials_empty then GRPC_STATUS_INTERNAL
               else GRPC_STATUS_OK
           | GRPC_SSL_CERTIFICATE_CONFIG_RELOAD_NEW => GRPC_STATUS_OK
           end,
           reload_status arg) in
      mkFetch status (reload_key_materials_config arg) reload_status_out
              (EvReloadSchedule :: release_reload_arg arg)
  end.

(** *** External collaborators

    The functions of [ssl_utils.h] and [transport_security.h] that this file
    calls but does not define.  A factory initialiser receives the address
    of the connector's factory slot: it returns a status and the slot's new
    content. *)
Class Collaborators := {
  tsi_peer : Type;
  grpc_auth_context : Type;
  grpc_ssl_check_alpn : tsi_peer → grpc_error;
  grpc_ssl_peer_to_auth_context : tsi_peer → string → grpc_auth_context;
  GRPC_TLS_SPIFFE_TRANSPORT_SECURITY_TYPE : string;
  (* the value of the property of that name, if the peer has one *)
  tsi_peer_get_property_by_name : tsi_peer → string → option string;
  TSI_X509_PEM_CERT_PROPERTY : string;
  grpc_ssl_tsi_client_handshaker_factory_init :
    list tsi_ssl_pem_key_cert_pair → c_string → option session_cache_ptr →
    option factory_ptr → grpc_security_status * option factory_ptr;
  grpc_ssl_tsi_server_handshaker_factory_init :
    list tsi_ssl_pem_key_cert_pair → nat → c_string →
    grpc_ssl_client_certificate_request_type →
    option factory_ptr → grpc_security_status * option factory_ptr
}.

(** *** [SpiffeChannelSecurityConnector] *)

Record SpiffeChannelSecurityConnector := mkChannelConnector {
  channel_creds_options : grpc_tls_credentials_options;
  target_name_ : string;
  overridden_target_name_ : c_string;
  client_handshaker_factory_ : option factory_ptr;
  key_materials_config_ : grpc_tls_key_materials_config;
  check_arg_ : grpc_tls_server_authorization_check_arg;
  on_peer_checked_ : option grpc_closure
}.

(** [ServerAuthorizationCheckArgCreate]: zeroed, with status OK. *)
Definition ServerAuthorizationCheckArgCreate
  : grpc_tls_server_authorization_check_arg :=
  mkCheckArg None None GRPC_STATUS_OK false None None None.

(** [ProcessServerAuthorizationCheckResult]. *)
Definition ProcessServerAuthorizationCheckResult
    (arg : grpc_tls_server_authorization_check_arg) : grpc_error :=
  if decide (check_status arg = GRPC_STATUS_CANCELLED) then
    GRPC_ERROR_CREATE
      ("Server authorization check is cancelled by the caller with error: "
       +:+ printf_s (check_error_details arg))
  else if decide (check_status arg = GRPC_STATUS_OK) then
    if negb (check_success arg) then
      GRPC_ERROR_CREATE
        ("Server authorization check failed with error: "
         +:+ printf_s (check_error_details arg))
    else GRPC_ERROR_NONE
  else
    GRPC_ERROR_CREATE
      ("Server authorization check did not finish correctly with error: "
       +:+ printf_s (check_error_details arg)).

(** The assignments [check_peer] makes to the reusable request before it
    schedules a check: [peer_cert] and [target_name] are written only
    when they are still null. *)
Definition populate_check_arg (arg : grpc_tls_server_authorization_check_arg)
    (peer_pem target_name : string) : grpc_tls_server_authorization_check_arg :=
  mkCheckArg
    (match check_peer_cert arg with
     | None => Some (c_str peer_pem)
     | Some old => Some old
     end)
    (match check_target_name arg with
     | None => Some (c_str target_name)
     | Some old => Some old
     end)
    (check_status arg) (check_success arg) (check_error_details arg)
    (check_context arg) (check_destroy_context arg).


Definition set_client_factory (c : SpiffeChannelSecurityConnector)
    (f : option factory_ptr) : SpiffeChannelSecurityConnector :=
  mkChannelConnector (channel_creds_options c) (target_name_ c)
    (overridden_target_name_ c) f (key_materials_config_ c) (check_arg_ c)
    (on_peer_checked_ c).

Definition set_client_materials (c : SpiffeChannelSecurityConnector)
    (km : grpc_tls_key_materials_config) : SpiffeChannelSecurityConnector :=
  mkChannelConnector (channel_creds_options c) (target_name_ c)
    (overridden_target_name_ c) (client_handshaker_factory_ c) km
    (check_arg_ c) (on_peer_checked_ c).

Definition set_check (c : SpiffeChannelSecurityConnector)
    (arg : grpc_tls_server_authorization_check_arg)
    (closure : option grpc_closure) : SpiffeChannelSecurityConnector :=
  mkChannelConnector (channel_creds_options c) (target_name_ c)
    (overridden_target_name_ c) (client_handshaker_factory_ c)
    (key_materials_config_ c) arg closure.

(** *** [SpiffeServerSecurityConnector] *)

Record SpiffeServerSecurityConnector := mkServerConnector {
  server_creds_options : grpc_tls_credentials_options;
  server_handshaker_factory_ : option factory_ptr;
  server_key_materials_config_ : grpc_tls_key_materials_config
}.

Definition set_server_factory (c : SpiffeServerSecurityConnector)
    (f : option factory_ptr) : SpiffeServerSecurityConnector :=
  mkServerConnector (server_creds_options c) f
    (server_key_materials_config_ c).

Definition set_server_materials (c : SpiffeServerSecurityConnector)
    (km : grpc_tls_key_materials_config) : SpiffeServerSecurityConnector :=
  mkServerConnector (server_creds_options c) (server_handshaker_factory_ c) km.

(** The copy Initialize makes of the key materials of the credential
    options, when they have any. *)
Definition copy_key_materials (options : grpc_tls_credentials_options)
    (store : grpc_tls_key_materials_config) : grpc_tls_key_materials_config :=
  match key_materials_config options with
  | Some km =>
      set_key_materials store (gpr_strdup (pem_root_certs km))
                        (pem_key_cert_pair_list km)
  | None => store
  end.

(** The release of the factory in place, if there is one (the first
    statement of [ReplaceHandshakerFactory]). *)
Definition client_unref (c : SpiffeChannelSecurityConnector) : list event :=
  match client_handshaker_factory_ c with
  | Some f => [EvClientFactoryUnref f]
  | None => []
  end.

Definition server_unref (c : SpiffeServerSecurityConnector) : list event :=
  match server_handshaker_factory_ c with
  | Some f => [EvServerFactoryUnref f]
  | None => []
  end.

Section Connectors.

Context `{Collaborators}.

(** [SpiffeChannelSecurityConnector::ReplaceHandshakerFactory]. *)
Definition ReplaceHandshakerFactory (c : SpiffeChannelSecurityConnector)
    (ssl_session_cache : option session_cache_ptr)
  : list event * outcome (grpc_security_status * SpiffeChannelSecurityConnector) :=
  let unref := client_unref c in
  let km := key_materials_config_ c in
  if decide (pem_key_cert_pair_list km = []) then (unref, AssertionFailed)
  else
    match ConvertToTsiPemKeyCertPair (pem_key_cert_pair_list km) with
    | AssertionFailed => (unref, AssertionFailed)
    | Done pem_key_cert_pair =>
        let '(status, slot) :=
          grpc_ssl_tsi_client_handshaker_factory_init pem_key_cert_pair
            (pem_root_certs km) ssl_session_cache
            (client_handshaker_factory_ c) in
        (unref ++ [EvClientFactoryInit pem_key_cert_pair (pem_root_certs km)
                                       ssl_session_cache;
                   EvPairsDestroy 1],
         Done (status, set_client_factory c slot))
    end.

(** [SpiffeChannelSecurityConnector::InitializeHandshakerFactory]. *)
Definition InitializeHandshakerFactory (c : SpiffeChannelSecurityConnector)
    (ssl_session_cache : option session_cache_ptr)
  : list event * outcome (grpc_security_status * SpiffeChannelSecurityConnector) :=
  let options := channel_creds_options c in
  let store := copy_key_materials options (key_materials_config_ c) in
  let r := TlsFetchKeyMaterials store options
             GRPC_SSL_CERTIFICATE_CONFIG_RELOAD_UNCHANGED in
  let c1 := set_client_materials c (fetch_materials r) in
  if decide (fetch_status r ≠ GRPC_STATUS_OK) then
    (fetch_events r, Done (GRPC_SECURITY_ERROR, c1))
  else
    let '(evs, res) := ReplaceHandshakerFactory c1 ssl_session_cache in
    (fetch_events r ++ evs, res).

(** [SpiffeChannelSecurityConnector::RefreshHandshakerFactory]. *)
Definition RefreshHandshakerFactory (c : SpiffeChannelSecurityConnector)
  : list event * outcome (grpc_security_status * SpiffeChannelSecurityConnector) :=
  let options := channel_creds_options c in
  let r := TlsFetchKeyMaterials (key_materials_config_ c) options
             GRPC_SSL_CERTIFICATE_CONFIG_RELOAD_UNCHANGED in
  let c1 := set_client_materials c (fetch_materials r) in
  if decide (fetch_status r ≠ GRPC_STATUS_OK) then
    (fetch_events r, Done (GRPC_SECURITY_ERROR, c1))
  else if decide (fetch_reload_status r ≠ GRPC_SSL_CERTIFICATE_CONFIG_RELOAD_NEW)
  then (fetch_events r, Done (GRPC_SECURITY_OK, c1))
  else
    let '(evs, res) := ReplaceHandshakerFactory c1 None in
    (fetch_events r ++ evs, res).

(** [SpiffeServerSecurityConnector::ReplaceHandshakerFactory]. *)
Definition ServerReplaceHandshakerFactory (c : SpiffeServerSecurityConnector)
  : list event * outcome (grpc_security_status * SpiffeServerSecurityConnector) :=
  let unref := server_unref c in
  let km := server_key_materials_config_ c in
  if decide (pem_key_cert_pair_list km = []) then (unref, AssertionFailed)
  else
    match ConvertToTsiPemKeyCertPair (pem_key_cert_pair_list km) with
    | AssertionFailed => (unref, AssertionFailed)
    | Done pem_key_cert_pairs =>
        let num_key_cert_pairs := length (pem_key_cert_pair_list km) in
        let '(status, slot) :=
          grpc_ssl_tsi_server_handshaker_factory_init pem_key_cert_pairs
            num_key_cert_pairs (pem_root_certs km)
            (cert_request_type (server_creds_options c))
            (server_handshaker_factory_ c) in
        (unref ++ [EvServerFactoryInit pem_key_cert_pairs num_key_cert_pairs
                     (pem_root_certs km)
                     (cert_request_type (server_creds_options c));
                   EvPairsDestroy num_key_cert_pairs],
         Done (status, set_server_factory c slot))
    end.

(** [SpiffeServerSecurityConnector::InitializeHandshakerFactory]. *)
Definition ServerInitializeHandshakerFactory (c : SpiffeServerSecurityConnector)
  : list event * outcome (grpc_security_status * SpiffeServerSecurityConnector) :=
  let options := server_creds_options c in
  let store := copy_key_materials options (server_key_materials_config_ c) in
  let r := TlsFetchKeyMaterials store options
             GRPC_SSL_CERTIFICATE_CONFIG_RELOAD_UNCHANGED in
  let c1 := set_server_materials c (fetch_materials r) in
  if decide (fetch_status r ≠ GRPC_STATUS_OK) then
    (fetch_events r, Done (GRPC_SECURITY_ERROR, c1))
  else
    let '(evs, res) := ServerReplaceHandshakerFactory c1 in
    (fetch_events r ++ evs, res).

(** [SpiffeServerSecurityConnector::RefreshHandshakerFactory]. *)
Definition ServerRefreshHandshakerFactory (c : SpiffeServerSecurityConnector)
  : list event * outcome (grpc_security_status * SpiffeServerSecurityConnector) :=
  let options := server_creds_options c in
  let r := TlsFetchKeyMaterials (server_key_materials_config_ c) options
             GRPC_SSL_CERTIFICATE_CONFIG_RELOAD_UNCHANGED in
  let c1 := set_server_materials c (fetch_materials r) in
  if decide (fetch_status r ≠ GRPC_STATUS_OK) then
    (fetch_events r, Done (GRPC_SECURITY_ERROR, c1))
  else if decide (fetch_reload_status r ≠ GRPC_SSL_CERTIFICATE_CONFIG_RELOAD_NEW)
  then (fetch_events r, Done (GRPC_SECURITY_OK, c1))
  else
    let '(evs, res) := ServerReplaceHandshakerFactory c1 in
    (fetch_events r ++ evs, res).

(** What [check_peer] leaves behind: the connector, the content of
    [*auth_context] when it was assigned, and the effects. *)
Record check_result := mkCheck {
  checked_connector : SpiffeChannelSecurityConnector;
  checked_auth_context : option grpc_auth_context;
  check_events : list event
}.

(** [SpiffeChannelSecurityConnector::check_peer]. *)
Definition check_peer (c : SpiffeChannelSecurityConnector) (peer : tsi_peer)
    (on_peer_checked : grpc_closure) : check_result :=
  let target_name := default (target_name_ c) (overridden_target_name_ c) in
  match grpc_ssl_check_alpn peer with
  | GRPC_ERROR_CREATE _ as error =>
      mkCheck c None [EvExecCtxRun (Some on_peer_checked) error;
                      EvTsiPeerDestruct]
  | GRPC_ERROR_NONE =>
      let auth_context :=
        grpc_ssl_peer_to_auth_context peer
          GRPC_TLS_SPIFFE_TRANSPORT_SECURITY_TYPE in
      match server_authorization_check_config (channel_creds_options c) with
      | None =>
          mkCheck c (Some auth_context)
            [EvExecCtxRun (Some on_peer_checked) GRPC_ERROR_NONE;
             EvTsiPeerDestruct]
      | Some config =>
          match tsi_peer_get_property_by_name peer TSI_X509_PEM_CERT_PROPERTY
          with
          | None =>
              mkCheck c (Some auth_context)
                [EvExecCtxRun (Some on_peer_checked)
                   (GRPC_ERROR_CREATE
                      "Cannot check peer: missing pem cert property.");
                 EvTsiPeerDestruct]
          | Some value =>
              let arg0 := populate_check_arg (check_arg_ c) value target_name in
              let '(arg, callback_status) := check_Schedule config arg0 in
              let c1 := set_check c arg (Some on_peer_checked) in
              if decide (callback_status ≠ 0%Z) then
                mkCheck c1 (Some auth_context)
                  [EvCheckSchedule arg0; EvTsiPeerDestruct]
              else
                let error := ProcessServerAuthorizationCheckResult arg in
                mkCheck c1 (Some auth_context)
                  [EvCheckSchedule arg0;
                   EvExecCtxRun (Some on_peer_checked) error;
                   EvTsiPeerDestruct]
          end
      end
  end.

(** [SpiffeServerSecurityConnector::check_peer]. *)
Definition Server_check_peer (peer : tsi_peer) (on_peer_checked : grpc_closure)
  : grpc_auth_context * list event :=
  let error := grpc_ssl_check_alpn peer in
  (grpc_ssl_peer_to_auth_context peer GRPC_TLS_SPIFFE_TRANSPORT_SECURITY_TYPE,
   [EvTsiPeerDestruct; EvExecCtxRun (Some on_peer_checked) error]).

End Connectors.

End Spiffe.

(** ** Part III.  Concrete collaborators and inputs

    A small instance of the external functions and a few reload and
    authorization capabilities, used to run the model on concrete inputs. *)

Module Samples.

Import Spiffe.

Fixpoint peer_property (peer : list (string * string)) (name : string)
  : option string :=
  match peer with
  | [] => None
  | (n, v) :: rest => if decide (n = name) then Some v
                      else peer_property rest name
  end.

(** A peer is its list of named properties; ALPN is accepted when the
    selected protocol is [h2]; factory construction always succeeds and
    stores the factory at address 100 (client) or 200 (server). *)
Definition collaborators : Collaborators := {|
  tsi_peer := list (string * string);
  grpc_auth_context := string * list (string * string);
  grpc_ssl_check_alpn peer :=
    match peer_property peer "ssl_alpn_selected_protocol" with
    | None =>
        GRPC_ERROR_CREATE "Cannot check peer: missing selected ALPN property."
    | Some v =>
        if decide (v = "h2") then GRPC_ERROR_NONE
        else GRPC_ERROR_CREATE "Cannot check peer: invalid ALPN value."
    end;
  grpc_ssl_peer_to_auth_context peer label := (label, peer);
  GRPC_TLS_SPIFFE_TRANSPORT_SECURITY_TYPE := "spiffe";
  tsi_peer_get_property_by_name := peer_property;
  TSI_X509_PEM_CERT_PROPERTY := "x509_pem_cert";
  grpc_ssl_tsi_client_handshaker_factory_init _ _ _ _ :=
    (GRPC_SECURITY_OK, Some 100%positive);
  grpc_ssl_tsi_server_handshaker_factory_init _ _ _ _ _ :=
    (GRPC_SECURITY_OK, Some 200%positive)
|}.

Definition pair1 : PemKeyCertPair := mkPair (Some "KEY1") (Some "CERT1").
Definition pair2 : PemKeyCertPair := mkPair (Some "KEY2") (Some "CERT2").

Definition materials1 : grpc_tls_key_materials_config :=
  mkMaterials (Some "ROOT") [pair1].

(** Reload capabilities. *)

(** Answers asynchronously and touches nothing. *)
Definition reload_async : grpc_tls_credential_reload_config :=
  mkReloadConfig (λ arg, (arg, 1%Z)).

(** Completes at once, reporting that nothing changed. *)
Definition reload_unchanged : grpc_tls_credential_reload_config :=
  mkReloadConfig (λ arg, (arg, 0%Z)).

(** Completes at once with a failure, leaving a context to destroy. *)
Definition reload_fail : grpc_tls_credential_reload_config :=
  mkReloadConfig (λ arg,
    (mkReloadArg (reload_key_materials_config arg)
       GRPC_SSL_CERTIFICATE_CONFIG_RELOAD_FAIL (Some "certificate expired")
       (Some 5%positive) (Some 9%positive), 0%Z)).

(** Answers asynchronously, having replaced the content of the store. *)
Definition reload_async_rewriting : grpc_tls_credential_reload_config :=
  mkReloadConfig (λ arg,
    (mkReloadArg (mkMaterials (Some "ROOT2") [pair2])
       (reload_status arg) (reload_error_details arg) (reload_context arg)
       (reload_destroy_context arg), 1%Z)).

(** Completes at once with a failure, having replaced the content of the
    store. *)
Definition reload_fail_rewriting : grpc_tls_credential_reload_config :=
  mkReloadConfig (λ arg,
    (mkReloadArg (mkMaterials (Some "ROOT2") [pair2])
       GRPC_SSL_CERTIFICATE_CONFIG_RELOAD_FAIL (Some "certificate expired")
       None None, 0%Z)).

(** Completes at once with new material. *)
Definition reload_new : grpc_tls_credential_reload_config :=
  mkReloadConfig (λ arg,
    (mkReloadArg (mkMaterials (Some "ROOT2") [pair2])
       GRPC_SSL_CERTIFICATE_CONFIG_RELOAD_NEW None None None, 0%Z)).

(** Completes at once, reports new material and leaves the store empty. *)
Definition reload_new_empty : grpc_tls_credential_reload_config :=
  mkReloadConfig (λ arg,
    (mkReloadArg (mkMaterials None [])
       GRPC_SSL_CERTIFICATE_CONFIG_RELOAD_NEW None None None, 0%Z)).

Definition options_with (km : option grpc_tls_key_materials_config)
    (reload : option grpc_tls_credential_reload_config)
    (check : option grpc_tls_server_authorization_check_config)
  : grpc_tls_credentials_options :=
  mkOptions GRPC_SSL_DONT_REQUEST_CLIENT_CERTIFICATE km reload check.

(** Authorization capabilities. *)

(** Completes at once and rejects the peer. *)
Definition check_reject : grpc_tls_server_authorization_check_config :=
  mkCheckConfig (λ arg,
    (mkCheckArg (check_peer_cert arg) (check_target_name arg) GRPC_STATUS_OK
       false (Some "untrusted SPIFFE id") (check_context arg)
       (check_destroy_context arg), 0%Z)).

(** A channel connector as its constructor leaves it, with a factory at
    address 7 and the given store. *)
Definition channel_connector (options : grpc_tls_credentials_options)
    (factory : option factory_ptr) (km : grpc_tls_key_materials_config)
  : SpiffeChannelSecurityConnector :=
  mkChannelConnector options "example.com" None factory km
    ServerAuthorizationCheckArgCreate None.

Definition server_connector (options : grpc_tls_credentials_options)
    (factory : option factory_ptr) (km : grpc_tls_key_materials_config)
  : SpiffeServerSecurityConnector :=
  mkServerConnector options factory km.

(** A client and a server that already hold [materials1] and a factory,
    for each reload capability. *)
Definition client_with (reload : grpc_tls_credential_reload_config)
  : SpiffeChannelSecurityConnector :=
  channel_connector (options_with None (Some reload) None) (Some 7%positive)
    materials1.

Definition server_with (reload : grpc_tls_credential_reload_config)
  : SpiffeServerSecurityConnector :=
  server_connector (options_with None (Some reload) None) (Some 8%positive)
    materials1.

(** A client and a server as their constructors leave them (empty store,
    no factory), whose credentials configure no key material and a reload
    capability that reports UNCHANGED. *)
Definition fresh_client_unchanged : SpiffeChannelSecurityConnector :=
  channel_connector (options_with None (Some reload_unchanged) None) None
    grpc_tls_key_materials_config_create.

Definition fresh_server_unchanged : SpiffeServerSecurityConnector :=
  server_connector (options_with None (Some reload_unchanged) None) None
    grpc_tls_key_materials_config_create.

(** A client whose credentials configure the rejecting authorization
    capability. *)
Definition client_checking : SpiffeChannelSecurityConnector :=
  channel_connector (options_with (Some materials1) None (Some check_reject))
    (Some 7%positive) materials1.

(** A tracker at IDLE with two watchers, each registered with the right
    guess of the state. *)
Definition tracker_two_watchers : Connectivity.ConnectivityStateTracker :=
  (Connectivity.AddWatcher false
     (Connectivity.AddWatcher false
        (Connectivity.new_tracker "channel" Connectivity.GRPC_CHANNEL_IDLE)
        Connectivity.GRPC_CHANNEL_IDLE 1%positive).1
     Connectivity.GRPC_CHANNEL_IDLE 2%positive).1.

Definition peer_without_cert : list (string * string) :=
  [("ssl_alpn_selected_protocol", "h2")].

Definition peer_with_cert : list (string * string) :=
  [("ssl_alpn_selected_protocol", "h2"); ("x509_pem_cert", "PEM")].

End Samples.

(** ** Part IV.  Sequences of tracker operations and asynchronous delivery *)

Module ConnectivityRuns.

Import Connectivity.

(** One call on a tracker by its owner. *)
Inductive operation :=
| OpAddWatcher (initial_state : grpc_connectivity_state) (watcher : watcher_ptr)
| OpRemoveWatcher (watcher : watcher_ptr)
| OpSetState (state : grpc_connectivity_state) (reason : string).

Definition step (tr : bool) (t : ConnectivityStateTracker) (o : operation)
  : ConnectivityStateTracker * list event :=
  match o with
  | OpAddWatcher initial_state watcher => AddWatcher tr t initial_state watcher
  | OpRemoveWatcher watcher => RemoveWatcher tr t watcher
  | OpSetState state reason => SetState tr t state reason
  end.

(** The calls of a list, one after the other, with the concatenated
    trace. *)
Fixpoint run (tr : bool) (t : ConnectivityStateTracker) (ops : list operation)
  : ConnectivityStateTracker * list event :=
  match ops with
  | [] => (t, [])
  | o :: rest =>
      ((run tr (step tr t o).1 rest).1,
       (step tr t o).2 ++ (run tr (step tr t o).1 rest).2)
  end.

(** What a watcher that stays registered should be told when the states of
    [l] are set in turn from state [cur]: every state that differs from the
    one before it, up to and including the first SHUTDOWN. *)
Fixpoint changes (cur : grpc_connectivity_state)
    (l : list grpc_connectivity_state) : list grpc_connectivity_state :=
  match l with
  | [] => []
  | s :: rest =>
      if decide (s = cur) then changes cur rest
      else if decide (s = GRPC_CHANNEL_SHUTDOWN) then [s]
      else s :: changes s rest
  end.

(** [AsyncConnectivityStateWatcherInterface]: the watcher and the combiner
    it was constructed with, if any. *)
Definition combiner_ptr := positive.

Record AsyncConnectivityStateWatcherInterface := mkAsyncWatcher {
  async_self : watcher_ptr;
  combiner_ : option combiner_ptr
}.

(** [AsyncConnectivityStateWatcherInterface::Notifier]: the members set by
    its constructor. *)
Record Notifier := mkNotifier {
  notifier_watcher_ : watcher_ptr;
  notifier_state_ : grpc_connectivity_state
}.

(** Where the constructor of [Notifier] schedules [SendNotification]. *)
Inductive scheduling :=
| CombinerRun (combiner : combiner_ptr) (n : Notifier)
    (* combiner->Run(&closure_, GRPC_ERROR_NONE) *)
| ExecCtxRun (n : Notifier).
    (* ExecCtx::Run(DEBUG_LOCATION, &closure_, GRPC_ERROR_NONE) *)

(** [AsyncConnectivityStateWatcherInterface::Notify]. *)
Definition Notify (w : AsyncConnectivityStateWatcherInterface)
    (state : grpc_connectivity_state) : scheduling :=
  let n := mkNotifier (async_self w) state in
  match combiner_ w with
  | Some combiner => CombinerRun combiner n
  | None => ExecCtxRun n
  end.

Definition scheduled_notifier (s : scheduling) : Notifier :=
  match s with CombinerRun _ n | ExecCtxRun n => n end.

(** Effects of [Notifier::SendNotification]. *)
Inductive delivery :=
| DeliveryLog (w : watcher_ptr) (state : string)
| OnConnectivityStateChange (w : watcher_ptr) (state : grpc_connectivity_state)
| DeleteNotifier (n : Notifier).

(** [Notifier::SendNotification]. *)
Definition SendNotification (tr : bool) (self : Notifier) : list delivery :=
  (if tr then [DeliveryLog (notifier_watcher_ self)
                 (ConnectivityStateName (notifier_state_ self))]
   else [])
  ++ [OnConnectivityStateChange (notifier_watcher_ self) (notifier_state_ self);
      DeleteNotifier self].

(** Running the closure a scheduling holds. *)
Definition run_closure (tr : bool) (x : scheduling) : list delivery :=
  SendNotification tr (scheduled_notifier x).

(** The closures a tracker trace schedules when every watcher is an
    asynchronous one, [combiner_of] giving each watcher's combiner. *)
Definition schedule_trace (combiner_of : watcher_ptr → option combiner_ptr)
    (evs : list event) : list scheduling :=
  (λ p, Notify (mkAsyncWatcher p.1 (combiner_of p.1)) p.2)
    <$> notifications evs.

(** The state changes a list of deliveries hands to one watcher. *)
Definition delivered (w : watcher_ptr) (ds : list delivery)
  : list grpc_connectivity_state :=
  omap (λ d, match d with
             | OnConnectivityStateChange w' s =>
                 if decide (w' = w) then Some s else None
             | _ => None
             end) ds.

(** The closures scheduled on one combiner, in the order they were
    scheduled. *)
Definition on_combiner (c : combiner_ptr) (l : list scheduling)
  : list Notifier :=
  omap (λ s, match s with
             | CombinerRun c' n => if decide (c' = c) then Some n else None
             | ExecCtxRun _ => None
             end) l.

(** A sample assignment of combiners: the combiner of watcher 1 is at address 9; the others have none. *)
Definition sample_combiner_of (w : watcher_ptr) : option combiner_ptr :=
  if decide (w = 1%positive) then Some 9%positive else None.

End ConnectivityRuns.

(** ** Part V.  Connector creation, destruction and [add_handshakers] *)

Module SpiffeLifecycle.

Import Spiffe.

Definition handshaker_ptr := positive.

(** [tsi_result]: [TSI_OK] or any other value of the enumeration. *)
Inductive tsi_result :=
| TSI_OK
| TSI_NOT_OK (code : Z).

#[global] Instance tsi_result_eq_dec : EqDecision tsi_result.
Proof. solve_decision. Defined.

(** The functions of [host_port.h] and [ssl_transport_security.h] that
    the constructor and [add_handshakers] call.  [SplitHostPort] gives the
    host part of the target (what [StringViewToCString(host)] copies); a
    handshaker constructor receives the content of the factory slot and
    returns a result and the content of [tsi_hs]. *)
Class HandshakeCollaborators := {
  SplitHostPort : string → string;
  tsi_ssl_client_handshaker_factory_create_handshaker :
    option factory_ptr → string → tsi_result * option handshaker_ptr;
  tsi_ssl_server_handshaker_factory_create_handshaker :
    option factory_ptr → tsi_result * option handshaker_ptr
}.

(** Effects: those of Part II, and those of the functions of this part. *)
Inductive lifecycle_event :=
| EvCore (e : event)
| EvKeyMaterialsUnref
    (* key_materials_config_.get()->Unref() *)
| EvCheckArgDestroyContext (f : destroy_fn) (ctx : option context_ptr)
    (* arg->destroy_context(arg->context) *)
| EvCheckArgDelete
    (* grpc_core::Delete(arg) *)
| EvCreateClientHandshaker (factory : option factory_ptr) (name : string)
    (* tsi_ssl_client_handshaker_factory_create_handshaker *)
| EvCreateServerHandshaker (factory : option factory_ptr)
    (* tsi_ssl_server_handshaker_factory_create_handshaker *)
| EvHandshakeMgrAdd (tsi_hs : option handshaker_ptr).
    (* handshake_mgr->Add(SecurityHandshakerCreate(tsi_hs, this, args)) *)

(** The handshakers a trace adds to the handshake manager, in order. *)
Definition added (evs : list lifecycle_event) : list (option handshaker_ptr) :=
  omap (λ e, match e with EvHandshakeMgrAdd h => Some h | _ => None end) evs.

(** The handshaker constructions a trace runs, in order. *)
Definition creations (evs : list lifecycle_event) : list lifecycle_event :=
  List.filter (λ e, match e with
                    | EvCreateClientHandshaker _ _
                    | EvCreateServerHandshaker _ => true
                    | _ => false
                    end) evs.

(** The effects of Part II in a trace, in order. *)
Definition core (evs : list lifecycle_event) : list event :=
  omap (λ e, match e with EvCore c => Some c | _ => None end) evs.

(** [ServerAuthorizationCheckArgDestroy]. *)
Definition ServerAuthorizationCheckArgDestroy
    (arg : option grpc_tls_server_authorization_check_arg)
  : list lifecycle_event :=
  match arg with
  | None => []
  | Some a =>
      match check_destroy_context a with
      | Some f => [EvCheckArgDestroyContext f (check_context a)]
      | None => []
      end ++ [EvCheckArgDelete]
  end.

(** [SpiffeServerSecurityConnector::SpiffeServerSecurityConnector]. *)
Definition new_SpiffeServerSecurityConnector
    (options : grpc_tls_credentials_options) : SpiffeServerSecurityConnector :=
  mkServerConnector options None grpc_tls_key_materials_config_create.

(** [SpiffeServerSecurityConnector::~SpiffeServerSecurityConnector]. *)
Definition destroy_SpiffeServerSecurityConnector
    (c : SpiffeServerSecurityConnector) : list lifecycle_event :=
  (EvCore <$> server_unref c) ++ [EvKeyMaterialsUnref].

(** [SpiffeChannelSecurityConnector::~SpiffeChannelSecurityConnector]. *)
Definition destroy_SpiffeChannelSecurityConnector
    (c : SpiffeChannelSecurityConnector) : list lifecycle_event :=
  (EvCore <$> client_unref c) ++ [EvKeyMaterialsUnref]
  ++ ServerAuthorizationCheckArgDestroy (Some (check_arg_ c)).

Section Lifecycle.

Context `{Collaborators} `{HandshakeCollaborators}.

(** [SpiffeChannelSecurityConnector::SpiffeChannelSecurityConnector];
    [on_peer_checked_] has no initialiser, so its first content is an
    argument. *)
Definition new_SpiffeChannelSecurityConnector
    (options : grpc_tls_credentials_options) (target_name : string)
    (overridden_target_name : c_string) (garbage : option grpc_closure)
  : SpiffeChannelSecurityConnector :=
  mkChannelConnector options (SplitHostPort target_name)
    (gpr_strdup overridden_target_name) None
    grpc_tls_key_materials_config_create ServerAuthorizationCheckArgCreate
    garbage.

(** [SpiffeChannelSecurityConnector::add_handshakers]. *)
Definition add_handshakers (c : SpiffeChannelSecurityConnector)
  : list lifecycle_event * outcome SpiffeChannelSecurityConnector :=
  match RefreshHandshakerFactory c with
  | (evs, AssertionFailed) => (EvCore <$> evs, AssertionFailed)
  | (evs, Done (status, c1)) =>
      if decide (status ≠ GRPC_SECURITY_OK) then (EvCore <$> evs, Done c1)
      else
        let name := default (target_name_ c1) (overridden_target_name_ c1) in
        let created :=
          tsi_ssl_client_handshaker_factory_create_handshaker
            (client_handshaker_factory_ c1) name in
        let create_ev :=
          EvCreateClientHandshaker (client_handshaker_factory_ c1) name in
        if decide (created.1 ≠ TSI_OK) then
          ((EvCore <$> evs) ++ [create_ev], Done c1)
        else
          ((EvCore <$> evs) ++ [create_ev; EvHandshakeMgrAdd created.2],
           Done c1)
  end.

(** [SpiffeServerSecurityConnector::add_handshakers]. *)
Definition Server_add_handshakers (c : SpiffeServerSecurityConnector)
  : list lifecycle_event * outcome SpiffeServerSecurityConnector :=
  match ServerRefreshHandshakerFactory c with
  | (evs, AssertionFailed) => (EvCore <$> evs, AssertionFailed)
  | (evs, Done (status, c1)) =>
      if decide (status ≠ GRPC_SECURITY_OK) then (EvCore <$> evs, Done c1)
      else
        let created :=
          tsi_ssl_server_handshaker_factory_create_handshaker
            (server_handshaker_factory_ c1) in
        let create_ev :=
          EvCreateServerHandshaker (server_handshaker_factory_ c1) in
        if decide (created.1 ≠ TSI_OK) then
          ((EvCore <$> evs) ++ [create_ev], Done c1)
        else
          ((EvCore <$> evs) ++ [create_ev; EvHandshakeMgrAdd created.2],
           Done c1)
  end.

(** [SpiffeChannelSecurityConnector::CreateSpiffeChannelSecurityConnector];
    [None] is [nullptr].  A connector that is not returned loses its only
    reference and is destroyed. *)
Definition CreateSpiffeChannelSecurityConnector
    (channel_creds : option grpc_tls_credentials_options)
    (target_name overridden_target_name : c_string)
    (ssl_session_cache : option session_cache_ptr)
    (garbage : option grpc_closure)
  : list lifecycle_event * outcome (option SpiffeChannelSecurityConnector) :=
  match channel_creds with
  | None => ([], Done None)
  | Some options =>
      match target_name with
      | None => ([], Done None)
      | Some target =>
          let c := new_SpiffeChannelSecurityConnector options target
                     overridden_target_name garbage in
          match InitializeHandshakerFactory c ssl_session_cache with
          | (evs, AssertionFailed) => (EvCore <$> evs, AssertionFailed)
          | (evs, Done (status, c1)) =>
              if decide (status ≠ GRPC_SECURITY_OK) then
                ((EvCore <$> evs) ++ destroy_SpiffeChannelSecurityConnector c1,
                 Done None)
              else (EvCore <$> evs, Done (Some c1))
          end
      end
  end.

(** [SpiffeServerSecurityConnector::CreateSpiffeServerSecurityConnector]. *)
Definition CreateSpiffeServerSecurityConnector
    (server_creds : option grpc_tls_credentials_options)
  : list lifecycle_event * outcome (option SpiffeServerSecurityConnector) :=
  match server_creds with
  | None => ([], Done None)
  | Some options =>
      let c := new_SpiffeServerSecurityConnector options in
      match ServerInitializeHandshakerFactory c with
      | (evs, AssertionFailed) => (EvCore <$> evs, AssertionFailed)
      | (evs, Done (status, c1)) =>
          if decide (status ≠ GRPC_SECURITY_OK) then
            ((EvCore <$> evs) ++ destroy_SpiffeServerSecurityConnector c1,
             Done None)
          else (EvCore <$> evs, Done (Some c1))
      end
  end.

End Lifecycle.

(** A concrete instance: the host is the target up to the first colon;
    handshaker construction succeeds on a filled slot. *)
Fixpoint host_of (target : string) : string :=
  match target with
  | EmptyString => EmptyString
  | String a rest =>
      if Ascii.eqb a (Ascii.ascii_of_nat 58) then EmptyString else String a (host_of rest)
  end.

Definition handshake_collaborators : HandshakeCollaborators := {|
  SplitHostPort := host_of;
  tsi_ssl_client_handshaker_factory_create_handshaker factory _ :=
    match factory with
    | Some f => (TSI_OK, Some (f + 1)%positive)
    | None => (TSI_NOT_OK 2, None)
    end;
  tsi_ssl_server_handshaker_factory_create_handshaker factory :=
    match factory with
    | Some f => (TSI_OK, Some (f + 1)%positive)
    | None => (TSI_NOT_OK 2, None)
    end
|}.

(** Credential options with static key material and no capability. *)
Definition static_options : grpc_tls_credentials_options :=
  Samples.options_with (Some Samples.materials1) None None.

(** An authorization capability that defers its answer and one that
    accepts at once; both leave the request fields as they find them. *)
Definition check_defer : grpc_tls_server_authorization_check_config :=
  mkCheckConfig (λ arg, (arg, 1%Z)).

Definition check_accept : grpc_tls_server_authorization_check_config :=
  mkCheckConfig (λ arg,
    (mkCheckArg (check_peer_cert arg) (check_target_name arg) GRPC_STATUS_OK
       true None (check_context arg) (check_destroy_context arg), 0%Z)).

Definition client_accepting : SpiffeChannelSecurityConnector :=
  Samples.channel_connector
    (Samples.options_with (Some Samples.materials1) None (Some check_accept))
    (Some 7%positive) Samples.materials1.

Definition client_static : SpiffeChannelSecurityConnector :=
  Samples.channel_connector static_options (Some 7%positive)
    Samples.materials1.

Definition peer_other_cert : list (string * string) :=
  [("ssl_alpn_selected_protocol", "h2"); ("x509_pem_cert", "OTHER")].

Definition peer_bad_alpn : list (string * string) :=
  [("ssl_alpn_selected_protocol", "http/1.1"); ("x509_pem_cert", "PEM")].

End SpiffeLifecycle.

(** * Properties *)

(** ** The connectivity-state tracker *)

Section TrackerFacts.

Import Connectivity.

Variable tr : bool.

Lemma notifications_app (a b : list event) :
  notifications (a ++ b) = notifications a ++ notifications b.
Proof. apply omap_app. Qed.

Lemma orphaned_app (a b : list event) :
  orphaned (a ++ b) = orphaned a ++ orphaned b.
Proof. apply omap_app. Qed.

Lemma notifications_trace_log (l : log_line) :
  notifications (trace_log tr l) = [].
Proof. unfold trace_log; now destruct tr. Qed.

Lemma orphaned_trace_log (l : log_line) : orphaned (trace_log tr l) = [].
Proof. unfold trace_log; now destruct tr. Qed.

Lemma notifications_orphans (ws : list watcher_ptr) :
  notifications (EvOrphan <$> ws) = [].
Proof. induction ws as [|w ws IH]; [reflexivity | exact IH]. Qed.

Lemma orphaned_orphans (ws : list watcher_ptr) :
  orphaned (EvOrphan <$> ws) = ws.
Proof. induction ws as [|w ws IH]; [reflexivity | cbn; f_equal; exact IH]. Qed.

(** One pass of the notification loop tells each watcher of the list, in
    order, the new state and nothing else. *)
Lemma notifications_notify_all name (ws : list watcher_ptr) cur s :
  notifications (notify_all tr name ws cur s) = (λ w : watcher_ptr, (w, s)) <$> ws.
Proof.
  induction ws as [|w ws IH]; [reflexivity|].
  unfold notify_all in *. cbn [mbind list_bind]. cbn [mbind list_bind] in IH.
  rewrite !notifications_app, notifications_trace_log, IH. reflexivity.
Qed.

Lemma orphaned_notify_all name (ws : list watcher_ptr) cur s :
  orphaned (notify_all tr name ws cur s) = [].
Proof.
  induction ws as [|w ws IH]; [reflexivity|].
  unfold notify_all in *. cbn [mbind list_bind]. cbn [mbind list_bind] in IH.
  rewrite !orphaned_app, orphaned_trace_log, IH. reflexivity.
Qed.

(** Tagging the elements of a set with a state gives a duplicate-free list
    whose members are exactly the tagged elements of the set. *)
Lemma tagged_elements_NoDup (ws : gset watcher_ptr) (s : grpc_connectivity_state) :
  NoDup ((λ w : watcher_ptr, (w, s)) <$> elements ws).
Proof.
  apply NoDup_fmap_2; [|apply NoDup_elements].
  intros x y Hxy. now inversion Hxy.
Qed.

Lemma tagged_elements_elem (ws : gset watcher_ptr)
    (s : grpc_connectivity_state) (w : watcher_ptr)
    (s' : grpc_connectivity_state) :
  (w, s') ∈ (λ w : watcher_ptr, (w, s)) <$> elements ws ↔ w ∈ ws ∧ s' = s.
Proof.
  rewrite list_elem_of_fmap. split.
  - intros (x & Heq & Hx). inversion Heq; subst.
    split; [now apply elem_of_elements | reflexivity].
  - intros [Hw ->]. exists w. split; [reflexivity | now apply elem_of_elements].
Qed.

(** The registry is empty whenever the tracker is in SHUTDOWN: true of a new
    tracker and kept by every operation. *)
Lemma new_tracker_inv name s : shutdown_registry_empty (new_tracker name s).
Proof. intros _. reflexivity. Qed.

Lemma AddWatcher_inv t i w :
  shutdown_registry_empty t → shutdown_registry_empty (AddWatcher tr t i w).1.
Proof.
  unfold AddWatcher, shutdown_registry_empty. intros Ht.
  repeat case_decide; cbn; try assumption; intros; contradiction.
Qed.

Lemma RemoveWatcher_inv t w :
  shutdown_registry_empty t → shutdown_registry_empty (RemoveWatcher tr t w).1.
Proof.
  unfold RemoveWatcher, shutdown_registry_empty. cbn. intros Ht Hs.
  rewrite (Ht Hs). apply empty_difference_L.
Qed.

Lemma SetState_inv t s reason :
  shutdown_registry_empty t → shutdown_registry_empty (SetState tr t s reason).1.
Proof.
  unfold SetState, shutdown_registry_empty. intros Ht.
  repeat case_decide; cbn; try assumption; [reflexivity | intros; contradiction].
Qed.

(** C3.  [SetState(state, reason)] does nothing when [state] is the current
    state (the tracker is returned as it was and the trace is empty).
    Otherwise the stored state becomes [state]; the notifications sent are
    one [(w, state)] per element of the registry as it was at the call (the
    list has no duplicate and its members are exactly the registered
    watchers, each with the new state); the tracker and the notifications do
    not depend on [reason]; and the registry afterwards is empty when
    [state] is SHUTDOWN and is the old registry otherwise, the watchers being
    orphaned only after the whole notification pass. *)
Theorem SetState_spec (t : ConnectivityStateTracker)
    (s : grpc_connectivity_state) (reason : string) :
  (s = state_ t → SetState tr t s reason = (t, [])) ∧
  (s ≠ state_ t →
     state_ (SetState tr t s reason).1 = s ∧
     notifications (SetState tr t s reason).2
       = (λ w : watcher_ptr, (w, s)) <$> elements (watchers_ t) ∧
     NoDup (notifications (SetState tr t s reason).2) ∧
     (∀ w s', (w, s') ∈ notifications (SetState tr t s reason).2
              ↔ w ∈ watchers_ t ∧ s' = s) ∧
     (∀ reason',
        (SetState tr t s reason').1 = (SetState tr t s reason).1 ∧
        notifications (SetState tr t s reason').2
          = notifications (SetState tr t s reason).2) ∧
     watchers_ (SetState tr t s reason).1
       = (if decide (s = GRPC_CHANNEL_SHUTDOWN) then ∅ else watchers_ t) ∧
     ∃ pass,
       orphaned pass = [] ∧
       (SetState tr t s reason).2
         = pass ++ (EvOrphan <$>
                      (if decide (s = GRPC_CHANNEL_SHUTDOWN)
                       then elements (watchers_ t) else []))).
Proof.
  split.
  - intros ->. unfold SetState. now rewrite decide_True.
  - intros Hne.
    assert (Hn : ∀ r, notifications (SetState tr t s r).2
                      = (λ w : watcher_ptr, (w, s)) <$> elements (watchers_ t)).
    { intros r. unfold SetState. rewrite decide_False by assumption.
      case_decide; cbn [snd];
        rewrite !notifications_app, notifications_trace_log,
          notifications_notify_all, ?notifications_orphans, ?app_nil_r;
        reflexivity. }
    assert (Ht : ∀ r, (SetState tr t s r).1
                      = mkTracker (name_ t) s
                          (if decide (s = GRPC_CHANNEL_SHUTDOWN) then ∅
                           else watchers_ t)).
    { intros r. unfold SetState. rewrite decide_False by assumption.
      now case_decide. }
    split; [now rewrite Ht|].
    split; [apply Hn|].
    split; [rewrite Hn; apply tagged_elements_NoDup|].
    split; [intros w s'; rewrite Hn; apply tagged_elements_elem|].
    split; [intros reason'; now rewrite !Ht, !Hn|].
    split; [now rewrite Ht|].
    unfold SetState. rewrite decide_False by assumption.
    case_decide; cbn [snd].
    + eexists. split; [|now rewrite app_assoc].
      now rewrite orphaned_app, orphaned_trace_log, orphaned_notify_all.
    + eexists. split; [|now rewrite fmap_nil, app_nil_r].
      now rewrite orphaned_app, orphaned_trace_log, orphaned_notify_all.
Qed.

(** C7.  [AddWatcher(initial_state, watcher)] sends the watcher exactly one
    notification, carrying the current state, when [initial_state] differs
    from the current state, and none when they are equal; it never changes
    the state.  In SHUTDOWN the tracker is returned as it was (the watcher
    is not registered) and the last effect of the call, after the catch-up
    notification, is the orphaning of the watcher.  In any other state the
    registry afterwards is the old one with the watcher in it. *)
Theorem AddWatcher_spec (t : ConnectivityStateTracker)
    (initial_state : grpc_connectivity_state) (watcher : watcher_ptr) :
  notifications (AddWatcher tr t initial_state watcher).2
    = (if decide (initial_state = state_ t) then []
       else [(watcher, state_ t)]) ∧
  state_ (AddWatcher tr t initial_state watcher).1 = state_ t ∧
  (state_ t = GRPC_CHANNEL_SHUTDOWN →
     (AddWatcher tr t initial_state watcher).1 = t ∧
     ∃ before,
       (AddWatcher tr t initial_state watcher).2
         = before ++ [EvOrphan watcher] ∧
       orphaned before = [] ∧
       notifications before
         = notifications (AddWatcher tr t initial_state watcher).2) ∧
  (state_ t ≠ GRPC_CHANNEL_SHUTDOWN →
     watcher ∈ watchers_ (AddWatcher tr t initial_state watcher).1 ∧
     watchers_ (AddWatcher tr t initial_state watcher).1
       = {[ watcher ]} ∪ watchers_ t).
Proof.
  set (catch_up :=
    if decide (initial_state = state_ t) then []
    else trace_log tr (LogNotifying (name_ t) watcher
                         (ConnectivityStateName initial_state)
                         (ConnectivityStateName (state_ t)))
         ++ [EvNotify watcher (state_ t)]).
  assert (Hc : notifications catch_up
               = if decide (initial_state = state_ t) then []
                 else [(watcher, state_ t)]).
  { unfold catch_up. case_decide; [reflexivity|].
    now rewrite notifications_app, notifications_trace_log. }
  assert (Ho : orphaned catch_up = []).
  { unfold catch_up. case_decide; [reflexivity|].
    now rewrite orphaned_app, orphaned_trace_log. }
  unfold AddWatcher. fold catch_up.
  destruct (decide (state_ t = GRPC_CHANNEL_SHUTDOWN)) as [Hs|Hs].
  - cbn [fst snd].
    rewrite !notifications_app, notifications_trace_log, Hc.
    split; [now rewrite app_nil_r|]. split; [reflexivity|].
    split; [|intros; contradiction]. intros _. split; [reflexivity|].
    exists (trace_log tr (LogAddWatcher (name_ t) watcher) ++ catch_up).
    split; [now rewrite app_assoc|].
    rewrite orphaned_app, orphaned_trace_log, Ho, notifications_app,
      notifications_trace_log, Hc.
    split; [reflexivity | now rewrite app_nil_r].
  - destruct (decide (watcher ∈ watchers_ t)) as [Hw|Hw]; cbn [fst snd].
    + rewrite !notifications_app, notifications_trace_log, Hc.
      split; [now rewrite app_nil_r|]. split; [reflexivity|].
      split; [intros; contradiction|]. intros _.
      split; [assumption|]. symmetry. apply subseteq_union_1_L.
      now apply singleton_subseteq_l.
    + rewrite !notifications_app, notifications_trace_log, Hc.
      split; [reflexivity|]. split; [reflexivity|].
      split; [intros; contradiction|]. intros _.
      split; [|reflexivity]. cbn [watchers_].
      apply elem_of_union_l. now apply elem_of_singleton_2.
Qed.

End TrackerFacts.

(** ** Credential reload: [TlsFetchKeyMaterials] *)

Section FetchFacts.

Import Spiffe.

Implicit Types (km : grpc_tls_key_materials_config)
  (options : grpc_tls_credentials_options)
  (rs : grpc_ssl_certificate_config_reload_status)
  (config : grpc_tls_credential_reload_config).

Lemma is_empty_true km :
  bool_decide (pem_key_cert_pair_list km = []) = true
  ↔ pem_key_cert_pair_list km = [].
Proof. apply bool_decide_eq_true. Qed.

(** Without a reload capability nothing is invoked and nothing changes. *)
Lemma fetch_without_config km options rs :
  credential_reload_config options = None →
  TlsFetchKeyMaterials km options rs
  = mkFetch (if bool_decide (pem_key_cert_pair_list km = [])
             then GRPC_STATUS_FAILED_PRECONDITION else GRPC_STATUS_OK)
            km rs [].
Proof.
  intros Hc. unfold TlsFetchKeyMaterials. rewrite Hc.
  now destruct (bool_decide _).
Qed.

(** With a reload capability, the capability is invoked once on a fresh
    argument pointing to the store, and the argument is released before the
    function returns, whatever the status. *)
Lemma fetch_with_config km options rs config :
  credential_reload_config options = Some config →
  let arg := (reload_Schedule config (new_reload_arg km)).1 in
  let result := (reload_Schedule config (new_reload_arg km)).2 in
  fetch_materials (TlsFetchKeyMaterials km options rs)
    = reload_key_materials_config arg ∧
  fetch_events (TlsFetchKeyMaterials km options rs)
    = EvReloadSchedule :: release_reload_arg arg ∧
  fetch_status (TlsFetchKeyMaterials km options rs)
    = (if decide (result ≠ 0%Z) then
         if bool_decide (pem_key_cert_pair_list km = [])
         then GRPC_STATUS_UNIMPLEMENTED else GRPC_STATUS_OK
       else
         match reload_status arg with
         | GRPC_SSL_CERTIFICATE_CONFIG_RELOAD_FAIL =>
             if bool_decide (pem_key_cert_pair_list km = [])
             then GRPC_STATUS_INTERNAL else GRPC_STATUS_OK
         | _ => GRPC_STATUS_OK
         end) ∧
  fetch_reload_status (TlsFetchKeyMaterials km options rs)
    = (if decide (result ≠ 0%Z) then rs else reload_status arg).
Proof.
  intros Hc. unfold TlsFetchKeyMaterials. rewrite Hc.
  destruct (reload_Schedule config (new_reload_arg km)) as [arg result].
  cbn [fst snd]. case_decide; [now repeat split|].
  destruct (reload_status arg); now repeat split.
Qed.

(** The status is FAILED_PRECONDITION only on the first exit. *)
Lemma fetch_status_with_config km options rs config :
  credential_reload_config options = Some config →
  fetch_status (TlsFetchKeyMaterials km options rs)
  ≠ GRPC_STATUS_FAILED_PRECONDITION.
Proof.
  intros Hc. destruct (fetch_with_config km options rs config Hc)
    as (_ & _ & -> & _).
  case_decide; [now destruct (bool_decide _)|].
  destruct (reload_status _); try discriminate.
  now destruct (bool_decide _).
Qed.

(** C4.  [TlsFetchKeyMaterials] returns FAILED_PRECONDITION exactly when no
    credential-reload capability is configured and the cert-pair list of
    the store is empty; and when it returns FAILED_PRECONDITION it has
    invoked nothing (its trace is empty) and has left the store and
    [*reload_status] as they were. *)
Theorem TlsFetchKeyMaterials_failed_precondition km options rs :
  (fetch_status (TlsFetchKeyMaterials km options rs)
     = GRPC_STATUS_FAILED_PRECONDITION
   ↔ credential_reload_config options = None
     ∧ pem_key_cert_pair_list km = []) ∧
  (fetch_status (TlsFetchKeyMaterials km options rs)
     = GRPC_STATUS_FAILED_PRECONDITION →
   TlsFetchKeyMaterials km options rs
     = mkFetch GRPC_STATUS_FAILED_PRECONDITION km rs []).
Proof.
  destruct (credential_reload_config options) as [config|] eqn:Hc.
  - pose proof (fetch_status_with_config km options rs config Hc) as Hne.
    split; [split|]; [contradiction | intros [? _]; discriminate | contradiction].
  - rewrite (fetch_without_config km options rs Hc).
    destruct (bool_decide (pem_key_cert_pair_list km = [])) eqn:He; cbn.
    + apply is_empty_true in He. split; [split; auto | reflexivity].
    + split; [split|]; try discriminate.
      intros [_ He']. apply is_empty_true in He'. congruence.
Qed.

(** C5 (as the code has it).  When the configured reload capability
    signals asynchronous completion ([Schedule] returns nonzero on the
    request: a zeroed argument whose [key_materials_config] is the store),
    [TlsFetchKeyMaterials] returns UNIMPLEMENTED if the cert-pair list was
    empty at entry and OK otherwise.  The store after the call is the one
    the capability left in the request, hence the store as it was at entry
    whenever the capability does not modify it.  The call returns at once:
    [*reload_status] keeps the caller's value (the status the capability may
    later write is never read), the capability is invoked exactly once, and
    the request is released in the same call, the destroy-context hook being
    run first when the capability has set one. *)
Theorem TlsFetchKeyMaterials_async km options rs config :
  let request :=
    mkReloadArg km GRPC_SSL_CERTIFICATE_CONFIG_RELOAD_UNCHANGED None None None
  in
  let answer := reload_Schedule config request in
  credential_reload_config options = Some config →
  answer.2 ≠ 0%Z →
  TlsFetchKeyMaterials km options rs
    = mkFetch
        (if bool_decide (pem_key_cert_pair_list km = [])
         then GRPC_STATUS_UNIMPLEMENTED else GRPC_STATUS_OK)
        (reload_key_materials_config answer.1)
        rs
        (EvReloadSchedule ::
         match reload_destroy_context answer.1 with
         | Some f =>
             [EvReloadDestroyContext f (reload_context answer.1);
              EvReloadArgDelete]
         | None => [EvReloadArgDelete]
         end) ∧
  (reload_key_materials_config answer.1 = km →
   fetch_materials (TlsFetchKeyMaterials km options rs) = km) ∧
  fetch_status (TlsFetchKeyMaterials km options rs)
    = (if bool_decide (pem_key_cert_pair_list km = [])
       then GRPC_STATUS_UNIMPLEMENTED else GRPC_STATUS_OK) ∧
  fetch_reload_status (TlsFetchKeyMaterials km options rs) = rs ∧
  reloads (fetch_events (TlsFetchKeyMaterials km options rs)) = 1 ∧
  last (fetch_events (TlsFetchKeyMaterials km options rs))
    = Some EvReloadArgDelete.
Proof.
  intros request answer Hc Hr.
  assert (Heq : TlsFetchKeyMaterials km options rs
                = mkFetch
                    (if bool_decide (pem_key_cert_pair_list km = [])
                     then GRPC_STATUS_UNIMPLEMENTED else GRPC_STATUS_OK)
                    (reload_key_materials_config answer.1) rs
                    (EvReloadSchedule :: release_reload_arg answer.1)).
  { unfold TlsFetchKeyMaterials. rewrite Hc.
    change (new_reload_arg km) with request. fold answer.
    destruct answer as [arg result]. cbn [fst snd] in *.
    now rewrite decide_True by assumption. }
  rewrite Heq. cbn [fetch_status fetch_materials fetch_reload_status
                    fetch_events].
  unfold release_reload_arg.
  destruct (reload_destroy_context answer.1); now repeat split.
Qed.

(** C6 (as the code has it).  When the reload capability completes
    synchronously with status FAIL ([Schedule] returns zero on the request:
    a zeroed argument whose [key_materials_config] is the store),
    [TlsFetchKeyMaterials] returns INTERNAL if the cert-pair list was empty
    at entry and OK otherwise, and [*reload_status] is FAIL.  The store
    after the call is the one the capability left in the request, hence the
    existing material whenever the capability does not modify it.  In both
    cases, after the capability has run, the destroy-context hook of the
    request is invoked on its context when the hook is present, and then the
    request is deleted: these are the last effects of the call. *)
Theorem TlsFetchKeyMaterials_sync_fail km options rs config :
  let request :=
    mkReloadArg km GRPC_SSL_CERTIFICATE_CONFIG_RELOAD_UNCHANGED None None None
  in
  let answer := reload_Schedule config request in
  credential_reload_config options = Some config →
  answer.2 = 0%Z →
  reload_status answer.1 = GRPC_SSL_CERTIFICATE_CONFIG_RELOAD_FAIL →
  TlsFetchKeyMaterials km options rs
    = mkFetch
        (if bool_decide (pem_key_cert_pair_list km = [])
         then GRPC_STATUS_INTERNAL else GRPC_STATUS_OK)
        (reload_key_materials_config answer.1)
        GRPC_SSL_CERTIFICATE_CONFIG_RELOAD_FAIL
        (EvReloadSchedule ::
         match reload_destroy_context answer.1 with
         | Some f =>
             [EvReloadDestroyContext f (reload_context answer.1);
              EvReloadArgDelete]
         | None => [EvReloadArgDelete]
         end) ∧
  (reload_key_materials_config answer.1 = km →
   fetch_materials (TlsFetchKeyMaterials km options rs) = km) ∧
  fetch_status (TlsFetchKeyMaterials km options rs)
    = (if bool_decide (pem_key_cert_pair_list km = [])
       then GRPC_STATUS_INTERNAL else GRPC_STATUS_OK).
Proof.
  intros request answer Hc Hr Hs.
  assert (Heq : TlsFetchKeyMaterials km options rs
                = mkFetch
                    (if bool_decide (pem_key_cert_pair_list km = [])
                     then GRPC_STATUS_INTERNAL else GRPC_STATUS_OK)
                    (reload_key_materials_config answer.1)
                    GRPC_SSL_CERTIFICATE_CONFIG_RELOAD_FAIL
                    (EvReloadSchedule :: release_reload_arg answer.1)).
  { unfold TlsFetchKeyMaterials. rewrite Hc.
    change (new_reload_arg km) with request. fold answer.
    destruct answer as [arg result]. cbn [fst snd] in *.
    rewrite decide_False by (intros Hn; now apply Hn). now rewrite Hs. }
  rewrite Heq. cbn [fetch_status fetch_materials fetch_reload_status
                    fetch_events].
  unfold release_reload_arg.
  destruct (reload_destroy_context answer.1); now repeat split.
Qed.

End FetchFacts.

(** ** Handshaker-factory life cycle *)

Section FactoryFacts.

Import Spiffe.

Context `{Collaborators}.

Implicit Types (km : grpc_tls_key_materials_config)
  (options : grpc_tls_credentials_options)
  (rs : grpc_ssl_certificate_config_reload_status)
  (config : grpc_tls_credential_reload_config)
  (evs : list event).

Lemma count_app (f : event → bool) evs1 evs2 :
  count f (evs1 ++ evs2) = count f evs1 + count f evs2.
Proof. unfold count. now rewrite List.filter_app, length_app. Qed.

(** The reload protocol itself neither releases nor builds a factory. *)
Lemma fetch_events_no_factory km options rs :
  releases (fetch_events (TlsFetchKeyMaterials km options rs)) = 0 ∧
  rebuilds (fetch_events (TlsFetchKeyMaterials km options rs)) = 0.
Proof.
  destruct (credential_reload_config options) as [config|] eqn:Hc.
  - destruct (fetch_with_config km options rs config Hc) as (_ & -> & _).
    unfold release_reload_arg.
    now destruct (reload_destroy_context _).
  - now rewrite (fetch_without_config km options rs Hc).
Qed.

(** [ConvertToTsiPemKeyCertPair] returns exactly on lists of complete
    pairs. *)
Lemma Convert_complete (l : list PemKeyCertPair) :
  forallb pair_complete l = true →
  ∃ r, ConvertToTsiPemKeyCertPair l = Done r ∧ length r = length l.
Proof.
  induction l as [|p l IH]; cbn [forallb ConvertToTsiPemKeyCertPair].
  - intros _. now exists [].
  - intros [Hp Hl]%andb_prop. destruct (IH Hl) as (r & -> & Hlen).
    unfold pair_complete in Hp. apply andb_prop in Hp as [Hk Hc].
    apply bool_decide_eq_true in Hk as [k ->], Hc as [c ->].
    eexists. split; [reflexivity|]. cbn. now rewrite Hlen.
Qed.

Lemma Convert_incomplete (l : list PemKeyCertPair) :
  forallb pair_complete l = false →
  ConvertToTsiPemKeyCertPair l = AssertionFailed.
Proof.
  induction l as [|p l IH]; cbn [forallb ConvertToTsiPemKeyCertPair];
    [discriminate|].
  intros Hf. unfold pair_complete in Hf.
  destruct (private_key p) as [k|]; [|reflexivity].
  destruct (cert_chain p) as [c|]; [|reflexivity].
  rewrite !bool_decide_eq_true_2 in Hf by (eexists; reflexivity).
  cbn in Hf. now rewrite (IH Hf).
Qed.

(** [ReplaceHandshakerFactory] first releases the factory in place, if
    any.  A store that passes the assertions then gets one construction,
    whose status is returned and whose result fills the slot; any other
    store stops the process at the assertion. *)
Lemma Replace_ok (c : SpiffeChannelSecurityConnector) cache :
  replace_assertions_hold (key_materials_config_ c) = true →
  ∃ pairs status slot,
    ReplaceHandshakerFactory c cache
    = (client_unref c
         ++ [EvClientFactoryInit pairs (pem_root_certs (key_materials_config_ c))
               cache;
             EvPairsDestroy 1],
       Done (status, set_client_factory c slot)).
Proof.
  unfold replace_assertions_hold, ReplaceHandshakerFactory.
  intros [Hne Hall]%andb_prop. apply negb_true_iff, bool_decide_eq_false in Hne.
  rewrite decide_False by assumption.
  destruct (Convert_complete _ Hall) as (pairs & -> & _).
  destruct (grpc_ssl_tsi_client_handshaker_factory_init _ _ _ _)
    as [status slot].
  now exists pairs, status, slot.
Qed.

Lemma Replace_abort (c : SpiffeChannelSecurityConnector) cache :
  replace_assertions_hold (key_materials_config_ c) = false →
  ReplaceHandshakerFactory c cache = (client_unref c, AssertionFailed).
Proof.
  unfold replace_assertions_hold, ReplaceHandshakerFactory.
  intros Hf. case_decide; [reflexivity|].
  rewrite bool_decide_eq_false_2 in Hf by assumption. cbn in Hf.
  now rewrite (Convert_incomplete _ Hf).
Qed.

Lemma ServerReplace_ok (c : SpiffeServerSecurityConnector) :
  replace_assertions_hold (server_key_materials_config_ c) = true →
  ∃ pairs status slot,
    ServerReplaceHandshakerFactory c
    = (server_unref c
         ++ [EvServerFactoryInit pairs
               (length (pem_key_cert_pair_list (server_key_materials_config_ c)))
               (pem_root_certs (server_key_materials_config_ c))
               (cert_request_type (server_creds_options c));
             EvPairsDestroy
               (length (pem_key_cert_pair_list (server_key_materials_config_ c)))],
       Done (status, set_server_factory c slot)).
Proof.
  unfold replace_assertions_hold, ServerReplaceHandshakerFactory.
  intros [Hne Hall]%andb_prop. apply negb_true_iff, bool_decide_eq_false in Hne.
  rewrite decide_False by assumption.
  destruct (Convert_complete _ Hall) as (pairs & -> & _).
  destruct (grpc_ssl_tsi_server_handshaker_factory_init _ _ _ _ _)
    as [status slot].
  now exists pairs, status, slot.
Qed.

Lemma ServerReplace_abort (c : SpiffeServerSecurityConnector) :
  replace_assertions_hold (server_key_materials_config_ c) = false →
  ServerReplaceHandshakerFactory c = (server_unref c, AssertionFailed).
Proof.
  unfold replace_assertions_hold, ServerReplaceHandshakerFactory.
  intros Hf. case_decide; [reflexivity|].
  rewrite bool_decide_eq_false_2 in Hf by assumption. cbn in Hf.
  now rewrite (Convert_incomplete _ Hf).
Qed.

Lemma releases_client_unref (c : SpiffeChannelSecurityConnector) :
  releases (client_unref c)
  = (if client_handshaker_factory_ c is Some _ then 1 else 0) ∧
  rebuilds (client_unref c) = 0.
Proof. unfold client_unref. now destruct (client_handshaker_factory_ c). Qed.

Lemma releases_server_unref (c : SpiffeServerSecurityConnector) :
  releases (server_unref c)
  = (if server_handshaker_factory_ c is Some _ then 1 else 0) ∧
  rebuilds (server_unref c) = 0.
Proof. unfold server_unref. now destruct (server_handshaker_factory_ c). Qed.

(** What [RefreshHandshakerFactory] does after a successful reload. *)
Lemma Refresh_after_fetch (c : SpiffeChannelSecurityConnector) :
  fetch_status (TlsFetchKeyMaterials (key_materials_config_ c)
                  (channel_creds_options c)
                  GRPC_SSL_CERTIFICATE_CONFIG_RELOAD_UNCHANGED)
    = GRPC_STATUS_OK →
  let r := TlsFetchKeyMaterials (key_materials_config_ c)
             (channel_creds_options c)
             GRPC_SSL_CERTIFICATE_CONFIG_RELOAD_UNCHANGED in
  let c1 := set_client_materials c (fetch_materials r) in
  RefreshHandshakerFactory c
  = if decide (fetch_reload_status r = GRPC_SSL_CERTIFICATE_CONFIG_RELOAD_NEW)
    then (fetch_events r ++ (ReplaceHandshakerFactory c1 None).1,
          (ReplaceHandshakerFactory c1 None).2)
    else (fetch_events r, Done (GRPC_SECURITY_OK, c1)).
Proof.
  intros Hok r c1. unfold RefreshHandshakerFactory. fold r. fold c1.
  rewrite decide_False by (intros Hn; now apply Hn).
  destruct (decide (fetch_reload_status r
                    = GRPC_SSL_CERTIFICATE_CONFIG_RELOAD_NEW)) as [Hnew|Hnew].
  - rewrite decide_False by (intros Hn; now apply Hn).
    now destruct (ReplaceHandshakerFactory c1 None).
  - now rewrite decide_True.
Qed.

Lemma ServerRefresh_after_fetch (c : SpiffeServerSecurityConnector) :
  fetch_status (TlsFetchKeyMaterials (server_key_materials_config_ c)
                  (server_creds_options c)
                  GRPC_SSL_CERTIFICATE_CONFIG_RELOAD_UNCHANGED)
    = GRPC_STATUS_OK →
  let r := TlsFetchKeyMaterials (server_key_materials_config_ c)
             (server_creds_options c)
             GRPC_SSL_CERTIFICATE_CONFIG_RELOAD_UNCHANGED in
  let c1 := set_server_materials c (fetch_materials r) in
  ServerRefreshHandshakerFactory c
  = if decide (fetch_reload_status r = GRPC_SSL_CERTIFICATE_CONFIG_RELOAD_NEW)
    then (fetch_events r ++ (ServerReplaceHandshakerFactory c1).1,
          (ServerReplaceHandshakerFactory c1).2)
    else (fetch_events r, Done (GRPC_SECURITY_OK, c1)).
Proof.
  intros Hok r c1. unfold ServerRefreshHandshakerFactory. fold r. fold c1.
  rewrite decide_False by (intros Hn; now apply Hn).
  destruct (decide (fetch_reload_status r
                    = GRPC_SSL_CERTIFICATE_CONFIG_RELOAD_NEW)) as [Hnew|Hnew].
  - rewrite decide_False by (intros Hn; now apply Hn).
    now destruct (ServerReplaceHandshakerFactory c1).
  - now rewrite decide_True.
Qed.

(** C2 (as the code has it).  Take a call of [RefreshHandshakerFactory],
    client or server, whose reload protocol succeeds
    ([TlsFetchKeyMaterials] returns OK).

    - If the reload status is NEW, the factory in place, if any, is released
      exactly once; and when the store then passes the assertions of
      [ReplaceHandshakerFactory] (a non-empty list of complete pairs),
      exactly one factory construction is run and the call returns its
      status with the slot it filled.  When the store does not pass them, no
      construction is run and the process stops at the assertion.
    - If the reload status is not NEW (UNCHANGED, or FAIL with existing
      material), the call returns OK, its trace is that of the reload
      protocol, which releases and builds nothing, and the factory slot is
      what it was. *)
Theorem RefreshHandshakerFactory_rebuild_policy :
  (∀ c : SpiffeChannelSecurityConnector,
     let r := TlsFetchKeyMaterials (key_materials_config_ c)
                (channel_creds_options c)
                GRPC_SSL_CERTIFICATE_CONFIG_RELOAD_UNCHANGED in
     let c1 := set_client_materials c (fetch_materials r) in
     fetch_status r = GRPC_STATUS_OK →
     (fetch_reload_status r = GRPC_SSL_CERTIFICATE_CONFIG_RELOAD_NEW →
        releases (RefreshHandshakerFactory c).1
          = (if client_handshaker_factory_ c is Some _ then 1 else 0) ∧
        (replace_assertions_hold (fetch_materials r) = true →
           rebuilds (RefreshHandshakerFactory c).1 = 1 ∧
           ∃ status slot,
             (RefreshHandshakerFactory c).2
             = Done (status, set_client_factory c1 slot)) ∧
        (replace_assertions_hold (fetch_materials r) = false →
           rebuilds (RefreshHandshakerFactory c).1 = 0 ∧
           (RefreshHandshakerFactory c).2 = AssertionFailed)) ∧
     (fetch_reload_status r ≠ GRPC_SSL_CERTIFICATE_CONFIG_RELOAD_NEW →
        RefreshHandshakerFactory c
          = (fetch_events r, Done (GRPC_SECURITY_OK, c1)) ∧
        releases (fetch_events r) = 0 ∧
        rebuilds (fetch_events r) = 0 ∧
        client_handshaker_factory_ c1 = client_handshaker_factory_ c)) ∧
  (∀ c : SpiffeServerSecurityConnector,
     let r := TlsFetchKeyMaterials (server_key_materials_config_ c)
                (server_creds_options c)
                GRPC_SSL_CERTIFICATE_CONFIG_RELOAD_UNCHANGED in
     let c1 := set_server_materials c (fetch_materials r) in
     fetch_status r = GRPC_STATUS_OK →
     (fetch_reload_status r = GRPC_SSL_CERTIFICATE_CONFIG_RELOAD_NEW →
        releases (ServerRefreshHandshakerFactory c).1
          = (if server_handshaker_factory_ c is Some _ then 1 else 0) ∧
        (replace_assertions_hold (fetch_materials r) = true →
           rebuilds (ServerRefreshHandshakerFactory c).1 = 1 ∧
           ∃ status slot,
             (ServerRefreshHandshakerFactory c).2
             = Done (status, set_server_factory c1 slot)) ∧
        (replace_assertions_hold (fetch_materials r) = false →
           rebuilds (ServerRefreshHandshakerFactory c).1 = 0 ∧
           (ServerRefreshHandshakerFactory c).2 = AssertionFailed)) ∧
     (fetch_reload_status r ≠ GRPC_SSL_CERTIFICATE_CONFIG_RELOAD_NEW →
        ServerRefreshHandshakerFactory c
          = (fetch_events r, Done (GRPC_SECURITY_OK, c1)) ∧
        releases (fetch_events r) = 0 ∧
        rebuilds (fetch_events r) = 0 ∧
        server_handshaker_factory_ c1 = server_handshaker_factory_ c)).
Proof.
  split.
  - intros c r c1 Hok.
    pose proof (Refresh_after_fetch c Hok) as Href. cbv zeta in Href.
    fold r in Href. fold c1 in Href.
    destruct (fetch_events_no_factory (key_materials_config_ c)
                (channel_creds_options c)
                GRPC_SSL_CERTIFICATE_CONFIG_RELOAD_UNCHANGED) as [Hrel Hreb].
    fold r in Hrel, Hreb.
    destruct (releases_client_unref c1) as [Hu1 Hu2].
    split.
    + intros Hnew. rewrite Href, decide_True by assumption. cbn [fst snd].
      unfold releases, rebuilds in *. rewrite !count_app, Hrel, Hreb.
      split; [|split].
      * destruct (replace_assertions_hold (key_materials_config_ c1)) eqn:Ha.
        -- destruct (Replace_ok c1 None Ha) as (p & st & sl & ->).
           cbn [fst]. now rewrite count_app, Hu1.
        -- rewrite (Replace_abort c1 None Ha). cbn [fst]. now rewrite Hu1.
      * intros Ha. destruct (Replace_ok c1 None Ha) as (p & st & sl & ->).
        cbn [fst snd]. rewrite count_app, Hu2. split; [reflexivity|].
        now exists st, sl.
      * intros Ha. rewrite (Replace_abort c1 None Ha). cbn [fst snd].
        now rewrite Hu2.
    + intros Hnew. rewrite Href, decide_False by assumption.
      now repeat split.
  - intros c r c1 Hok.
    pose proof (ServerRefresh_after_fetch c Hok) as Href. cbv zeta in Href.
    fold r in Href. fold c1 in Href.
    destruct (fetch_events_no_factory (server_key_materials_config_ c)
                (server_creds_options c)
                GRPC_SSL_CERTIFICATE_CONFIG_RELOAD_UNCHANGED) as [Hrel Hreb].
    fold r in Hrel, Hreb.
    destruct (releases_server_unref c1) as [Hu1 Hu2].
    split.
    + intros Hnew. rewrite Href, decide_True by assumption. cbn [fst snd].
      unfold releases, rebuilds in *. rewrite !count_app, Hrel, Hreb.
      split; [|split].
      * destruct (replace_assertions_hold (server_key_materials_config_ c1))
          eqn:Ha.
        -- destruct (ServerReplace_ok c1 Ha) as (p & st & sl & ->).
           cbn [fst]. now rewrite count_app, Hu1.
        -- rewrite (ServerReplace_abort c1 Ha). cbn [fst]. now rewrite Hu1.
      * intros Ha. destruct (ServerReplace_ok c1 Ha) as (p & st & sl & ->).
        cbn [fst snd]. rewrite count_app, Hu2. split; [reflexivity|].
        now exists st, sl.
      * intros Ha. rewrite (ServerReplace_abort c1 Ha). cbn [fst snd].
        now rewrite Hu2.
    + intros Hnew. rewrite Href, decide_False by assumption.
      now repeat split.
Qed.

(** C10.  [TlsFetchKeyMaterials] assigns [*reload_status] only when the
    reload capability completes synchronously, and then with the status the
    capability reported; without a capability, or when the capability
    signals asynchronous completion, [*reload_status] keeps the value the
    caller supplied.  Hence a [RefreshHandshakerFactory] call, client or
    server, whose capability answers asynchronously while the store holds
    material returns OK with the factory slot untouched, having released and
    built nothing. *)
Theorem reload_status_written_on_sync_path_only :
  (∀ km options rs,
     credential_reload_config options = None →
     fetch_reload_status (TlsFetchKeyMaterials km options rs) = rs) ∧
  (∀ km options rs config,
     credential_reload_config options = Some config →
     (reload_Schedule config (new_reload_arg km)).2 ≠ 0%Z →
     fetch_reload_status (TlsFetchKeyMaterials km options rs) = rs) ∧
  (∀ km options rs config,
     credential_reload_config options = Some config →
     (reload_Schedule config (new_reload_arg km)).2 = 0%Z →
     fetch_reload_status (TlsFetchKeyMaterials km options rs)
     = reload_status (reload_Schedule config (new_reload_arg km)).1) ∧
  (∀ (c : SpiffeChannelSecurityConnector) config,
     credential_reload_config (channel_creds_options c) = Some config →
     (reload_Schedule config (new_reload_arg (key_materials_config_ c))).2
       ≠ 0%Z →
     pem_key_cert_pair_list (key_materials_config_ c) ≠ [] →
     ∃ c',
       (RefreshHandshakerFactory c).2 = Done (GRPC_SECURITY_OK, c') ∧
       client_handshaker_factory_ c' = client_handshaker_factory_ c ∧
       releases (RefreshHandshakerFactory c).1 = 0 ∧
       rebuilds (RefreshHandshakerFactory c).1 = 0) ∧
  (∀ (c : SpiffeServerSecurityConnector) config,
     credential_reload_config (server_creds_options c) = Some config →
     (reload_Schedule config
        (new_reload_arg (server_key_materials_config_ c))).2 ≠ 0%Z →
     pem_key_cert_pair_list (server_key_materials_config_ c) ≠ [] →
     ∃ c',
       (ServerRefreshHandshakerFactory c).2 = Done (GRPC_SECURITY_OK, c') ∧
       server_handshaker_factory_ c' = server_handshaker_factory_ c ∧
       releases (ServerRefreshHandshakerFactory c).1 = 0 ∧
       rebuilds (ServerRefreshHandshakerFactory c).1 = 0).
Proof.
  split; [|split; [|split; [|split]]].
  - intros km options rs Hc. now rewrite (fetch_without_config km options rs Hc).
  - intros km options rs config Hc Hr.
    destruct (fetch_with_config km options rs config Hc) as (_ & _ & _ & ->).
    now rewrite decide_True.
  - intros km options rs config Hc Hr.
    destruct (fetch_with_config km options rs config Hc) as (_ & _ & _ & ->).
    rewrite decide_False; [reflexivity | intros Hn; now apply Hn].
  - intros c config Hc Hr Hne.
    destruct (fetch_with_config (key_materials_config_ c)
                (channel_creds_options c)
                GRPC_SSL_CERTIFICATE_CONFIG_RELOAD_UNCHANGED config Hc)
      as (_ & _ & Hst & Hrs).
    rewrite decide_True in Hst by assumption.
    rewrite decide_True in Hrs by assumption.
    rewrite bool_decide_eq_false_2 in Hst by assumption.
    pose proof (Refresh_after_fetch c Hst) as Href. cbv zeta in Href.
    rewrite Hrs, decide_False in Href by discriminate.
    rewrite Href. cbn [fst snd]. eexists. split; [reflexivity|].
    split; [reflexivity|]. apply fetch_events_no_factory.
  - intros c config Hc Hr Hne.
    destruct (fetch_with_config (server_key_materials_config_ c)
                (server_creds_options c)
                GRPC_SSL_CERTIFICATE_CONFIG_RELOAD_UNCHANGED config Hc)
      as (_ & _ & Hst & Hrs).
    rewrite decide_True in Hst by assumption.
    rewrite decide_True in Hrs by assumption.
    rewrite bool_decide_eq_false_2 in Hst by assumption.
    pose proof (ServerRefresh_after_fetch c Hst) as Href. cbv zeta in Href.
    rewrite Hrs, decide_False in Href by discriminate.
    rewrite Href. cbn [fst snd]. eexists. split; [reflexivity|].
    split; [reflexivity|]. apply fetch_events_no_factory.
Qed.

(** A synchronous UNCHANGED answer is accepted whatever the store holds:
    the status is OK even when the cert-pair list was empty at entry and
    the capability left it empty. *)
Lemma fetch_unchanged_ok km options rs config :
  credential_reload_config options = Some config →
  (reload_Schedule config (new_reload_arg km)).2 = 0%Z →
  reload_status (reload_Schedule config (new_reload_arg km)).1
    = GRPC_SSL_CERTIFICATE_CONFIG_RELOAD_UNCHANGED →
  fetch_status (TlsFetchKeyMaterials km options rs) = GRPC_STATUS_OK.
Proof.
  intros Hc Hr Hs.
  destruct (fetch_with_config km options rs config Hc) as (_ & _ & -> & _).
  rewrite decide_False by (intros Hn; now apply Hn). now rewrite Hs.
Qed.

(** Initialisation with a capability that answers UNCHANGED at once and
    leaves an empty store empty: the reload protocol succeeds and the call
    stops at the assertion of [ReplaceHandshakerFactory], before any
    collaborator is called. *)
Lemma Initialize_unchanged_empty_aborts (c : SpiffeChannelSecurityConnector)
    config cache :
  credential_reload_config (channel_creds_options c) = Some config →
  let store := copy_key_materials (channel_creds_options c)
                 (key_materials_config_ c) in
  let answer := reload_Schedule config (new_reload_arg store) in
  answer.2 = 0%Z →
  reload_status answer.1 = GRPC_SSL_CERTIFICATE_CONFIG_RELOAD_UNCHANGED →
  pem_key_cert_pair_list (reload_key_materials_config answer.1) = [] →
  (InitializeHandshakerFactory c cache).2 = AssertionFailed.
Proof.
  intros Hc store answer Hr Hs He.
  pose proof (fetch_unchanged_ok store (channel_creds_options c)
                GRPC_SSL_CERTIFICATE_CONFIG_RELOAD_UNCHANGED config Hc Hr Hs)
    as Hok.
  destruct (fetch_with_config store (channel_creds_options c)
              GRPC_SSL_CERTIFICATE_CONFIG_RELOAD_UNCHANGED config Hc)
    as (Hm & _).
  fold answer in Hm.
  unfold InitializeHandshakerFactory. fold store.
  rewrite decide_False by (intros Hn; now apply Hn).
  rewrite Replace_abort; [reflexivity|].
  unfold replace_assertions_hold. cbn [key_materials_config_ set_client_materials].
  rewrite Hm, He. reflexivity.
Qed.

(** C9 (the code at the failing input).  A connector as its constructor
    leaves it, whose credentials configure no key material and a reload
    capability that completes synchronously with UNCHANGED without
    providing any: [TlsFetchKeyMaterials] returns OK on the empty store, and
    [InitializeHandshakerFactory], client and server alike, goes on to
    [ReplaceHandshakerFactory], whose non-emptiness assertion fails. *)
Theorem InitializeHandshakerFactory_unchanged_empty_store
    (cache : option session_cache_ptr) :
  fetch_status
    (TlsFetchKeyMaterials
       (copy_key_materials (channel_creds_options Samples.fresh_client_unchanged)
          (key_materials_config_ Samples.fresh_client_unchanged))
       (channel_creds_options Samples.fresh_client_unchanged)
       GRPC_SSL_CERTIFICATE_CONFIG_RELOAD_UNCHANGED) = GRPC_STATUS_OK ∧
  InitializeHandshakerFactory Samples.fresh_client_unchanged cache
    = ([EvReloadSchedule; EvReloadArgDelete], AssertionFailed) ∧
  ServerInitializeHandshakerFactory Samples.fresh_server_unchanged
    = ([EvReloadSchedule; EvReloadArgDelete], AssertionFailed).
Proof. repeat split. Qed.

End FactoryFacts.

(** ** Peer check and server authorization *)

Section CheckFacts.

Import Spiffe.

Context `{Collaborators}.




(** The three outcomes of [check_peer] once ALPN has passed and an
    authorization capability is configured with the certificate present. *)
Lemma check_peer_scheduled (c : SpiffeChannelSecurityConnector)
    (peer : tsi_peer) (on_peer_checked : grpc_closure) config value :
  server_authorization_check_config (channel_creds_options c) = Some config →
  grpc_ssl_check_alpn peer = GRPC_ERROR_NONE →
  tsi_peer_get_property_by_name peer TSI_X509_PEM_CERT_PROPERTY = Some value →
  let arg0 := populate_check_arg (check_arg_ c) value
                (default (target_name_ c) (overridden_target_name_ c)) in
  let arg := (check_Schedule config arg0).1 in
  checked_connector (check_peer c peer on_peer_checked)
    = set_check c arg (Some on_peer_checked) ∧
  check_events (check_peer c peer on_peer_checked)
    = if decide ((check_Schedule config arg0).2 ≠ 0%Z) then
        [EvCheckSchedule arg0; EvTsiPeerDestruct]
      else
        [EvCheckSchedule arg0;
         EvExecCtxRun (Some on_peer_checked)
                      (ProcessServerAuthorizationCheckResult arg);
         EvTsiPeerDestruct].
Proof.
  intros Hc Ha Hp arg0 arg. unfold check_peer. rewrite Ha, Hc, Hp.
  fold arg0. subst arg.
  destruct (check_Schedule config arg0) as [arg st]. cbn [fst snd].
  now case_decide.
Qed.


(** C8.  With a server-authorization capability configured, a peer that
    passes the ALPN check and has no PEM certificate property makes
    [check_peer] run the completion callback once, with the error
    [Cannot check peer: missing pem cert property.], and then destroy the
    peer; the capability is not invoked and the connector is unchanged. *)
Theorem check_peer_missing_pem_cert (c : SpiffeChannelSecurityConnector)
    (peer : tsi_peer) (on_peer_checked : grpc_closure) config :
  server_authorization_check_config (channel_creds_options c) = Some config →
  grpc_ssl_check_alpn peer = GRPC_ERROR_NONE →
  tsi_peer_get_property_by_name peer TSI_X509_PEM_CERT_PROPERTY = None →
  check_events (check_peer c peer on_peer_checked)
    = [EvExecCtxRun (Some on_peer_checked)
         (GRPC_ERROR_CREATE "Cannot check peer: missing pem cert property.");
       EvTsiPeerDestruct] ∧
  completions (check_events (check_peer c peer on_peer_checked))
    = [(Some on_peer_checked,
        GRPC_ERROR_CREATE "Cannot check peer: missing pem cert property.")] ∧
  check_invocations (check_events (check_peer c peer on_peer_checked)) = 0 ∧
  checked_connector (check_peer c peer on_peer_checked) = c.
Proof.
  intros Hc Ha Hp. unfold check_peer. rewrite Ha, Hc, Hp. now repeat split.
Qed.

End CheckFacts.

(** ** The model on concrete inputs *)

Section Runs.

Import Spiffe Samples.

(** C5 at an asynchronous capability that leaves the store alone: OK, and
    the store is the material it held. *)
Lemma TlsFetchKeyMaterials_async_witness :
  (reload_Schedule reload_async
     (mkReloadArg materials1 GRPC_SSL_CERTIFICATE_CONFIG_RELOAD_UNCHANGED
        None None None)).2 ≠ 0%Z ∧
  TlsFetchKeyMaterials materials1
    (options_with None (Some reload_async) None)
    GRPC_SSL_CERTIFICATE_CONFIG_RELOAD_NEW
  = mkFetch GRPC_STATUS_OK materials1 GRPC_SSL_CERTIFICATE_CONFIG_RELOAD_NEW
      [EvReloadSchedule; EvReloadArgDelete] ∧
  fetch_materials
    (TlsFetchKeyMaterials materials1
       (options_with None (Some reload_async) None)
       GRPC_SSL_CERTIFICATE_CONFIG_RELOAD_NEW) = materials1.
Proof.
  assert (Hr : (reload_Schedule reload_async
                  (mkReloadArg materials1
                     GRPC_SSL_CERTIFICATE_CONFIG_RELOAD_UNCHANGED
                     None None None)).2 ≠ 0%Z) by (cbn; discriminate).
  split; [exact Hr|].
  destruct (TlsFetchKeyMaterials_async materials1
              (options_with None (Some reload_async) None)
              GRPC_SSL_CERTIFICATE_CONFIG_RELOAD_NEW reload_async eq_refl Hr)
    as (Heq & Hkeep & _).
  split; [exact Heq | exact (Hkeep eq_refl)].
Defined.

(** C5 as stated fails here: the store holds material; the capability
    replaces its content and signals asynchronous completion.  The call
    returns OK, and the store is no longer the material it held. *)
Lemma TlsFetchKeyMaterials_async_rewritten_store :
  pem_key_cert_pair_list materials1 ≠ [] ∧
  (reload_Schedule reload_async_rewriting
     (mkReloadArg materials1 GRPC_SSL_CERTIFICATE_CONFIG_RELOAD_UNCHANGED
        None None None)).2 ≠ 0%Z ∧
  TlsFetchKeyMaterials materials1
    (options_with None (Some reload_async_rewriting) None)
    GRPC_SSL_CERTIFICATE_CONFIG_RELOAD_UNCHANGED
  = mkFetch GRPC_STATUS_OK (mkMaterials (Some "ROOT2") [pair2])
      GRPC_SSL_CERTIFICATE_CONFIG_RELOAD_UNCHANGED
      [EvReloadSchedule; EvReloadArgDelete] ∧
  fetch_materials
    (TlsFetchKeyMaterials materials1
       (options_with None (Some reload_async_rewriting) None)
       GRPC_SSL_CERTIFICATE_CONFIG_RELOAD_UNCHANGED) ≠ materials1.
Proof.
  split; [discriminate|]. split; [cbn; discriminate|].
  split; [reflexivity | cbn; discriminate].
Qed.

(** The same capability on an empty store: UNIMPLEMENTED. *)
Example TlsFetchKeyMaterials_async_empty :
  fetch_status
    (TlsFetchKeyMaterials grpc_tls_key_materials_config_create
       (options_with None (Some reload_async) None)
       GRPC_SSL_CERTIFICATE_CONFIG_RELOAD_UNCHANGED)
  = GRPC_STATUS_UNIMPLEMENTED.
Proof. reflexivity. Qed.

(** C6 at a failing capability that leaves a context and does not touch
    the store: OK, the store is the material it held, the hook is run on
    the context and then the request is deleted. *)
Lemma TlsFetchKeyMaterials_sync_fail_witness :
  TlsFetchKeyMaterials materials1
    (options_with None (Some reload_fail) None)
    GRPC_SSL_CERTIFICATE_CONFIG_RELOAD_UNCHANGED
  = mkFetch GRPC_STATUS_OK materials1 GRPC_SSL_CERTIFICATE_CONFIG_RELOAD_FAIL
      [EvReloadSchedule; EvReloadDestroyContext 9%positive (Some 5%positive);
       EvReloadArgDelete] ∧
  fetch_materials
    (TlsFetchKeyMaterials materials1
       (options_with None (Some reload_fail) None)
       GRPC_SSL_CERTIFICATE_CONFIG_RELOAD_UNCHANGED) = materials1.
Proof.
  destruct (TlsFetchKeyMaterials_sync_fail materials1
              (options_with None (Some reload_fail) None)
              GRPC_SSL_CERTIFICATE_CONFIG_RELOAD_UNCHANGED reload_fail
              eq_refl eq_refl eq_refl) as (Heq & Hkeep & _).
  split; [exact Heq | exact (Hkeep eq_refl)].
Defined.

(** C6 as stated fails here: the credentials configure [materials1];
    the capability replaces the content of the store and completes at once
    with FAIL.  [TlsFetchKeyMaterials] returns OK with the replaced store,
    and [InitializeHandshakerFactory] builds the factory from the replaced
    material, not from the material the connector had. *)
Lemma TlsFetchKeyMaterials_sync_fail_rewritten_store :
  pem_key_cert_pair_list materials1 ≠ [] ∧
  TlsFetchKeyMaterials materials1
    (options_with None (Some reload_fail_rewriting) None)
    GRPC_SSL_CERTIFICATE_CONFIG_RELOAD_UNCHANGED
  = mkFetch GRPC_STATUS_OK (mkMaterials (Some "ROOT2") [pair2])
      GRPC_SSL_CERTIFICATE_CONFIG_RELOAD_FAIL
      [EvReloadSchedule; EvReloadArgDelete] ∧
  fetch_materials
    (TlsFetchKeyMaterials materials1
       (options_with None (Some reload_fail_rewriting) None)
       GRPC_SSL_CERTIFICATE_CONFIG_RELOAD_UNCHANGED) ≠ materials1 ∧
  (@InitializeHandshakerFactory collaborators
     (channel_connector
        (options_with (Some materials1) (Some reload_fail_rewriting) None)
        None grpc_tls_key_materials_config_create) None).1
  = [EvReloadSchedule; EvReloadArgDelete;
     EvClientFactoryInit [mkTsiPair "KEY2" "CERT2"] (Some "ROOT2") None;
     EvPairsDestroy 1].
Proof.
  split; [discriminate|]. split; [reflexivity|].
  split; [cbn; discriminate | reflexivity].
Qed.

(** The same capability on an empty store: INTERNAL, and the same release. *)
Example TlsFetchKeyMaterials_sync_fail_empty :
  TlsFetchKeyMaterials grpc_tls_key_materials_config_create
    (options_with None (Some reload_fail) None)
    GRPC_SSL_CERTIFICATE_CONFIG_RELOAD_UNCHANGED
  = mkFetch GRPC_STATUS_INTERNAL grpc_tls_key_materials_config_create
      GRPC_SSL_CERTIFICATE_CONFIG_RELOAD_FAIL
      [EvReloadSchedule; EvReloadDestroyContext 9%positive (Some 5%positive);
       EvReloadArgDelete].
Proof. reflexivity. Qed.

(** C2 as stated fails here: the store holds material and a factory is in
    place; the capability completes synchronously, reports NEW and leaves the
    cert-pair list empty.  The reload protocol succeeds with status NEW,
    the factory in place is released, and the call stops at the assertion of
    [ReplaceHandshakerFactory]: no factory is built. *)
Lemma RefreshHandshakerFactory_new_empty_store :
  fetch_status
    (TlsFetchKeyMaterials (key_materials_config_ (client_with reload_new_empty))
       (channel_creds_options (client_with reload_new_empty))
       GRPC_SSL_CERTIFICATE_CONFIG_RELOAD_UNCHANGED) = GRPC_STATUS_OK ∧
  fetch_reload_status
    (TlsFetchKeyMaterials (key_materials_config_ (client_with reload_new_empty))
       (channel_creds_options (client_with reload_new_empty))
       GRPC_SSL_CERTIFICATE_CONFIG_RELOAD_UNCHANGED)
    = GRPC_SSL_CERTIFICATE_CONFIG_RELOAD_NEW ∧
  @RefreshHandshakerFactory collaborators (client_with reload_new_empty)
    = ([EvReloadSchedule; EvReloadArgDelete; EvClientFactoryUnref 7%positive],
       AssertionFailed) ∧
  rebuilds
    (@RefreshHandshakerFactory collaborators (client_with reload_new_empty)).1
    ≠ 1.
Proof. repeat split. discriminate. Qed.

(** C2 at a capability that provides new material: one release and one
    construction, on the client and on the server. *)
Lemma RefreshHandshakerFactory_rebuild_policy_witness :
  (releases (@RefreshHandshakerFactory collaborators (client_with reload_new)).1
     = 1 ∧
   rebuilds (@RefreshHandshakerFactory collaborators (client_with reload_new)).1
     = 1) ∧
  (releases
     (@ServerRefreshHandshakerFactory collaborators (server_with reload_new)).1
     = 1 ∧
   rebuilds
     (@ServerRefreshHandshakerFactory collaborators (server_with reload_new)).1
     = 1) ∧
  @RefreshHandshakerFactory collaborators (client_with reload_fail)
    = ([EvReloadSchedule; EvReloadDestroyContext 9%positive (Some 5%positive);
        EvReloadArgDelete],
       Done (GRPC_SECURITY_OK, client_with reload_fail)).
Proof.
  destruct (@RefreshHandshakerFactory_rebuild_policy collaborators)
    as [Hclient Hserver].
  split; [|split].
  - destruct (Hclient (client_with reload_new) eq_refl) as [Hnew _].
    destruct (Hnew eq_refl) as (Hrel & Hreb & _).
    split; [exact Hrel | exact (proj1 (Hreb eq_refl))].
  - destruct (Hserver (server_with reload_new) eq_refl) as [Hnew _].
    destruct (Hnew eq_refl) as (Hrel & Hreb & _).
    split; [exact Hrel | exact (proj1 (Hreb eq_refl))].
  - destruct (Hclient (client_with reload_fail) eq_refl) as [_ Hold].
    assert (Hne : GRPC_SSL_CERTIFICATE_CONFIG_RELOAD_FAIL
                  ≠ GRPC_SSL_CERTIFICATE_CONFIG_RELOAD_NEW) by discriminate.
    exact (proj1 (Hold Hne)).
Defined.

(** C10 at an asynchronous capability with material in the store. *)
Lemma reload_status_written_on_sync_path_only_witness :
  fetch_reload_status
    (TlsFetchKeyMaterials materials1
       (options_with None (Some reload_async) None)
       GRPC_SSL_CERTIFICATE_CONFIG_RELOAD_FAIL)
    = GRPC_SSL_CERTIFICATE_CONFIG_RELOAD_FAIL ∧
  ∃ c',
    (@RefreshHandshakerFactory collaborators (client_with reload_async)).2
      = Done (GRPC_SECURITY_OK, c') ∧
    client_handshaker_factory_ c' = Some 7%positive ∧
    releases (@RefreshHandshakerFactory collaborators (client_with reload_async)).1
      = 0 ∧
    rebuilds (@RefreshHandshakerFactory collaborators (client_with reload_async)).1
      = 0.
Proof.
  destruct (@reload_status_written_on_sync_path_only collaborators)
    as (_ & Hasync & _ & Hclient & _).
  assert (Hr : (reload_Schedule reload_async (new_reload_arg materials1)).2
               ≠ 0%Z) by (cbn; discriminate).
  split.
  - exact (Hasync materials1 (options_with None (Some reload_async) None)
             GRPC_SSL_CERTIFICATE_CONFIG_RELOAD_FAIL reload_async eq_refl Hr).
  - assert (Hne : pem_key_cert_pair_list materials1 ≠ []) by discriminate.
    exact (Hclient (client_with reload_async) reload_async eq_refl Hr Hne).
Defined.

(** C8 at a peer that has only the ALPN property. *)
Lemma check_peer_missing_pem_cert_witness :
  @grpc_ssl_check_alpn collaborators peer_without_cert = GRPC_ERROR_NONE ∧
  @tsi_peer_get_property_by_name collaborators peer_without_cert
    (@TSI_X509_PEM_CERT_PROPERTY collaborators) = None ∧
  completions
    (check_events
       (@check_peer collaborators client_checking peer_without_cert 3%positive))
    = [(Some 3%positive,
        GRPC_ERROR_CREATE "Cannot check peer: missing pem cert property.")] ∧
  check_invocations
    (check_events
       (@check_peer collaborators client_checking peer_without_cert 3%positive))
    = 0.
Proof.
  split; [reflexivity|]. split; [reflexivity|].
  destruct (@check_peer_missing_pem_cert collaborators client_checking
              peer_without_cert 3%positive check_reject eq_refl eq_refl eq_refl)
    as (_ & Hrun & Hinv & _).
  split; [exact Hrun | exact Hinv].
Defined.


End Runs.

Section TrackerRuns.

Import Connectivity Samples.

(** Two watchers registered at IDLE; [SetState(READY)] and then
    [SetState(SHUTDOWN)]: each watcher is told READY then SHUTDOWN, and the
    registry is empty afterwards. *)
Example SetState_ready_then_shutdown :
  let step1 := SetState false tracker_two_watchers GRPC_CHANNEL_READY "up" in
  let step2 := SetState false step1.1 GRPC_CHANNEL_SHUTDOWN "closing" in
  received 1%positive (step1.2 ++ step2.2)
    = [GRPC_CHANNEL_READY; GRPC_CHANNEL_SHUTDOWN] ∧
  received 2%positive (step1.2 ++ step2.2)
    = [GRPC_CHANNEL_READY; GRPC_CHANNEL_SHUTDOWN] ∧
  state_ step2.1 = GRPC_CHANNEL_SHUTDOWN ∧
  watchers_ step2.1 = ∅.
Proof. vm_compute. repeat split. Qed.

(** Setting the state it already has does nothing, even with tracing on. *)
Example SetState_same_state :
  SetState true tracker_two_watchers GRPC_CHANNEL_IDLE "again"
  = (tracker_two_watchers, []).
Proof. reflexivity. Qed.

(** A watcher added to a tracker in SHUTDOWN with another guess gets its
    catch-up notification, is orphaned and is not registered. *)
Example AddWatcher_in_shutdown :
  AddWatcher false (new_tracker "channel" GRPC_CHANNEL_SHUTDOWN)
    GRPC_CHANNEL_IDLE 4%positive
  = (new_tracker "channel" GRPC_CHANNEL_SHUTDOWN,
     [EvNotify 4%positive GRPC_CHANNEL_SHUTDOWN; EvOrphan 4%positive]).
Proof. reflexivity. Qed.

End TrackerRuns.

(** ** More on the tracker: names, removal, destruction, sequences *)

Section TrackerMore.

Import Connectivity ConnectivityRuns.

Variable tr : bool.

Implicit Types (t : ConnectivityStateTracker) (w : watcher_ptr)
  (s : grpc_connectivity_state) (evs : list event).

Lemma received_app w evs1 evs2 :
  received w (evs1 ++ evs2) = received w evs1 ++ received w evs2.
Proof. apply omap_app. Qed.

Lemma received_trace_log w (l : log_line) : received w (trace_log tr l) = [].
Proof. unfold trace_log; now destruct tr. Qed.

Lemma received_orphans w (ws : list watcher_ptr) :
  received w (EvOrphan <$> ws) = [].
Proof. induction ws as [|x ws IH]; [reflexivity | exact IH]. Qed.

(** One pass of the loop over a duplicate-free list tells a watcher the
    state once if it is in the list and not at all otherwise. *)
Lemma received_notify_all name (ws : list watcher_ptr) cur s w :
  NoDup ws →
  received w (notify_all tr name ws cur s)
  = if decide (w ∈ ws) then [s] else [].
Proof.
  induction 1 as [|x ws Hx Hnd IH]; [reflexivity|].
  unfold notify_all in *. cbn [mbind list_bind].
  rewrite !received_app, received_trace_log, IH. cbn.
  destruct (decide (x = w)) as [->|Hne];
    destruct (decide (w ∈ ws)) as [Hin|Hin];
    destruct (decide (w ∈ _ :: ws)) as [Hc|Hc];
    try reflexivity; try contradiction.
  - exfalso. apply Hc, list_elem_of_here.
  - exfalso. apply Hc. now apply list_elem_of_further.
  - exfalso. apply elem_of_cons in Hc as [Heq|?]; congruence.
Qed.

Lemma received_notify_elements name (ws : gset watcher_ptr) cur s w :
  received w (notify_all tr name (elements ws) cur s)
  = if decide (w ∈ ws) then [s] else [].
Proof.
  rewrite received_notify_all by apply NoDup_elements.
  destruct (decide (w ∈ ws)) as [Hin|Hin].
  - rewrite decide_True; [reflexivity | now apply elem_of_elements].
  - rewrite decide_False; [reflexivity | now rewrite elem_of_elements].
Qed.

(** What one [SetState] tells one watcher, and the tracker it leaves. *)
Lemma SetState_received t s reason w :
  received w (SetState tr t s reason).2
  = if decide (s = state_ t) then []
    else if decide (w ∈ watchers_ t) then [s] else [].
Proof.
  unfold SetState. case_decide; [reflexivity|].
  case_decide; cbn [snd];
    rewrite !received_app, received_trace_log, received_notify_elements,
      ?received_orphans, ?app_nil_r; reflexivity.
Qed.

Lemma SetState_tracker t s reason :
  (SetState tr t s reason).1
  = if decide (s = state_ t) then t
    else mkTracker (name_ t) s
           (if decide (s = GRPC_CHANNEL_SHUTDOWN) then ∅ else watchers_ t).
Proof. unfold SetState. repeat case_decide; reflexivity. Qed.

Lemma notifications_SetState t s reason :
  s ≠ state_ t →
  notifications (SetState tr t s reason).2
  = (λ w : watcher_ptr, (w, s)) <$> elements (watchers_ t).
Proof.
  intros Hne. unfold SetState. rewrite decide_False by assumption.
  case_decide; cbn [snd];
    rewrite !notifications_app, notifications_trace_log,
      notifications_notify_all, ?notifications_orphans, ?app_nil_r;
    reflexivity.
Qed.

(** X1.  [ConnectivityStateName] gives different names to different
    states. *)
Theorem ConnectivityStateName_inj s1 s2 :
  ConnectivityStateName s1 = ConnectivityStateName s2 → s1 = s2.
Proof. destruct s1, s2; cbn; intros Heq; try reflexivity; discriminate. Qed.

(** X2.  The destructor of a tracker that is not in SHUTDOWN tells every
    registered watcher SHUTDOWN exactly once and tells nobody else anything;
    in SHUTDOWN it notifies nobody.  In both cases the watchers orphaned are
    the registered ones, each once, and every notification precedes every
    orphaning. *)
Theorem destroy_notifies_shutdown t :
  (∀ w, received w (destroy tr t)
        = if decide (state_ t ≠ GRPC_CHANNEL_SHUTDOWN ∧ w ∈ watchers_ t)
          then [GRPC_CHANNEL_SHUTDOWN] else []) ∧
  orphaned (destroy tr t) = elements (watchers_ t) ∧
  NoDup (orphaned (destroy tr t)) ∧
  ∃ pass, (destroy tr t = pass ++ (EvOrphan <$> elements (watchers_ t)))
          ∧ orphaned pass = [].
Proof.
  assert (Ho : orphaned (destroy tr t) = elements (watchers_ t)).
  { unfold destroy. rewrite orphaned_app, orphaned_orphans.
    case_decide; [reflexivity|]. now rewrite orphaned_notify_all. }
  split; [|split; [exact Ho|split]].
  - intros w. unfold destroy. rewrite received_app, received_orphans, app_nil_r.
    destruct (decide (state_ t = GRPC_CHANNEL_SHUTDOWN)) as [Hs|Hs].
    + rewrite decide_False; [reflexivity | now intros [? _]].
    + rewrite received_notify_elements.
      destruct (decide (w ∈ watchers_ t)) as [Hw|Hw].
      * now rewrite decide_True.
      * rewrite decide_False; [reflexivity | now intros [_ ?]].
  - rewrite Ho. apply NoDup_elements.
  - unfold destroy. eexists. split; [reflexivity|].
    case_decide; [reflexivity | apply orphaned_notify_all].
Qed.

(** X3.  [RemoveWatcher] notifies nobody and keeps the state; afterwards
    the watcher is not registered, every other watcher is registered exactly
    if it was, and a later [SetState] tells the removed watcher nothing. *)
Theorem RemoveWatcher_silences t w s reason :
  notifications (RemoveWatcher tr t w).2 = [] ∧
  state_ (RemoveWatcher tr t w).1 = state_ t ∧
  (w ∉ watchers_ (RemoveWatcher tr t w).1) ∧
  (∀ w', w' ≠ w →
     (w' ∈ watchers_ (RemoveWatcher tr t w).1 ↔ w' ∈ watchers_ t)) ∧
  received w (SetState tr (RemoveWatcher tr t w).1 s reason).2 = [].
Proof.
  assert (Hout : w ∉ watchers_ (RemoveWatcher tr t w).1).
  { cbn. rewrite elem_of_difference, elem_of_singleton. now intros [_ ?]. }
  split; [|split; [reflexivity|split; [exact Hout|split]]].
  - unfold RemoveWatcher. cbn [snd].
    rewrite notifications_app, notifications_trace_log.
    now case_decide.
  - intros w' Hne. cbn. rewrite elem_of_difference, elem_of_singleton.
    split; [now intros [? _] | intros ?; split; assumption].
  - rewrite SetState_received. case_decide; [reflexivity|].
    now rewrite decide_False.
Qed.

(** X4.  Adding a watcher that is not registered and removing it again
    gives back the tracker as it was, in every state; over the two calls the
    watcher handed over is orphaned exactly once. *)
Theorem AddWatcher_RemoveWatcher t initial_state w :
  w ∉ watchers_ t →
  (RemoveWatcher tr (AddWatcher tr t initial_state w).1 w).1 = t ∧
  orphaned ((AddWatcher tr t initial_state w).2
            ++ (RemoveWatcher tr (AddWatcher tr t initial_state w).1 w).2)
    = [w].
Proof.
  intros Hw. destruct t as [name st ws].
  change (w ∉ ws) in Hw.
  unfold AddWatcher, RemoveWatcher. cbn [name_ state_ watchers_].
  destruct (decide (st = GRPC_CHANNEL_SHUTDOWN)) as [Hs|Hs]; cbn [fst snd].
  - split.
    + f_equal. apply difference_disjoint_L. now apply disjoint_singleton_r.
    + cbn [name_ state_ watchers_].
      rewrite (decide_False (P := w ∈ ws)) by assumption.
      rewrite !orphaned_app, !orphaned_trace_log.
      case_decide; [reflexivity|].
      now rewrite orphaned_app, orphaned_trace_log.
  - rewrite (decide_False (P := w ∈ ws)) by assumption.
    cbn [fst snd name_ state_ watchers_].
    split.
    + f_equal. rewrite difference_union_distr_l_L, difference_diag_L,
        (left_id_L ∅ (∪)).
      apply difference_disjoint_L. now apply disjoint_singleton_r.
    + rewrite (decide_True (P := w ∈ {[w]} ∪ ws))
        by (apply elem_of_union_l; now apply elem_of_singleton_2).
      rewrite !orphaned_app, !orphaned_trace_log.
      case_decide; [reflexivity|].
      now rewrite orphaned_app, orphaned_trace_log.
Qed.

End TrackerMore.

(** ** Sequences of calls on a tracker *)

Section TrackerSequences.

Import Connectivity ConnectivityRuns.

Variable tr : bool.

Implicit Types (t : ConnectivityStateTracker) (w : watcher_ptr)
  (s cur : grpc_connectivity_state) (evs : list event)
  (l : list (grpc_connectivity_state * string)).

Lemma step_inv t (o : operation) :
  shutdown_registry_empty t → shutdown_registry_empty (step tr t o).1.
Proof.
  destruct o; cbn [step];
    [apply AddWatcher_inv | apply RemoveWatcher_inv | apply SetState_inv].
Qed.

(** X5.  Whatever calls are made, in whatever order, on a tracker created
    by the constructor, a tracker in SHUTDOWN has an empty registry. *)
Theorem run_keeps_registry_empty_in_shutdown name s (ops : list operation) :
  shutdown_registry_empty (run tr (new_tracker name s) ops).1.
Proof.
  generalize (new_tracker_inv name s).
  generalize (new_tracker name s) as t.
  induction ops as [|o ops IH]; intros t Ht; [exact Ht|].
  cbn [run fst]. apply IH. now apply step_inv.
Qed.

(** The [SetState] calls for a list of states with their reasons. *)
Lemma run_set_states_cons t s reason l :
  run tr t (OpSetState s reason :: ((λ p, OpSetState p.1 p.2) <$> l))
  = ((run tr (SetState tr t s reason).1 ((λ p, OpSetState p.1 p.2) <$> l)).1,
     (SetState tr t s reason).2
     ++ (run tr (SetState tr t s reason).1
           ((λ p, OpSetState p.1 p.2) <$> l)).2).
Proof. reflexivity. Qed.

Lemma run_set_states_unregistered l : ∀ t w,
  w ∉ watchers_ t →
  received w (run tr t ((λ p, OpSetState p.1 p.2) <$> l)).2 = [].
Proof.
  induction l as [|[s reason] l IH]; intros t w Hw; [reflexivity|].
  rewrite fmap_cons, run_set_states_cons. cbn [fst snd].
  rewrite received_app, SetState_received.
  rewrite (decide_False (P := w ∈ watchers_ t)) by assumption.
  rewrite IH.
  - now case_decide.
  - rewrite SetState_tracker. repeat case_decide; cbn; try assumption.
    apply not_elem_of_empty.
Qed.

Lemma last_cons_default {A} (d x : A) (xs : list A) :
  default d (last (x :: xs)) = default x (last xs).
Proof.
  revert d x. induction xs as [|a xs IH]; intros d x; [reflexivity|].
  now rewrite last_cons_cons, (IH d a), (IH x a).
Qed.

(** What a sequence of [SetState] calls tells one watcher. *)
Lemma SetState_sequence_received l : ∀ t w,
  received w (run tr t ((λ p, OpSetState p.1 p.2) <$> l)).2
    = if decide (w ∈ watchers_ t) then changes (state_ t) (l.*1) else [].
Proof.
  induction l as [|[s reason] l IH]; intros t w.
  - cbn. now destruct (decide (w ∈ watchers_ t)).
  - rewrite fmap_cons, run_set_states_cons. cbn [fst snd].
    rewrite received_app, SetState_received, IH, SetState_tracker.
    rewrite !fmap_cons. cbn [fst changes].
    destruct (decide (s = state_ t)) as [->|Hne]; [reflexivity|].
    cbn [state_ watchers_].
    destruct (decide (w ∈ watchers_ t)) as [Hw|Hw].
    + destruct (decide (s = GRPC_CHANNEL_SHUTDOWN)) as [Hs|Hs].
      * rewrite decide_False by apply not_elem_of_empty. reflexivity.
      * now rewrite decide_True.
    + destruct (decide (s = GRPC_CHANNEL_SHUTDOWN)) as [Hs|Hs].
      * rewrite decide_False by apply not_elem_of_empty. reflexivity.
      * now rewrite decide_False.
Qed.

(** X6.  After a sequence of [SetState] calls the state is the last one
    set (the initial one when the sequence is empty), and a watcher that was
    registered at the start has been told exactly the states that differ from
    the one before them, up to and including the first SHUTDOWN; a watcher
    that was not registered has been told nothing. *)
Theorem SetState_sequence l t w :
  state_ (run tr t ((λ p, OpSetState p.1 p.2) <$> l)).1
    = default (state_ t) (last (l.*1)) ∧
  received w (run tr t ((λ p, OpSetState p.1 p.2) <$> l)).2
    = if decide (w ∈ watchers_ t) then changes (state_ t) (l.*1) else [].
Proof.
  split; [|apply SetState_sequence_received].
  revert t. induction l as [|[s reason] l IH]; intros t; [reflexivity|].
  rewrite fmap_cons, run_set_states_cons. cbn [fst snd].
  rewrite IH, !fmap_cons, last_cons_default, SetState_tracker.
  cbn [fst]. destruct (decide (s = state_ t)) as [->|Hne]; reflexivity.
Qed.

Lemma changes_adjacent (states : list grpc_connectivity_state) :
  ∀ cur i a b,
    (cur :: changes cur states) !! i = Some a →
    (cur :: changes cur states) !! S i = Some b →
    a ≠ b.
Proof.
  induction states as [|s rest IH]; intros cur i a b Ha Hb.
  - destruct i; discriminate.
  - cbn [changes] in Ha, Hb.
    destruct (decide (s = cur)) as [->|Hne]; [now apply (IH cur i)|].
    destruct (decide (s = GRPC_CHANNEL_SHUTDOWN)) as [Hs|Hs].
    + destruct i as [|[|i]]; try discriminate.
      cbn in Ha, Hb. congruence.
    + destruct i as [|i].
      * cbn in Ha, Hb. congruence.
      * now apply (IH s i).
Qed.

Lemma changes_shutdown_last (states : list grpc_connectivity_state) :
  ∀ cur i,
    changes cur states !! i = Some GRPC_CHANNEL_SHUTDOWN →
    length (changes cur states) = S i.
Proof.
  induction states as [|s rest IH]; intros cur i Hi; [discriminate|].
  cbn [changes] in *.
  destruct (decide (s = cur)) as [->|Hne]; [now apply IH|].
  destruct (decide (s = GRPC_CHANNEL_SHUTDOWN)) as [Hs|Hs].
  - destruct i; [reflexivity | discriminate].
  - destruct i as [|i]; [cbn in Hi; congruence|].
    cbn. f_equal. now apply IH.
Qed.

(** X7.  Over any sequence of [SetState] calls, a watcher is never told
    the state the tracker had when the sequence began as its first
    notification, never told the same state twice in a row, and told nothing
    more once it has been told SHUTDOWN. *)
Theorem SetState_sequence_only_changes l t w :
  (∀ i a b,
     (state_ t :: received w (run tr t ((λ p, OpSetState p.1 p.2) <$> l)).2)
       !! i = Some a →
     (state_ t :: received w (run tr t ((λ p, OpSetState p.1 p.2) <$> l)).2)
       !! S i = Some b →
     a ≠ b) ∧
  (∀ i,
     received w (run tr t ((λ p, OpSetState p.1 p.2) <$> l)).2 !! i
       = Some GRPC_CHANNEL_SHUTDOWN →
     length (received w (run tr t ((λ p, OpSetState p.1 p.2) <$> l)).2)
       = S i).
Proof.
  rewrite (SetState_sequence_received l t w).
  destruct (decide (w ∈ watchers_ t)) as [Hw|Hw].
  - split; [apply changes_adjacent | apply changes_shutdown_last].
  - split; [intros [|i] ???; discriminate | intros i ?; discriminate].
Qed.

End TrackerSequences.

(** ** Asynchronous delivery *)

Section AsyncDelivery.

Import Connectivity ConnectivityRuns.

Variable tr : bool.
Variable combiner_of : watcher_ptr → option combiner_ptr.

Implicit Types (t : ConnectivityStateTracker) (w : watcher_ptr)
  (s : grpc_connectivity_state) (evs : list event) (n : Notifier).

Lemma delivered_app w (d1 d2 : list delivery) :
  delivered w (d1 ++ d2) = delivered w d1 ++ delivered w d2.
Proof. apply omap_app. Qed.

Lemma delivered_send w n :
  delivered w (SendNotification tr n)
  = if decide (notifier_watcher_ n = w) then [notifier_state_ n] else [].
Proof.
  unfold SendNotification. rewrite delivered_app.
  destruct tr; cbn; now case_decide.
Qed.

Lemma delivered_bind w (l : list scheduling) :
  delivered w (l ≫= run_closure tr)
  = l ≫= (λ x, delivered w (run_closure tr x)).
Proof.
  induction l as [|x l IH]; [reflexivity|].
  cbn [mbind list_bind]. cbn [mbind list_bind] in IH.
  now rewrite delivered_app, IH.
Qed.

Lemma scheduled_notifier_Notify (a : AsyncConnectivityStateWatcherInterface) s :
  scheduled_notifier (Notify a s) = mkNotifier (async_self a) s.
Proof. unfold Notify. now destruct (combiner_ a). Qed.

Lemma received_notifications w evs :
  received w evs
  = omap (λ p : watcher_ptr * grpc_connectivity_state,
            if decide (p.1 = w) then Some p.2 else None)
         (notifications evs).
Proof.
  induction evs as [|e evs IH]; [reflexivity|].
  destruct e as [l|w' s|w']; try exact IH.
  cbn. destruct (decide (w' = w)); cbn; now f_equal.
Qed.

Lemma delivered_notify w w' s :
  delivered w (run_closure tr (Notify (mkAsyncWatcher w' (combiner_of w')) s))
  = if decide (w' = w) then [s] else [].
Proof.
  unfold run_closure. now rewrite scheduled_notifier_Notify, delivered_send.
Qed.

(** Running, in the order they were scheduled, the closures a trace
    schedules hands each watcher what the trace notified it of. *)
Lemma delivered_schedule_trace w evs :
  delivered w (schedule_trace combiner_of evs ≫= run_closure tr)
  = received w evs.
Proof.
  rewrite delivered_bind, received_notifications. unfold schedule_trace.
  induction (notifications evs) as [|[w' s] ns IH]; [reflexivity|].
  rewrite fmap_cons. cbn [mbind list_bind omap fst snd].
  cbn [mbind list_bind] in IH. rewrite delivered_notify, IH.
  cbn. now destruct (decide (w' = w)).
Qed.

(** X8.  When every watcher delivers through
    [AsyncConnectivityStateWatcherInterface::Notify], a [SetState] that
    changes the state schedules one closure per registered watcher, on the
    watcher's combiner when it has one and on the ExecCtx otherwise; and in
    whatever order the closures are run, each registered watcher gets exactly
    one [OnConnectivityStateChange], with the new state, and nobody else
    gets any. *)
Theorem SetState_async_delivery t s reason (order : list scheduling) w :
  s ≠ state_ t →
  order ≡ₚ schedule_trace combiner_of (SetState tr t s reason).2 →
  length order = size (watchers_ t) ∧
  delivered w (order ≫= run_closure tr)
    = (if decide (w ∈ watchers_ t) then [s] else []) ∧
  (∀ x, x ∈ order →
     x = match combiner_of (notifier_watcher_ (scheduled_notifier x)) with
         | Some c => CombinerRun c (scheduled_notifier x)
         | None => ExecCtxRun (scheduled_notifier x)
         end).
Proof.
  intros Hne Hperm. split; [|split].
  - rewrite Hperm. unfold schedule_trace.
    rewrite length_fmap, (notifications_SetState tr t s reason Hne),
      length_fmap.
    reflexivity.
  - assert (Hd : delivered w (order ≫= run_closure tr)
                 ≡ₚ delivered w (schedule_trace combiner_of
                                   (SetState tr t s reason).2 ≫= run_closure tr)).
    { unfold delivered. now rewrite Hperm. }
    rewrite delivered_schedule_trace, SetState_received in Hd.
    rewrite decide_False in Hd by assumption.
    destruct (decide (w ∈ watchers_ t)).
    + now apply Permutation_singleton_r in Hd.
    + now apply Permutation_nil_r in Hd.
  - intros x Hx. rewrite Hperm in Hx. unfold schedule_trace in Hx.
    apply list_elem_of_fmap in Hx as ([w' s'] & -> & _).
    unfold Notify. cbn [fst snd async_self combiner_].
    destruct (combiner_of w') as [c|] eqn:Hc; cbn; now rewrite Hc.
Qed.

Lemma omap_cons_match {A B} (f : A → option B) (x : A) (l : list A) :
  omap f (x :: l)
  = match f x with Some y => y :: omap f l | None => omap f l end.
Proof. reflexivity. Qed.

Lemma on_combiner_cons c (x : scheduling) (l : list scheduling) :
  on_combiner c (x :: l)
  = match x with
    | CombinerRun c' n => if decide (c' = c) then [n] else []
    | ExecCtxRun _ => []
    end ++ on_combiner c l.
Proof.
  destruct x as [c' n|n]; [|reflexivity].
  unfold on_combiner. cbn. now destruct (decide (c' = c)).
Qed.

(** X9.  Over a sequence of [SetState] calls, the closures scheduled on
    the combiner of a watcher registered at the start carry for that
    watcher, in scheduling order, exactly the successive changes of state
    (up to the first SHUTDOWN). *)
Theorem SetState_sequence_combiner_order
    (l : list (grpc_connectivity_state * string)) t w c :
  combiner_of w = Some c →
  w ∈ watchers_ t →
  notifier_state_
    <$> filter (λ n, notifier_watcher_ n = w)
          (on_combiner c
             (schedule_trace combiner_of
                (run tr t ((λ p, OpSetState p.1 p.2) <$> l)).2))
  = changes (state_ t) (l.*1).
Proof.
  intros Hc Hw.
  rewrite <- (decide_True (changes (state_ t) l.*1) [] Hw).
  rewrite <- (SetState_sequence_received tr l t w).
  rewrite received_notifications. unfold schedule_trace.
  induction (notifications (run tr t ((λ p, OpSetState p.1 p.2) <$> l)).2)
    as [|[w' s'] ns IH]; [reflexivity|].
  rewrite fmap_cons, on_combiner_cons, omap_cons_match. cbn [fst snd].
  unfold Notify at 1. cbn [async_self combiner_].
  destruct (decide (w' = w)) as [->|Hne].
  - rewrite Hc, decide_True by reflexivity. cbn [app].
    rewrite filter_cons_True by reflexivity.
    rewrite fmap_cons. cbn [notifier_state_]. f_equal. exact IH.
  - destruct (combiner_of w') as [c'|]; [|exact IH].
    destruct (decide (c' = c)); [|exact IH]. cbn [app].
    rewrite filter_cons_False by (cbn; congruence). exact IH.
Qed.

End AsyncDelivery.

(** ** More on key materials and the reload protocol *)

Section FetchMore.

Import Spiffe.

Implicit Types (km : grpc_tls_key_materials_config)
  (options : grpc_tls_credentials_options)
  (rs : grpc_ssl_certificate_config_reload_status)
  (config : grpc_tls_credential_reload_config).

(** X10.  [ConvertToTsiPemKeyCertPair] returns (its assertions hold)
    exactly on lists whose pairs all have a private key and a certificate
    chain; the array it returns has one entry per pair, in order, holding
    copies of that pair's key and chain. *)
Theorem ConvertToTsiPemKeyCertPair_spec (l : list PemKeyCertPair) :
  (forallb pair_complete l = true
   ↔ ∃ r, ConvertToTsiPemKeyCertPair l = Done r) ∧
  (∀ r, ConvertToTsiPemKeyCertPair l = Done r →
     length r = length l ∧
     ∀ i q, r !! i = Some q →
       ∃ p k c, l !! i = Some p ∧
                private_key p = Some k ∧ cert_chain p = Some c ∧
                tsi_private_key q = c_str k ∧ tsi_cert_chain q = c_str c).
Proof.
  split.
  - split.
    + intros Hall. destruct (Convert_complete l Hall) as (r & Hr & _).
      now exists r.
    + intros [r Hr]. destruct (forallb pair_complete l) eqn:Hall;
        [reflexivity|].
      rewrite (Convert_incomplete l Hall) in Hr. discriminate.
  - induction l as [|p l IH]; intros r Hr; cbn in Hr.
    + injection Hr as <-. split; [reflexivity|]. intros i q Hq.
      now rewrite lookup_nil in Hq.
    + destruct (private_key p) as [k|] eqn:Hk; [|discriminate].
      destruct (cert_chain p) as [c|] eqn:Hc; [|discriminate].
      destruct (ConvertToTsiPemKeyCertPair l) as [r'|]; [|discriminate].
      injection Hr as <-. destruct (IH r' eq_refl) as [Hlen Hent].
      split; [cbn; now rewrite Hlen|].
      intros [|i] q Hq.
      * injection Hq as <-. now exists p, k, c.
      * now apply Hent.
Qed.

(** X11.  Once the store holds a cert pair, [TlsFetchKeyMaterials]
    returns OK, whether or not a reload capability is configured and
    whatever the capability answers. *)
Theorem TlsFetchKeyMaterials_ok_with_material km options rs :
  pem_key_cert_pair_list km ≠ [] →
  fetch_status (TlsFetchKeyMaterials km options rs) = GRPC_STATUS_OK.
Proof.
  intros Hne.
  destruct (credential_reload_config options) as [config|] eqn:Hc.
  - destruct (fetch_with_config km options rs config Hc) as (_ & _ & -> & _).
    rewrite !bool_decide_eq_false_2 by assumption.
    destruct (decide _); [reflexivity|]. now destruct (reload_status _).
  - rewrite (fetch_without_config km options rs Hc).
    now rewrite bool_decide_eq_false_2.
Qed.

(** X12.  The error statuses of [TlsFetchKeyMaterials] and their causes:
    UNIMPLEMENTED exactly when the list was empty at entry and the configured
    capability deferred its answer; INTERNAL exactly when the list was empty
    at entry and the configured capability answered FAIL at once; and no
    status other than OK, FAILED_PRECONDITION, UNIMPLEMENTED and INTERNAL
    is ever returned. *)
Theorem TlsFetchKeyMaterials_errors km options rs :
  (fetch_status (TlsFetchKeyMaterials km options rs)
     = GRPC_STATUS_UNIMPLEMENTED
   ↔ pem_key_cert_pair_list km = [] ∧
     ∃ config, credential_reload_config options = Some config ∧
               (reload_Schedule config (new_reload_arg km)).2 ≠ 0%Z) ∧
  (fetch_status (TlsFetchKeyMaterials km options rs) = GRPC_STATUS_INTERNAL
   ↔ pem_key_cert_pair_list km = [] ∧
     ∃ config, credential_reload_config options = Some config ∧
               (reload_Schedule config (new_reload_arg km)).2 = 0%Z ∧
               reload_status (reload_Schedule config (new_reload_arg km)).1
               = GRPC_SSL_CERTIFICATE_CONFIG_RELOAD_FAIL) ∧
  (fetch_status (TlsFetchKeyMaterials km options rs) = GRPC_STATUS_OK ∨
   fetch_status (TlsFetchKeyMaterials km options rs)
     = GRPC_STATUS_FAILED_PRECONDITION ∨
   fetch_status (TlsFetchKeyMaterials km options rs)
     = GRPC_STATUS_UNIMPLEMENTED ∨
   fetch_status (TlsFetchKeyMaterials km options rs) = GRPC_STATUS_INTERNAL).
Proof.
  destruct (credential_reload_config options) as [config|] eqn:Hc.
  - destruct (fetch_with_config km options rs config Hc) as (_ & _ & -> & _).
    assert (Hsame : ∀ c, Some config = Some c → c = config)
      by (intros c [= ->]; reflexivity).
    destruct (decide ((reload_Schedule config (new_reload_arg km)).2 ≠ 0%Z))
      as [Hr|Hr];
      [|apply dec_stable in Hr;
        destruct (reload_status
                    (reload_Schedule config (new_reload_arg km)).1) eqn:Hs];
      destruct (bool_decide (pem_key_cert_pair_list km = [])) eqn:He;
      (apply bool_decide_eq_true in He || apply bool_decide_eq_false in He);
      (split; [|split]; [| | auto]).
  all: split.
  all: try discriminate.
  all: try (intros _; split; [exact He|]; exists config; now auto).
  all: try reflexivity.
  all: try (intros (He' & c & Hc' & Hrest); apply Hsame in Hc'; subst c;
         try contradiction; try (destruct Hrest; congruence)).
  - rewrite (fetch_without_config km options rs Hc).
    split; [|split].
    + split; [now destruct (bool_decide _) | now intros (_ & c & [=] & _)].
    + split; [now destruct (bool_decide _) | now intros (_ & c & [=] & _)].
    + destruct (bool_decide _); auto.
Qed.

(** X13.  The authorization check lets the peer through, that is
    [ProcessServerAuthorizationCheckResult] returns no error, exactly when the
    status is OK and the success flag is set; and every error it creates ends
    with the error details of the request as [%s] prints them. *)
Theorem ProcessServerAuthorizationCheckResult_none_iff
    (arg : grpc_tls_server_authorization_check_arg) :
  (ProcessServerAuthorizationCheckResult arg = GRPC_ERROR_NONE
   ↔ check_status arg = GRPC_STATUS_OK ∧ check_success arg = true) ∧
  (∀ msg, ProcessServerAuthorizationCheckResult arg = GRPC_ERROR_CREATE msg →
     ∃ prefix, msg = prefix +:+ printf_s (check_error_details arg)).
Proof.
  unfold ProcessServerAuthorizationCheckResult.
  destruct (decide (check_status arg = GRPC_STATUS_CANCELLED)) as [Hc|Hc].
  - split.
    + split; [discriminate|]. intros [Hok _]. congruence.
    + intros msg [= <-]. now eexists.
  - destruct (decide (check_status arg = GRPC_STATUS_OK)) as [Hok|Hok].
    + destruct (check_success arg); cbn.
      * split; [now split | discriminate].
      * split; [split; [discriminate | now intros [_ ?]]|].
        intros msg [= <-]. now eexists.
    + split; [split; [discriminate | now intros [? _]]|].
      intros msg [= <-]. now eexists.
Qed.

End FetchMore.

(** ** More on the handshaker-factory life cycle *)

Section FactoryMore.

Import Spiffe.

Context `{Collaborators}.

Implicit Types (km : grpc_tls_key_materials_config)
  (c : SpiffeChannelSecurityConnector) (sc : SpiffeServerSecurityConnector)
  (cache : option session_cache_ptr).

Lemma set_client_materials_id c :
  set_client_materials c (key_materials_config_ c) = c.
Proof. now destruct c. Qed.

Lemma set_server_materials_id sc :
  set_server_materials sc (server_key_materials_config_ sc) = sc.
Proof. now destruct sc. Qed.

(** A [ReplaceHandshakerFactory] that returns has changed the factory
    slot and nothing else, and its store passes the assertions. *)
Lemma Replace_returns c cache status c' :
  (ReplaceHandshakerFactory c cache).2 = Done (status, c') →
  replace_assertions_hold (key_materials_config_ c) = true ∧
  ∃ slot, c' = set_client_factory c slot.
Proof.
  intros Hr.
  destruct (replace_assertions_hold (key_materials_config_ c)) eqn:Ha.
  - split; [reflexivity|].
    destruct (Replace_ok c cache Ha) as (p & st & sl & Heq).
    rewrite Heq in Hr. injection Hr as _ <-. now exists sl.
  - now rewrite (Replace_abort c cache Ha) in Hr.
Qed.

Lemma ServerReplace_returns sc status sc' :
  (ServerReplaceHandshakerFactory sc).2 = Done (status, sc') →
  replace_assertions_hold (server_key_materials_config_ sc) = true ∧
  ∃ slot, sc' = set_server_factory sc slot.
Proof.
  intros Hr.
  destruct (replace_assertions_hold (server_key_materials_config_ sc)) eqn:Ha.
  - split; [reflexivity|].
    destruct (ServerReplace_ok sc Ha) as (p & st & sl & Heq).
    rewrite Heq in Hr. injection Hr as _ <-. now exists sl.
  - now rewrite (ServerReplace_abort sc Ha) in Hr.
Qed.

(** [InitializeHandshakerFactory] in terms of its two steps. *)
Lemma Initialize_steps c cache :
  let r := TlsFetchKeyMaterials
             (copy_key_materials (channel_creds_options c)
                (key_materials_config_ c))
             (channel_creds_options c)
             GRPC_SSL_CERTIFICATE_CONFIG_RELOAD_UNCHANGED in
  let c1 := set_client_materials c (fetch_materials r) in
  InitializeHandshakerFactory c cache
  = if decide (fetch_status r = GRPC_STATUS_OK)
    then (fetch_events r ++ (ReplaceHandshakerFactory c1 cache).1,
          (ReplaceHandshakerFactory c1 cache).2)
    else (fetch_events r, Done (GRPC_SECURITY_ERROR, c1)).
Proof.
  intros r c1. unfold InitializeHandshakerFactory. fold r. fold c1.
  destruct (decide (fetch_status r = GRPC_STATUS_OK)) as [Hok|Hok].
  - rewrite decide_False by (intros Hn; now apply Hn).
    now destruct (ReplaceHandshakerFactory c1 cache).
  - now rewrite decide_True.
Qed.

Lemma ServerInitialize_steps sc :
  let r := TlsFetchKeyMaterials
             (copy_key_materials (server_creds_options sc)
                (server_key_materials_config_ sc))
             (server_creds_options sc)
             GRPC_SSL_CERTIFICATE_CONFIG_RELOAD_UNCHANGED in
  let c1 := set_server_materials sc (fetch_materials r) in
  ServerInitializeHandshakerFactory sc
  = if decide (fetch_status r = GRPC_STATUS_OK)
    then (fetch_events r ++ (ServerReplaceHandshakerFactory c1).1,
          (ServerReplaceHandshakerFactory c1).2)
    else (fetch_events r, Done (GRPC_SECURITY_ERROR, c1)).
Proof.
  intros r c1. unfold ServerInitializeHandshakerFactory. fold r. fold c1.
  destruct (decide (fetch_status r = GRPC_STATUS_OK)) as [Hok|Hok].
  - rewrite decide_False by (intros Hn; now apply Hn).
    now destruct (ServerReplaceHandshakerFactory c1).
  - now rewrite decide_True.
Qed.

(** [RefreshHandshakerFactory] when the reload protocol fails. *)
Lemma Refresh_fetch_failed c :
  fetch_status (TlsFetchKeyMaterials (key_materials_config_ c)
                  (channel_creds_options c)
                  GRPC_SSL_CERTIFICATE_CONFIG_RELOAD_UNCHANGED)
    ≠ GRPC_STATUS_OK →
  RefreshHandshakerFactory c
  = (fetch_events (TlsFetchKeyMaterials (key_materials_config_ c)
                     (channel_creds_options c)
                     GRPC_SSL_CERTIFICATE_CONFIG_RELOAD_UNCHANGED),
     Done (GRPC_SECURITY_ERROR,
           set_client_materials c
             (fetch_materials
                (TlsFetchKeyMaterials (key_materials_config_ c)
                   (channel_creds_options c)
                   GRPC_SSL_CERTIFICATE_CONFIG_RELOAD_UNCHANGED)))).
Proof. intros Hf. unfold RefreshHandshakerFactory. now rewrite decide_True. Qed.

Lemma ServerRefresh_fetch_failed sc :
  fetch_status (TlsFetchKeyMaterials (server_key_materials_config_ sc)
                  (server_creds_options sc)
                  GRPC_SSL_CERTIFICATE_CONFIG_RELOAD_UNCHANGED)
    ≠ GRPC_STATUS_OK →
  ServerRefreshHandshakerFactory sc
  = (fetch_events (TlsFetchKeyMaterials (server_key_materials_config_ sc)
                     (server_creds_options sc)
                     GRPC_SSL_CERTIFICATE_CONFIG_RELOAD_UNCHANGED),
     Done (GRPC_SECURITY_ERROR,
           set_server_materials sc
             (fetch_materials
                (TlsFetchKeyMaterials (server_key_materials_config_ sc)
                   (server_creds_options sc)
                   GRPC_SSL_CERTIFICATE_CONFIG_RELOAD_UNCHANGED)))).
Proof.
  intros Hf. unfold ServerRefreshHandshakerFactory. now rewrite decide_True.
Qed.

(** X14.  When the reload protocol fails, [InitializeHandshakerFactory]
    and [RefreshHandshakerFactory], client and server, return
    GRPC_SECURITY_ERROR having released no factory and built none, and the
    factory slot holds what it held before the call. *)
Theorem reload_failure_keeps_factory :
  (∀ c cache st c',
     fetch_status
       (TlsFetchKeyMaterials
          (copy_key_materials (channel_creds_options c)
             (key_materials_config_ c))
          (channel_creds_options c)
          GRPC_SSL_CERTIFICATE_CONFIG_RELOAD_UNCHANGED) ≠ GRPC_STATUS_OK →
     (InitializeHandshakerFactory c cache).2 = Done (st, c') →
     st = GRPC_SECURITY_ERROR ∧
     client_handshaker_factory_ c' = client_handshaker_factory_ c ∧
     releases (InitializeHandshakerFactory c cache).1 = 0 ∧
     rebuilds (InitializeHandshakerFactory c cache).1 = 0) ∧
  (∀ c,
     fetch_status
       (TlsFetchKeyMaterials (key_materials_config_ c)
          (channel_creds_options c)
          GRPC_SSL_CERTIFICATE_CONFIG_RELOAD_UNCHANGED) ≠ GRPC_STATUS_OK →
     ∃ c',
       (RefreshHandshakerFactory c).2 = Done (GRPC_SECURITY_ERROR, c') ∧
       client_handshaker_factory_ c' = client_handshaker_factory_ c ∧
       releases (RefreshHandshakerFactory c).1 = 0 ∧
       rebuilds (RefreshHandshakerFactory c).1 = 0) ∧
  (∀ sc,
     fetch_status
       (TlsFetchKeyMaterials
          (copy_key_materials (server_creds_options sc)
             (server_key_materials_config_ sc))
          (server_creds_options sc)
          GRPC_SSL_CERTIFICATE_CONFIG_RELOAD_UNCHANGED) ≠ GRPC_STATUS_OK →
     ∃ sc',
       (ServerInitializeHandshakerFactory sc).2
         = Done (GRPC_SECURITY_ERROR, sc') ∧
       server_handshaker_factory_ sc' = server_handshaker_factory_ sc ∧
       releases (ServerInitializeHandshakerFactory sc).1 = 0 ∧
       rebuilds (ServerInitializeHandshakerFactory sc).1 = 0) ∧
  (∀ sc,
     fetch_status
       (TlsFetchKeyMaterials (server_key_materials_config_ sc)
          (server_creds_options sc)
          GRPC_SSL_CERTIFICATE_CONFIG_RELOAD_UNCHANGED) ≠ GRPC_STATUS_OK →
     ∃ sc',
       (ServerRefreshHandshakerFactory sc).2
         = Done (GRPC_SECURITY_ERROR, sc') ∧
       server_handshaker_factory_ sc' = server_handshaker_factory_ sc ∧
       releases (ServerRefreshHandshakerFactory sc).1 = 0 ∧
       rebuilds (ServerRefreshHandshakerFactory sc).1 = 0).
Proof.
  split; [|split; [|split]].
  - intros c cache st c' Hf Hr.
    pose proof (Initialize_steps c cache) as Hs. cbv zeta in Hs.
    rewrite decide_False in Hs by assumption. rewrite Hs in Hr |- *.
    cbn [fst snd] in *. injection Hr as <- <-.
    split; [reflexivity|]. split; [reflexivity|].
    apply fetch_events_no_factory.
  - intros c Hf. rewrite (Refresh_fetch_failed c Hf). cbn [fst snd].
    eexists. split; [reflexivity|]. split; [reflexivity|].
    apply fetch_events_no_factory.
  - intros sc Hf.
    pose proof (ServerInitialize_steps sc) as Hs. cbv zeta in Hs.
    rewrite decide_False in Hs by assumption. rewrite Hs.
    cbn [fst snd]. eexists. split; [reflexivity|]. split; [reflexivity|].
    apply fetch_events_no_factory.
  - intros sc Hf. rewrite (ServerRefresh_fetch_failed sc Hf). cbn [fst snd].
    eexists. split; [reflexivity|]. split; [reflexivity|].
    apply fetch_events_no_factory.
Qed.

(** X15.  With no reload capability configured and a cert pair in the
    store, [RefreshHandshakerFactory], client and server, does nothing at
    all: it returns OK with an empty trace and the connector as it was. *)
Theorem RefreshHandshakerFactory_steady_state :
  (∀ c,
     credential_reload_config (channel_creds_options c) = None →
     pem_key_cert_pair_list (key_materials_config_ c) ≠ [] →
     RefreshHandshakerFactory c = ([], Done (GRPC_SECURITY_OK, c))) ∧
  (∀ sc,
     credential_reload_config (server_creds_options sc) = None →
     pem_key_cert_pair_list (server_key_materials_config_ sc) ≠ [] →
     ServerRefreshHandshakerFactory sc = ([], Done (GRPC_SECURITY_OK, sc))).
Proof.
  split.
  - intros c Hc Hne. unfold RefreshHandshakerFactory.
    rewrite (fetch_without_config _ _ _ Hc).
    rewrite bool_decide_eq_false_2 by assumption. cbn.
    now rewrite set_client_materials_id.
  - intros sc Hc Hne. unfold ServerRefreshHandshakerFactory.
    rewrite (fetch_without_config _ _ _ Hc).
    rewrite bool_decide_eq_false_2 by assumption. cbn.
    now rewrite set_server_materials_id.
Qed.

(** X16.  Static credentials.  When the credential options carry key
    material that passes the assertions and no reload capability,
    [InitializeHandshakerFactory] replaces the store by a copy of that
    material, runs exactly one factory construction (after releasing the
    factory in place, if any) on the converted pairs and the copied roots,
    and returns the status of that construction with the slot it filled;
    no reload is attempted.  A [RefreshHandshakerFactory] on the resulting
    connector then does nothing. *)
Theorem InitializeHandshakerFactory_static c cache km :
  key_materials_config (channel_creds_options c) = Some km →
  credential_reload_config (channel_creds_options c) = None →
  replace_assertions_hold km = true →
  ∃ pairs c',
    ConvertToTsiPemKeyCertPair (pem_key_cert_pair_list km) = Done pairs ∧
    InitializeHandshakerFactory c cache
    = (client_unref c
         ++ [EvClientFactoryInit pairs (gpr_strdup (pem_root_certs km)) cache;
             EvPairsDestroy 1],
       Done ((grpc_ssl_tsi_client_handshaker_factory_init pairs
                (gpr_strdup (pem_root_certs km)) cache
                (client_handshaker_factory_ c)).1, c')) ∧
    key_materials_config_ c'
      = mkMaterials (gpr_strdup (pem_root_certs km))
                    (pem_key_cert_pair_list km) ∧
    client_handshaker_factory_ c'
      = (grpc_ssl_tsi_client_handshaker_factory_init pairs
           (gpr_strdup (pem_root_certs km)) cache
           (client_handshaker_factory_ c)).2 ∧
    RefreshHandshakerFactory c' = ([], Done (GRPC_SECURITY_OK, c')).
Proof.
  intros Hkm Hc Ha.
  assert (Hne : pem_key_cert_pair_list km ≠ []).
  { unfold replace_assertions_hold in Ha. apply andb_prop in Ha as [Hn _].
    now apply negb_true_iff, bool_decide_eq_false in Hn. }
  assert (Hall : forallb pair_complete (pem_key_cert_pair_list km) = true).
  { unfold replace_assertions_hold in Ha. now apply andb_prop in Ha as [_ ?]. }
  destruct (Convert_complete _ Hall) as (pairs & Hconv & _).
  unfold InitializeHandshakerFactory, copy_key_materials.
  rewrite Hkm. unfold set_key_materials.
  rewrite (fetch_without_config _ _ _ Hc). cbn [pem_key_cert_pair_list].
  rewrite bool_decide_eq_false_2 by assumption.
  cbn [fetch_status fetch_materials fetch_events].
  rewrite decide_False by (intros Hn; now apply Hn).
  unfold ReplaceHandshakerFactory.
  cbn [key_materials_config_ set_client_materials pem_key_cert_pair_list
       pem_root_certs client_handshaker_factory_].
  rewrite decide_False by assumption. rewrite Hconv.
  unfold client_unref at 1.
  cbn [key_materials_config_ set_client_materials pem_key_cert_pair_list
       pem_root_certs client_handshaker_factory_].
  fold (client_unref c).
  destruct (grpc_ssl_tsi_client_handshaker_factory_init pairs
              (gpr_strdup (pem_root_certs km)) cache
              (client_handshaker_factory_ c)) as [status slot] eqn:Hinit.
  eexists pairs, _. rewrite Hinit. cbn [fst snd app].
  split; [reflexivity|]. split; [reflexivity|].
  split; [reflexivity|]. split; [reflexivity|].
  unfold RefreshHandshakerFactory.
  cbn [channel_creds_options set_client_factory set_client_materials
       key_materials_config_].
  rewrite (fetch_without_config _ _ _ Hc). cbn [pem_key_cert_pair_list].
  rewrite bool_decide_eq_false_2 by assumption. reflexivity.
Qed.

(** A [RefreshHandshakerFactory] that returns has changed the store and
    the factory slot, and nothing else. *)
Lemma Refresh_frame c st c' :
  (RefreshHandshakerFactory c).2 = Done (st, c') →
  channel_creds_options c' = channel_creds_options c ∧
  target_name_ c' = target_name_ c ∧
  overridden_target_name_ c' = overridden_target_name_ c ∧
  check_arg_ c' = check_arg_ c ∧
  on_peer_checked_ c' = on_peer_checked_ c.
Proof.
  intros Hr. unfold RefreshHandshakerFactory in Hr.
  repeat case_decide; cbn [snd] in Hr.
  - injection Hr as _ <-. now repeat split.
  - injection Hr as _ <-. now repeat split.
  - destruct (ReplaceHandshakerFactory _ None) as [evs res] eqn:Hrep.
    cbn [snd] in Hr. subst res.
    assert (Hr' : (ReplaceHandshakerFactory
                     (set_client_materials c
                        (fetch_materials
                           (TlsFetchKeyMaterials (key_materials_config_ c)
                              (channel_creds_options c)
                              GRPC_SSL_CERTIFICATE_CONFIG_RELOAD_UNCHANGED)))
                     None).2 = Done (st, c')) by now rewrite Hrep.
    apply Replace_returns in Hr' as (_ & slot & ->). now repeat split.
Qed.

End FactoryMore.

(** ** More on the peer check *)

Section CheckMore.

Import Spiffe.

Context `{Collaborators}.

Implicit Types (c : SpiffeChannelSecurityConnector) (peer : tsi_peer)
  (on_peer_checked : grpc_closure)
  (config : grpc_tls_server_authorization_check_config).

(** [check_peer] by cases. *)
Lemma check_peer_alpn_error c peer on_peer_checked msg :
  grpc_ssl_check_alpn peer = GRPC_ERROR_CREATE msg →
  check_peer c peer on_peer_checked
  = mkCheck c None [EvExecCtxRun (Some on_peer_checked) (GRPC_ERROR_CREATE msg);
                    EvTsiPeerDestruct].
Proof. intros Ha. unfold check_peer. now rewrite Ha. Qed.

Lemma check_peer_no_config c peer on_peer_checked :
  grpc_ssl_check_alpn peer = GRPC_ERROR_NONE →
  server_authorization_check_config (channel_creds_options c) = None →
  check_events (check_peer c peer on_peer_checked)
  = [EvExecCtxRun (Some on_peer_checked) GRPC_ERROR_NONE; EvTsiPeerDestruct] ∧
  checked_connector (check_peer c peer on_peer_checked) = c.
Proof. intros Ha Hc. unfold check_peer. now rewrite Ha, Hc. Qed.

Lemma check_peer_no_cert c peer on_peer_checked config :
  grpc_ssl_check_alpn peer = GRPC_ERROR_NONE →
  server_authorization_check_config (channel_creds_options c) = Some config →
  tsi_peer_get_property_by_name peer TSI_X509_PEM_CERT_PROPERTY = None →
  check_events (check_peer c peer on_peer_checked)
  = [EvExecCtxRun (Some on_peer_checked)
       (GRPC_ERROR_CREATE "Cannot check peer: missing pem cert property.");
     EvTsiPeerDestruct] ∧
  checked_connector (check_peer c peer on_peer_checked) = c.
Proof. intros Ha Hc Hp. unfold check_peer. now rewrite Ha, Hc, Hp. Qed.

(** X17.  The two halves of the connector do not interfere.  A call of
    [InitializeHandshakerFactory] or [RefreshHandshakerFactory] that returns
    leaves the credential options, both target names, the reusable
    authorization request and the stored completion callback as they were;
    [check_peer] leaves the credential options, both target names, the
    factory slot and the key-material store as they were. *)
Theorem connector_frame :
  (∀ c cache st c',
     (InitializeHandshakerFactory c cache).2 = Done (st, c') →
     channel_creds_options c' = channel_creds_options c ∧
     target_name_ c' = target_name_ c ∧
     overridden_target_name_ c' = overridden_target_name_ c ∧
     check_arg_ c' = check_arg_ c ∧
     on_peer_checked_ c' = on_peer_checked_ c) ∧
  (∀ c st c',
     (RefreshHandshakerFactory c).2 = Done (st, c') →
     channel_creds_options c' = channel_creds_options c ∧
     target_name_ c' = target_name_ c ∧
     overridden_target_name_ c' = overridden_target_name_ c ∧
     check_arg_ c' = check_arg_ c ∧
     on_peer_checked_ c' = on_peer_checked_ c) ∧
  (∀ c peer on_peer_checked,
     channel_creds_options (checked_connector (check_peer c peer on_peer_checked))
       = channel_creds_options c ∧
     target_name_ (checked_connector (check_peer c peer on_peer_checked))
       = target_name_ c ∧
     overridden_target_name_
       (checked_connector (check_peer c peer on_peer_checked))
       = overridden_target_name_ c ∧
     client_handshaker_factory_
       (checked_connector (check_peer c peer on_peer_checked))
       = client_handshaker_factory_ c ∧
     key_materials_config_
       (checked_connector (check_peer c peer on_peer_checked))
       = key_materials_config_ c).
Proof.
  split; [|split].
  - intros c cache st c' Hr.
    pose proof (Initialize_steps c cache) as Hs. cbv zeta in Hs.
    rewrite Hs in Hr. case_decide; cbn [snd] in Hr.
    + apply Replace_returns in Hr as (_ & slot & ->). now repeat split.
    + injection Hr as _ <-. now repeat split.
  - intros c st c' Hr. now apply (Refresh_frame c st c').
  - intros c peer on_peer_checked. unfold check_peer.
    destruct (grpc_ssl_check_alpn peer); [|now repeat split].
    destruct (server_authorization_check_config _); [|now repeat split].
    destruct (tsi_peer_get_property_by_name _ _); [|now repeat split].
    destruct (check_Schedule _ _) as [arg st]. now case_decide.
Qed.

(** X18.  On every path [check_peer] destroys the peer exactly once, as
    its last effect; it runs no completion callback other than the one it
    was given, and runs it at most once; it invokes the authorization
    capability at most once, and exactly when the ALPN check passed, a
    capability is configured and the peer has a PEM certificate; and it
    leaves the callback to be run later exactly when the capability was
    invoked and deferred its answer. *)
Theorem check_peer_shape c peer on_peer_checked :
  (∃ before,
     check_events (check_peer c peer on_peer_checked)
       = before ++ [EvTsiPeerDestruct] ∧
     EvTsiPeerDestruct ∉ before) ∧
  (∃ err,
     completions (check_events (check_peer c peer on_peer_checked))
       = [(Some on_peer_checked, err)]
     ∨ completions (check_events (check_peer c peer on_peer_checked)) = []) ∧
  (check_invocations (check_events (check_peer c peer on_peer_checked))
     = if decide (grpc_ssl_check_alpn peer = GRPC_ERROR_NONE
                  ∧ is_Some (server_authorization_check_config
                               (channel_creds_options c))
                  ∧ is_Some (tsi_peer_get_property_by_name peer
                               TSI_X509_PEM_CERT_PROPERTY))
       then 1 else 0) ∧
  (completions (check_events (check_peer c peer on_peer_checked)) = []
   ↔ ∃ config value,
       grpc_ssl_check_alpn peer = GRPC_ERROR_NONE ∧
       server_authorization_check_config (channel_creds_options c)
         = Some config ∧
       tsi_peer_get_property_by_name peer TSI_X509_PEM_CERT_PROPERTY
         = Some value ∧
       (check_Schedule config
          (populate_check_arg (check_arg_ c) value
             (default (target_name_ c) (overridden_target_name_ c)))).2
         ≠ 0%Z).
Proof.
  assert (Hnot : ∀ a e, EvTsiPeerDestruct ∉ [EvCheckSchedule a; EvExecCtxRun (Some on_peer_checked) e]).
  { intros a e Hin. apply elem_of_cons in Hin as [?|Hin]; [discriminate|].
    apply elem_of_cons in Hin as [?|Hin]; [discriminate|].
    now apply elem_of_nil in Hin. }
  assert (Hnot1 : ∀ e, EvTsiPeerDestruct ∉ [EvExecCtxRun (Some on_peer_checked) e]).
  { intros e Hin. apply elem_of_cons in Hin as [?|Hin]; [discriminate|].
    now apply elem_of_nil in Hin. }
  assert (Hnot2 : ∀ a, EvTsiPeerDestruct ∉ [EvCheckSchedule a]).
  { intros a Hin. apply elem_of_cons in Hin as [?|Hin]; [discriminate|].
    now apply elem_of_nil in Hin. }
  destruct (grpc_ssl_check_alpn peer) as [|msg] eqn:Ha.
  - destruct (server_authorization_check_config (channel_creds_options c))
      as [config|] eqn:Hc.
    + destruct (tsi_peer_get_property_by_name peer TSI_X509_PEM_CERT_PROPERTY)
        as [value|] eqn:Hp.
      * destruct (check_peer_scheduled c peer on_peer_checked config value
                    Hc Ha Hp) as [_ Hev]. cbv zeta in Hev. rewrite Hev.
        destruct (decide (_ = GRPC_ERROR_NONE ∧ _ ∧ _)) as [_|Hd];
          [|exfalso; apply Hd; repeat split; eexists; reflexivity].
        destruct (decide _) as [Hr|Hr].
        -- split; [eexists [_]; split; [reflexivity | apply Hnot2]|].
           split; [exists GRPC_ERROR_NONE; now right|].
           split; [reflexivity|].
           split; [intros _; now exists config, value | reflexivity].
        -- split; [eexists [_; _]; split; [reflexivity | apply Hnot]|].
           split; [eexists; now left|].
           split; [reflexivity|].
           split; [discriminate|].
           intros (config' & value' & _ & [= <-] & [= <-] & Hn).
           contradiction.
      * destruct (check_peer_no_cert c peer on_peer_checked config Ha Hc Hp)
          as [-> _].
        destruct (decide (_ = GRPC_ERROR_NONE ∧ _ ∧ _)) as [(_ & _ & [? [=]])|_].
        split; [eexists [_]; split; [reflexivity | apply Hnot1]|].
        split; [eexists; now left|]. split; [reflexivity|].
        split; [discriminate | now intros (? & ? & _ & _ & [=] & _)].
    + destruct (check_peer_no_config c peer on_peer_checked Ha Hc) as [-> _].
      destruct (decide (_ = GRPC_ERROR_NONE ∧ _ ∧ _)) as [(_ & [? [=]] & _)|_].
      split; [eexists [_]; split; [reflexivity | apply Hnot1]|].
      split; [eexists; now left|]. split; [reflexivity|].
      split; [discriminate | now intros (? & ? & _ & [=] & _)].
  - rewrite (check_peer_alpn_error c peer on_peer_checked msg Ha).
    cbn [check_events].
    destruct (decide (_ = GRPC_ERROR_NONE ∧ _ ∧ _)) as [([=] & _)|_].
    split; [eexists [_]; split; [reflexivity | apply Hnot1]|].
    split; [eexists; now left|]. split; [reflexivity|].
    split; [discriminate | now intros (? & ? & [=] & _)].
Qed.

(** X19.  When the ALPN check fails, the client's [check_peer] runs the
    callback with the ALPN error and then destroys the peer, without
    assigning an auth context, invoking the capability or touching the
    connector; the server's [check_peer] still derives and assigns the auth
    context, and destroys the peer before it runs the callback with the ALPN
    error. *)
Theorem check_peer_alpn_failure c peer on_peer_checked msg :
  grpc_ssl_check_alpn peer = GRPC_ERROR_CREATE msg →
  check_peer c peer on_peer_checked
    = mkCheck c None
        [EvExecCtxRun (Some on_peer_checked) (GRPC_ERROR_CREATE msg);
         EvTsiPeerDestruct] ∧
  Server_check_peer peer on_peer_checked
    = (grpc_ssl_peer_to_auth_context peer
         GRPC_TLS_SPIFFE_TRANSPORT_SECURITY_TYPE,
       [EvTsiPeerDestruct;
        EvExecCtxRun (Some on_peer_checked) (GRPC_ERROR_CREATE msg)]).
Proof.
  intros Ha. split; [now apply check_peer_alpn_error|].
  unfold Server_check_peer. now rewrite Ha.
Qed.

(** X20.  The reusable request keeps the first certificate.  If the
    request of a connector holds no certificate yet and the capability
    leaves [peer_cert] as it finds it, then after a first [check_peer]
    the capability is handed, at a second [check_peer] for a peer with
    another certificate, the certificate of the first peer. *)
Theorem check_peer_first_certificate_wins c peer1 peer2
    (closure1 closure2 : grpc_closure) config value1 value2 :
  server_authorization_check_config (channel_creds_options c) = Some config →
  grpc_ssl_check_alpn peer1 = GRPC_ERROR_NONE →
  grpc_ssl_check_alpn peer2 = GRPC_ERROR_NONE →
  tsi_peer_get_property_by_name peer1 TSI_X509_PEM_CERT_PROPERTY
    = Some value1 →
  tsi_peer_get_property_by_name peer2 TSI_X509_PEM_CERT_PROPERTY
    = Some value2 →
  check_peer_cert (check_arg_ c) = None →
  (∀ a, check_peer_cert (check_Schedule config a).1 = check_peer_cert a) →
  ∃ a1 a2,
    head (check_events (check_peer c peer1 closure1))
      = Some (EvCheckSchedule a1) ∧
    check_peer_cert a1 = Some (c_str value1) ∧
    head (check_events
            (check_peer (checked_connector (check_peer c peer1 closure1))
               peer2 closure2))
      = Some (EvCheckSchedule a2) ∧
    check_peer_cert a2 = Some (c_str value1).
Proof.
  intros Hc Ha1 Ha2 Hp1 Hp2 Hnone Hkeep.
  destruct (check_peer_scheduled c peer1 closure1 config value1 Hc Ha1 Hp1)
    as [Hcon1 Hev1]. cbv zeta in Hcon1, Hev1.
  set (c1 := checked_connector (check_peer c peer1 closure1)) in *.
  assert (Hc1 : server_authorization_check_config (channel_creds_options c1)
                = Some config) by now rewrite Hcon1.
  destruct (check_peer_scheduled c1 peer2 closure2 config value2 Hc1 Ha2 Hp2)
    as [_ Hev2]. cbv zeta in Hev2.
  exists (populate_check_arg (check_arg_ c) value1
            (default (target_name_ c) (overridden_target_name_ c))),
         (populate_check_arg (check_arg_ c1) value2
            (default (target_name_ c1) (overridden_target_name_ c1))).
  split; [|split; [|split]].
  - rewrite Hev1.
    match goal with |- context [decide ?P] => destruct (decide P) end;
      reflexivity.
  - unfold populate_check_arg. cbn [check_peer_cert]. now rewrite Hnone.
  - rewrite Hev2.
    match goal with |- context [decide ?P] => destruct (decide P) end;
      reflexivity.
  - unfold populate_check_arg at 1. cbn [check_peer_cert].
    rewrite Hcon1. cbn [check_arg_ set_check]. rewrite Hkeep.
    unfold populate_check_arg. cbn [check_peer_cert]. now rewrite Hnone.
Qed.

End CheckMore.

(** ** Creation of connectors and [add_handshakers] *)

Section LifecycleFacts.

Import Spiffe SpiffeLifecycle.

Context `{Collaborators} `{HandshakeCollaborators}.

Implicit Types (c : SpiffeChannelSecurityConnector)
  (sc : SpiffeServerSecurityConnector) (evs : list event).

Lemma core_EvCore evs : core (EvCore <$> evs) = evs.
Proof. induction evs as [|e evs IH]; [reflexivity | cbn; now f_equal]. Qed.

Lemma added_EvCore evs : added (EvCore <$> evs) = [].
Proof. induction evs as [|e evs IH]; [reflexivity | exact IH]. Qed.

Lemma creations_EvCore evs : creations (EvCore <$> evs) = [].
Proof. induction evs as [|e evs IH]; [reflexivity | exact IH]. Qed.

Lemma core_app (l1 l2 : list lifecycle_event) :
  core (l1 ++ l2) = core l1 ++ core l2.
Proof. apply omap_app. Qed.

Lemma added_app (l1 l2 : list lifecycle_event) :
  added (l1 ++ l2) = added l1 ++ added l2.
Proof. apply omap_app. Qed.

Lemma creations_app (l1 l2 : list lifecycle_event) :
  creations (l1 ++ l2) = creations l1 ++ creations l2.
Proof. apply List.filter_app. Qed.

(** A successful initialisation has built exactly one factory from a
    store that passes the assertions, and that store is the connector's. *)
Lemma Initialize_returns_ok c cache c' :
  (InitializeHandshakerFactory c cache).2 = Done (GRPC_SECURITY_OK, c') →
  replace_assertions_hold (key_materials_config_ c') = true ∧
  rebuilds (InitializeHandshakerFactory c cache).1 = 1 ∧
  channel_creds_options c' = channel_creds_options c ∧
  target_name_ c' = target_name_ c ∧
  overridden_target_name_ c' = overridden_target_name_ c ∧
  check_arg_ c' = check_arg_ c.
Proof.
  intros Hr. pose proof (Initialize_steps c cache) as Hs. cbv zeta in Hs.
  rewrite Hs in Hr |- *. case_decide; cbn [fst snd] in *; [|discriminate].
  destruct (Replace_returns _ _ _ _ Hr) as (Ha & slot & ->).
  split; [exact Ha|]. split; [|now repeat split].
  destruct (Replace_ok _ cache Ha) as (p & st & sl & ->). cbn [fst].
  unfold rebuilds. rewrite !count_app.
  destruct (fetch_events_no_factory
              (copy_key_materials (channel_creds_options c)
                 (key_materials_config_ c))
              (channel_creds_options c)
              GRPC_SSL_CERTIFICATE_CONFIG_RELOAD_UNCHANGED) as [_ Hreb].
  unfold rebuilds in Hreb. rewrite Hreb.
  destruct (releases_client_unref
              (set_client_materials c
                 (fetch_materials
                    (TlsFetchKeyMaterials
                       (copy_key_materials (channel_creds_options c)
                          (key_materials_config_ c))
                       (channel_creds_options c)
                       GRPC_SSL_CERTIFICATE_CONFIG_RELOAD_UNCHANGED))))
    as [_ Hu].
  unfold rebuilds in Hu. now rewrite Hu.
Qed.

Lemma ServerInitialize_returns_ok sc sc' :
  (ServerInitializeHandshakerFactory sc).2 = Done (GRPC_SECURITY_OK, sc') →
  replace_assertions_hold (server_key_materials_config_ sc') = true ∧
  rebuilds (ServerInitializeHandshakerFactory sc).1 = 1 ∧
  server_creds_options sc' = server_creds_options sc.
Proof.
  intros Hr. pose proof (ServerInitialize_steps sc) as Hs. cbv zeta in Hs.
  rewrite Hs in Hr |- *. case_decide; cbn [fst snd] in *; [|discriminate].
  destruct (ServerReplace_returns _ _ _ Hr) as (Ha & slot & ->).
  split; [exact Ha|]. split; [|reflexivity].
  destruct (ServerReplace_ok _ Ha) as (p & st & sl & ->). cbn [fst].
  unfold rebuilds. rewrite !count_app.
  destruct (fetch_events_no_factory
              (copy_key_materials (server_creds_options sc)
                 (server_key_materials_config_ sc))
              (server_creds_options sc)
              GRPC_SSL_CERTIFICATE_CONFIG_RELOAD_UNCHANGED) as [_ Hreb].
  unfold rebuilds in Hreb. rewrite Hreb.
  destruct (releases_server_unref
              (set_server_materials sc
                 (fetch_materials
                    (TlsFetchKeyMaterials
                       (copy_key_materials (server_creds_options sc)
                          (server_key_materials_config_ sc))
                       (server_creds_options sc)
                       GRPC_SSL_CERTIFICATE_CONFIG_RELOAD_UNCHANGED))))
    as [_ Hu].
  unfold rebuilds in Hu. now rewrite Hu.
Qed.

(** X21.  [CreateSpiffeChannelSecurityConnector] returns [nullptr] with
    no effect when the credentials or the target name are null.  Every
    connector it returns holds a key-material store that passes the
    assertions of [ReplaceHandshakerFactory] (a non-empty list of complete
    pairs), was given exactly one factory construction, carries the
    credential options, the host part of the target and a copy of the
    override name, and has a fresh authorization request.  When it returns
    [nullptr] after having constructed a connector, that connector has been
    destroyed: its store is released and its request deleted, last. *)
Theorem CreateSpiffeChannelSecurityConnector_spec
    (channel_creds : option grpc_tls_credentials_options)
    (target_name overridden_target_name : c_string)
    (cache : option session_cache_ptr) (garbage : option grpc_closure) :
  (channel_creds = None ∨ target_name = None →
     CreateSpiffeChannelSecurityConnector channel_creds target_name
       overridden_target_name cache garbage = ([], Done None)) ∧
  (∀ c,
     (CreateSpiffeChannelSecurityConnector channel_creds target_name
        overridden_target_name cache garbage).2 = Done (Some c) →
     replace_assertions_hold (key_materials_config_ c) = true ∧
     rebuilds (core (CreateSpiffeChannelSecurityConnector channel_creds
                       target_name overridden_target_name cache garbage).1)
       = 1 ∧
     channel_creds = Some (channel_creds_options c) ∧
     SplitHostPort <$> target_name = Some (target_name_ c) ∧
     overridden_target_name_ c = gpr_strdup overridden_target_name ∧
     check_arg_ c = ServerAuthorizationCheckArgCreate) ∧
  (∀ options target,
     channel_creds = Some options → target_name = Some target →
     (CreateSpiffeChannelSecurityConnector channel_creds target_name
        overridden_target_name cache garbage).2 = Done None →
     ∃ before,
       (CreateSpiffeChannelSecurityConnector channel_creds target_name
          overridden_target_name cache garbage).1
       = before ++ [EvKeyMaterialsUnref; EvCheckArgDelete]).
Proof.
  split; [|split].
  - intros [->| ->]; [reflexivity|]. now destruct channel_creds.
  - intros c Hr. unfold CreateSpiffeChannelSecurityConnector in *.
    destruct channel_creds as [options|]; [|discriminate].
    destruct target_name as [target|]; [|discriminate].
    destruct (InitializeHandshakerFactory _ cache) as [evs [[st c1]|]] eqn:Hi;
      [|discriminate].
    destruct (decide (st ≠ GRPC_SECURITY_OK)) as [Hst|Hst]; [discriminate|].
    apply dec_stable in Hst. subst st. cbn [fst snd] in *.
    injection Hr as <-.
    assert (Hi2 : (InitializeHandshakerFactory
                     (new_SpiffeChannelSecurityConnector options target
                        overridden_target_name garbage) cache).2
                  = Done (GRPC_SECURITY_OK, c1)) by now rewrite Hi.
    destruct (Initialize_returns_ok _ _ _ Hi2)
      as (Ha & Hreb & Ho & Ht & Hov & Hca).
    rewrite Hi in Hreb. cbn [fst] in Hreb. rewrite core_EvCore.
    split; [exact Ha|]. split; [exact Hreb|].
    split; [now rewrite Ho|]. split; [cbn; now rewrite Ht|].
    split; [now rewrite Hov | now rewrite Hca].
  - intros options target -> -> Hr.
    unfold CreateSpiffeChannelSecurityConnector in *.
    destruct (InitializeHandshakerFactory _ cache) as [evs [[st c1]|]] eqn:Hi;
      [|discriminate].
    destruct (decide (st ≠ GRPC_SECURITY_OK)) as [Hst|Hst]; [|discriminate].
    cbn [fst]. unfold destroy_SpiffeChannelSecurityConnector.
    assert (Hi2 : (InitializeHandshakerFactory
                     (new_SpiffeChannelSecurityConnector options target
                        overridden_target_name garbage) cache).2
                  = Done (st, c1)) by now rewrite Hi.
    assert (Hca : check_arg_ c1 = ServerAuthorizationCheckArgCreate).
    { pose proof (Initialize_steps
                    (new_SpiffeChannelSecurityConnector options target
                       overridden_target_name garbage) cache) as Hs.
      cbv zeta in Hs. rewrite Hs in Hi2. case_decide; cbn [snd] in Hi2.
      - now apply Replace_returns in Hi2 as (_ & slot & ->).
      - now injection Hi2 as _ <-. }
    rewrite Hca. cbn [ServerAuthorizationCheckArgDestroy
                      check_destroy_context ServerAuthorizationCheckArgCreate].
    exists ((EvCore <$> evs) ++ (EvCore <$> client_unref c1)).
    now rewrite <- app_assoc.
Qed.

(** X22.  [CreateSpiffeServerSecurityConnector] returns [nullptr] with no
    effect for null credentials, and every connector it returns carries the
    credential options it was given, holds a key-material store that passes
    the assertions of [ReplaceHandshakerFactory] and was given exactly one
    factory construction. *)
Theorem CreateSpiffeServerSecurityConnector_spec
    (server_creds : option grpc_tls_credentials_options) :
  (server_creds = None →
     CreateSpiffeServerSecurityConnector server_creds = ([], Done None)) ∧
  (∀ sc,
     (CreateSpiffeServerSecurityConnector server_creds).2 = Done (Some sc) →
     server_creds = Some (server_creds_options sc) ∧
     replace_assertions_hold (server_key_materials_config_ sc) = true ∧
     rebuilds (core (CreateSpiffeServerSecurityConnector server_creds).1) = 1).
Proof.
  split; [now intros ->|].
  intros sc Hr. unfold CreateSpiffeServerSecurityConnector in *.
  destruct server_creds as [options|]; [|discriminate].
  destruct (ServerInitializeHandshakerFactory _) as [evs [[st c1]|]] eqn:Hi;
    [|discriminate].
  destruct (decide (st ≠ GRPC_SECURITY_OK)) as [Hst|Hst]; [discriminate|].
  apply dec_stable in Hst. subst st. cbn [fst snd] in *.
  injection Hr as <-.
  assert (Hi2 : (ServerInitializeHandshakerFactory
                   (new_SpiffeServerSecurityConnector options)).2
                = Done (GRPC_SECURITY_OK, c1)) by now rewrite Hi.
  destruct (ServerInitialize_returns_ok _ _ Hi2) as (Ha & Hreb & Ho).
  rewrite Hi in Hreb. cbn [fst] in Hreb. rewrite core_EvCore.
  split; [now rewrite Ho|]. split; [exact Ha | exact Hreb].
Qed.

(** X23.  [add_handshakers] on the client runs the factory refresh and
    nothing else of Part II.  When the refresh does not return OK it
    constructs no handshaker and adds none.  When the refresh returns OK it
    constructs exactly one handshaker, from the factory the refresh left in
    the slot and for the override name if the connector has one and the
    target name otherwise; it adds that handshaker to the handshake manager
    exactly when the construction returned TSI_OK, and adds nothing
    otherwise. *)
Theorem add_handshakers_spec c :
  core (add_handshakers c).1 = (RefreshHandshakerFactory c).1 ∧
  ((RefreshHandshakerFactory c).2 = AssertionFailed →
     (add_handshakers c).2 = AssertionFailed ∧
     creations (add_handshakers c).1 = [] ∧
     added (add_handshakers c).1 = []) ∧
  (∀ st c1,
     (RefreshHandshakerFactory c).2 = Done (st, c1) →
     (add_handshakers c).2 = Done c1 ∧
     (st ≠ GRPC_SECURITY_OK →
        creations (add_handshakers c).1 = [] ∧
        added (add_handshakers c).1 = []) ∧
     (st = GRPC_SECURITY_OK →
        creations (add_handshakers c).1
          = [EvCreateClientHandshaker (client_handshaker_factory_ c1)
               (default (target_name_ c) (overridden_target_name_ c))] ∧
        added (add_handshakers c).1
          = if decide
                 ((tsi_ssl_client_handshaker_factory_create_handshaker
                     (client_handshaker_factory_ c1)
                     (default (target_name_ c) (overridden_target_name_ c))).1
                  = TSI_OK)
            then [(tsi_ssl_client_handshaker_factory_create_handshaker
                     (client_handshaker_factory_ c1)
                     (default (target_name_ c)
                              (overridden_target_name_ c))).2]
            else [])).
Proof.
  unfold add_handshakers.
  destruct (RefreshHandshakerFactory c) as [evs [[st c1]|]] eqn:Hr.
  - assert (Hr2 : (RefreshHandshakerFactory c).2 = Done (st, c1))
      by now rewrite Hr.
    destruct (Refresh_frame c st c1 Hr2) as (_ & Ht & Ho & _).
    rewrite Ht, Ho. cbn [fst snd].
    destruct (decide (st ≠ GRPC_SECURITY_OK)) as [Hst|Hst].
    + cbn [fst snd]. rewrite core_EvCore, creations_EvCore, added_EvCore.
      split; [reflexivity|]. split; [discriminate|].
      intros st' c1' [= <- <-]. split; [reflexivity|].
      split; [now intros _ | now intros ?].
    + apply dec_stable in Hst. subst st.
      destruct (decide (_ ≠ TSI_OK)) as [Hc|Hc]; cbn [fst snd];
        rewrite core_app, creations_app, added_app, core_EvCore,
          creations_EvCore, added_EvCore;
        (split; [now rewrite app_nil_r|]); (split; [discriminate|]);
        intros st' c1' [= <- <-]; (split; [reflexivity|]);
        (split; [now intros ?|]); intros _; (split; [reflexivity|]).
      * now rewrite decide_False.
      * apply dec_stable in Hc. now rewrite decide_True.
  - cbn [fst snd]. rewrite core_EvCore, creations_EvCore, added_EvCore.
    split; [reflexivity|]. split; [now intros _|]. discriminate.
Qed.

(** X24.  [add_handshakers] on the server: no handshaker is constructed
    or added unless the factory refresh returned OK; then exactly one is
    constructed, from the factory the refresh left in the slot, and it is
    added exactly when the construction returned TSI_OK. *)
Theorem Server_add_handshakers_spec sc :
  core (Server_add_handshakers sc).1 = (ServerRefreshHandshakerFactory sc).1 ∧
  ((ServerRefreshHandshakerFactory sc).2 = AssertionFailed →
     (Server_add_handshakers sc).2 = AssertionFailed ∧
     creations (Server_add_handshakers sc).1 = [] ∧
     added (Server_add_handshakers sc).1 = []) ∧
  (∀ st sc1,
     (ServerRefreshHandshakerFactory sc).2 = Done (st, sc1) →
     (Server_add_handshakers sc).2 = Done sc1 ∧
     (st ≠ GRPC_SECURITY_OK →
        creations (Server_add_handshakers sc).1 = [] ∧
        added (Server_add_handshakers sc).1 = []) ∧
     (st = GRPC_SECURITY_OK →
        creations (Server_add_handshakers sc).1
          = [EvCreateServerHandshaker (server_handshaker_factory_ sc1)] ∧
        added (Server_add_handshakers sc).1
          = if decide
                 ((tsi_ssl_server_handshaker_factory_create_handshaker
                     (server_handshaker_factory_ sc1)).1 = TSI_OK)
            then [(tsi_ssl_server_handshaker_factory_create_handshaker
                     (server_handshaker_factory_ sc1)).2]
            else [])).
Proof.
  unfold Server_add_handshakers.
  destruct (ServerRefreshHandshakerFactory sc) as [evs [[st sc1]|]] eqn:Hr.
  - cbn [fst snd].
    destruct (decide (st ≠ GRPC_SECURITY_OK)) as [Hst|Hst].
    + cbn [fst snd]. rewrite core_EvCore, creations_EvCore, added_EvCore.
      split; [reflexivity|]. split; [discriminate|].
      intros st' c1' [= <- <-]. split; [reflexivity|].
      split; [now intros _ | now intros ?].
    + apply dec_stable in Hst. subst st.
      destruct (decide (_ ≠ TSI_OK)) as [Hc|Hc]; cbn [fst snd];
        rewrite core_app, creations_app, added_app, core_EvCore,
          creations_EvCore, added_EvCore;
        (split; [now rewrite app_nil_r|]); (split; [discriminate|]);
        intros st' c1' [= <- <-]; (split; [reflexivity|]);
        (split; [now intros ?|]); intros _; (split; [reflexivity|]).
      * now rewrite decide_False.
      * apply dec_stable in Hc. now rewrite decide_True.
  - cbn [fst snd]. rewrite core_EvCore, creations_EvCore, added_EvCore.
    split; [reflexivity|]. split; [now intros _|]. discriminate.
Qed.

End LifecycleFacts.

(** ** The added properties on concrete inputs *)

Section MoreRuns.

Import Connectivity ConnectivityRuns Spiffe Samples SpiffeLifecycle.

Lemma watcher3_not_registered : 3%positive ∉ watchers_ tracker_two_watchers.
Proof. apply (bool_decide_unpack _). vm_compute. exact I. Qed.

Lemma watcher1_registered : 1%positive ∈ watchers_ tracker_two_watchers.
Proof. apply (bool_decide_unpack _). vm_compute. exact I. Qed.

(** X1 at two names that are equal. *)
Lemma ConnectivityStateName_inj_witness :
  ConnectivityStateName GRPC_CHANNEL_TRANSIENT_FAILURE = "TRANSIENT_FAILURE" ∧
  GRPC_CHANNEL_TRANSIENT_FAILURE = GRPC_CHANNEL_TRANSIENT_FAILURE.
Proof.
  split; [reflexivity|].
  exact (ConnectivityStateName_inj GRPC_CHANNEL_TRANSIENT_FAILURE
           GRPC_CHANNEL_TRANSIENT_FAILURE eq_refl).
Defined.

(** X4 at a third watcher on the two-watcher tracker. *)
Lemma AddWatcher_RemoveWatcher_witness :
  (RemoveWatcher true
     (AddWatcher true tracker_two_watchers GRPC_CHANNEL_READY 3%positive).1
     3%positive).1 = tracker_two_watchers ∧
  orphaned
    ((AddWatcher true tracker_two_watchers GRPC_CHANNEL_READY 3%positive).2
     ++ (RemoveWatcher true
           (AddWatcher true tracker_two_watchers GRPC_CHANNEL_READY
              3%positive).1 3%positive).2) = [3%positive].
Proof.
  exact (AddWatcher_RemoveWatcher true tracker_two_watchers GRPC_CHANNEL_READY
           3%positive watcher3_not_registered).
Defined.

(** X8 at [SetState(READY)] on the two-watcher tracker, the closures being
    run in the order they were scheduled. *)
Lemma SetState_async_delivery_witness :
  delivered 1%positive
    (schedule_trace sample_combiner_of
       (SetState false tracker_two_watchers GRPC_CHANNEL_READY "up").2
     ≫= run_closure false)
  = [GRPC_CHANNEL_READY].
Proof.
  destruct (SetState_async_delivery false sample_combiner_of
              tracker_two_watchers GRPC_CHANNEL_READY "up"
              (schedule_trace sample_combiner_of
                 (SetState false tracker_two_watchers GRPC_CHANNEL_READY
                    "up").2)
              1%positive ltac:(discriminate) ltac:(reflexivity))
    as (_ & Hd & _).
  rewrite Hd. now rewrite decide_True by exact watcher1_registered.
Defined.

(** X9 at the sequence READY, READY, TRANSIENT_FAILURE, SHUTDOWN, IDLE. *)
Lemma SetState_sequence_combiner_order_witness :
  notifier_state_
    <$> filter (λ n, notifier_watcher_ n = 1%positive)
          (on_combiner 9%positive
             (schedule_trace sample_combiner_of
                (run false tracker_two_watchers
                   ((λ p, OpSetState p.1 p.2)
                      <$> [(GRPC_CHANNEL_READY, "a"); (GRPC_CHANNEL_READY, "b");
                           (GRPC_CHANNEL_TRANSIENT_FAILURE, "c");
                           (GRPC_CHANNEL_SHUTDOWN, "d");
                           (GRPC_CHANNEL_IDLE, "e")])).2))
  = [GRPC_CHANNEL_READY; GRPC_CHANNEL_TRANSIENT_FAILURE;
     GRPC_CHANNEL_SHUTDOWN].
Proof.
  exact (SetState_sequence_combiner_order false sample_combiner_of
           [(GRPC_CHANNEL_READY, "a"); (GRPC_CHANNEL_READY, "b");
            (GRPC_CHANNEL_TRANSIENT_FAILURE, "c");
            (GRPC_CHANNEL_SHUTDOWN, "d"); (GRPC_CHANNEL_IDLE, "e")]
           tracker_two_watchers 1%positive 9%positive eq_refl
           watcher1_registered).
Defined.

(** X11 at a failing capability with material in the store. *)
Lemma TlsFetchKeyMaterials_ok_with_material_witness :
  fetch_status
    (TlsFetchKeyMaterials materials1
       (options_with None (Some reload_fail) None)
       GRPC_SSL_CERTIFICATE_CONFIG_RELOAD_UNCHANGED) = GRPC_STATUS_OK.
Proof.
  exact (TlsFetchKeyMaterials_ok_with_material materials1
           (options_with None (Some reload_fail) None)
           GRPC_SSL_CERTIFICATE_CONFIG_RELOAD_UNCHANGED ltac:(discriminate)).
Defined.

(** X14 at a connector with no key material and no capability: the
    initialisation fails without building a factory. *)
Lemma reload_failure_keeps_factory_witness :
  @InitializeHandshakerFactory collaborators
    (channel_connector (options_with None None None) None
       grpc_tls_key_materials_config_create) None
  = ([], Done (GRPC_SECURITY_ERROR,
               channel_connector (options_with None None None) None
                 grpc_tls_key_materials_config_create)) ∧
  rebuilds
    (@InitializeHandshakerFactory collaborators
       (channel_connector (options_with None None None) None
          grpc_tls_key_materials_config_create) None).1 = 0.
Proof.
  split; [reflexivity|].
  destruct (@reload_failure_keeps_factory collaborators) as (Hinit & _).
  exact (proj2 (proj2 (proj2
           (Hinit (channel_connector (options_with None None None) None
                     grpc_tls_key_materials_config_create)
                  None GRPC_SECURITY_ERROR _ ltac:(discriminate) eq_refl)))).
Defined.

(** X15 at the client with static credentials. *)
Lemma RefreshHandshakerFactory_steady_state_witness :
  @RefreshHandshakerFactory collaborators client_static
  = ([], Done (GRPC_SECURITY_OK, client_static)).
Proof.
  exact (proj1 (@RefreshHandshakerFactory_steady_state collaborators)
           client_static eq_refl ltac:(discriminate)).
Defined.

(** X16 at a newly constructed connector with static credentials. *)
Lemma InitializeHandshakerFactory_static_witness :
  ∃ pairs c',
    ConvertToTsiPemKeyCertPair (pem_key_cert_pair_list materials1)
      = Done pairs ∧
    @InitializeHandshakerFactory collaborators
      (channel_connector static_options None
         grpc_tls_key_materials_config_create) None
    = ([EvClientFactoryInit pairs (Some "ROOT") None; EvPairsDestroy 1],
       Done (GRPC_SECURITY_OK, c')) ∧
    key_materials_config_ c' = materials1 ∧
    client_handshaker_factory_ c' = Some 100%positive ∧
    @RefreshHandshakerFactory collaborators c'
      = ([], Done (GRPC_SECURITY_OK, c')).
Proof.
  exact (@InitializeHandshakerFactory_static collaborators
           (channel_connector static_options None
              grpc_tls_key_materials_config_create)
           None materials1 eq_refl eq_refl eq_refl).
Defined.

(** X19 at a peer that negotiated another protocol. *)
Lemma check_peer_alpn_failure_witness :
  @check_peer collaborators client_checking peer_bad_alpn 3%positive
  = mkCheck client_checking None
      [EvExecCtxRun (Some 3%positive)
         (GRPC_ERROR_CREATE "Cannot check peer: invalid ALPN value.");
       EvTsiPeerDestruct].
Proof.
  exact (proj1 (@check_peer_alpn_failure collaborators client_checking
                  peer_bad_alpn 3%positive
                  "Cannot check peer: invalid ALPN value." eq_refl)).
Defined.

(** X20 at two peers with certificates PEM and OTHER: the second check
    hands the capability PEM. *)
Lemma check_peer_first_certificate_wins_witness :
  ∃ a1 a2,
    head (check_events
            (@check_peer collaborators client_accepting peer_with_cert
               3%positive)) = Some (EvCheckSchedule a1) ∧
    check_peer_cert a1 = Some "PEM" ∧
    head (check_events
            (@check_peer collaborators
               (checked_connector
                  (@check_peer collaborators client_accepting peer_with_cert
                     3%positive))
               peer_other_cert 4%positive)) = Some (EvCheckSchedule a2) ∧
    check_peer_cert a2 = Some "PEM".
Proof.
  exact (@check_peer_first_certificate_wins collaborators client_accepting
           peer_with_cert peer_other_cert 3%positive 4%positive check_accept
           "PEM" "OTHER" eq_refl eq_refl eq_refl eq_refl eq_refl eq_refl
           (λ a, eq_refl)).
Defined.

(** X21 at static credentials and a target with a port. *)
Lemma CreateSpiffeChannelSecurityConnector_witness :
  ∃ c,
    (@CreateSpiffeChannelSecurityConnector collaborators
       handshake_collaborators (Some static_options) (Some "example.com:443")
       None None None).2 = Done (Some c) ∧
    replace_assertions_hold (key_materials_config_ c) = true ∧
    target_name_ c = "example.com".
Proof.
  eexists. split; [reflexivity|].
  split; [|reflexivity].
  exact (proj1 (proj1 (proj2
           (@CreateSpiffeChannelSecurityConnector_spec collaborators
              handshake_collaborators (Some static_options)
              (Some "example.com:443") None None None)) _ eq_refl)).
Defined.

(** X23 at the client with static credentials: one handshaker, for the
    target name, from the factory in place. *)
Lemma add_handshakers_witness :
  creations (@add_handshakers collaborators handshake_collaborators
               client_static).1
    = [EvCreateClientHandshaker (Some 7%positive) "example.com"] ∧
  added (@add_handshakers collaborators handshake_collaborators
           client_static).1 = [Some 8%positive].
Proof.
  destruct (@add_handshakers_spec collaborators handshake_collaborators
              client_static) as (_ & _ & Hdone).
  destruct (Hdone GRPC_SECURITY_OK client_static eq_refl) as (_ & _ & Hok).
  exact (Hok eq_refl).
Defined.

End MoreRuns.
